(** * AI Code Reviewer & Mentor: the review backend and the scoring rules

    The Express backend (validators.js, authMiddleware.js, rateLimiter.js,
    errorHandler.js, aiService.js, models/Review.js, models/User.js,
    routes/reviews.js, routes/auth.js, server.js) is embedded as pure
    functions over an explicit store, with the conversions of JavaScript and
    of SQLite that its answers depend on.  The Python agent (scoring.py,
    agent.py) is documented but not part of the sources; its scorer and
    detector registry are modelled from the specification. *)

From Stdlib Require Import ZArith QArith Qround Qminmax Qabs Lia Lqa Permutation Ascii String.
From Stdlib Require Import DecimalString.
From Stdlib Require Import Sorted.
From stdpp Require Import base option list strings gmap sorting.

Local Open Scope string_scope.
Local Open Scope list_scope.
Local Open Scope Z_scope.

(** ** JavaScript built-ins used by the backend *)

Module Js.

(** Strings hold one [ascii] per UTF-16 code unit; the model covers the code
    units below 256.  [is_whitespace] is the class [\s] on that range. *)
Definition is_whitespace (c : ascii) : bool :=
  let n := N_of_ascii c in
  ((9 <=? n) && (n <=? 13) || (n =? 32) || (n =? 160))%N.

Fixpoint trimStart (s : string) : string :=
  match s with
  | String c r => if is_whitespace c then trimStart r else s
  | EmptyString => EmptyString
  end.

Fixpoint trimEnd (s : string) : string :=
  match s with
  | String c r =>
      match trimEnd r with
      | EmptyString => if is_whitespace c then EmptyString else String c EmptyString
      | r' => String c r'
      end
  | EmptyString => EmptyString
  end.

(** [str.replace(/^\s+|\s+$/g, '')], which is what validator's [trim] does. *)
Definition trim (s : string) : string := trimEnd (trimStart s).

(** [s.startsWith(p)] *)
Definition startsWith (s p : string) : bool := String.prefix p s.

(** [s.substring(n)] for [0 <= n]. *)
Fixpoint substring (n : nat) (s : string) : string :=
  match n, s with
  | O, _ => s
  | S n', String _ r => substring n' r
  | S _, EmptyString => EmptyString
  end.

(** The value of a digit character in the given radix (10 or 16). *)
Definition digit (radix : Z) (c : ascii) : option Z :=
  let n := Z.of_N (N_of_ascii c) in
  let v := if (48 <=? n) && (n <=? 57) then Some (n - 48)
           else if (97 <=? n) && (n <=? 102) then Some (n - 87)
           else if (65 <=? n) && (n <=? 70) then Some (n - 55)
           else None in
  match v with
  | Some d => if d <? radix then Some d else None
  | None => None
  end.

(** Reads the longest run of digits; [acc] is [None] until a digit is seen. *)
Fixpoint digits (radix : Z) (acc : option Z) (s : string) : option Z :=
  match s with
  | String c r =>
      match digit radix c with
      | Some d => digits radix (Some (default 0 acc * radix + d)) r
      | None => acc
      end
  | EmptyString => acc
  end.

Definition strip_hex (s : string) : option string :=
  match s with
  | String "0" (String "x" r) | String "0" (String "X" r) => Some r
  | _ => None
  end.

Definition unsigned (s : string) : option Z :=
  match strip_hex s with
  | Some r => digits 16 None r
  | None => digits 10 None s
  end.

(** [parseInt(s)] with no radix argument; [None] is NaN.  The number is an
    exact integer here: the comparisons the routes make on it are monotone,
    so the rounding of doubles beyond 2^53 does not change them. *)
Definition parseIntStr (s : string) : option Z :=
  match trimStart s with
  | String "-" r => Z.opp <$> unsigned r
  | String "+" r => unsigned r
  | r => unsigned r
  end.

(** [parseInt(v)] on a query parameter: [undefined] reads as NaN. *)
Definition parseInt (v : option string) : option Z := v ≫= parseIntStr.

(** [x || d] on a number: NaN and 0 (and -0) are falsy. *)
Definition or_default (x : option Z) (d : Z) : Z :=
  match x with
  | Some n => if n =? 0 then d else n
  | None => d
  end.

(** [Math.round] on a rational: the nearest integer, ties upwards. *)
Definition round (q : Q) : Z := Qfloor (q + (1 # 2))%Q.

End Js.

(** ** Data carried by requests, replies and the database *)

(** A parsed JSON value, as axios hands the agent's reply to the backend.
    The numbers of the model are the integers that a double holds exactly. *)
#[local] Unset Elimination Schemes.
Inductive json :=
  | JNull
  | JBool (b : bool)
  | JNum (n : Z)
  | JStr (s : string)
  | JArr (items : list json)
  | JObj (fields : list (string * json)).
#[local] Set Elimination Schemes.

(** Property lookup; a key given twice keeps its last value, as [JSON.parse]. *)
Fixpoint assoc (k : string) (fs : list (string * json)) : option json :=
  match fs with
  | (k', v) :: r =>
      match assoc k r with
      | Some w => Some w
      | None => if String.eqb k k' then Some v else None
      end
  | [] => None
  end.

Definition prop (k : string) (v : json) : option json :=
  match v with
  | JObj fs => assoc k fs
  | _ => None
  end.

(** A row of the [users] table (models/db.js). *)
Record User := mkUser {
  user_id : string;
  oauth_id : string;
  email : string;
  user_name : string
}.

(** A row of the [reviews] table; the two JSON columns are kept parsed. *)
Record ReviewRow := mkReview {
  review_id : string;
  review_user : string;
  review_code : string;
  review_language : string;
  skill_level : string;
  focus_areas : list string;
  review_result : json;
  created_at : Z
}.

(** The payload posted to the agent's [/api/analyze]. *)
Record AgentRequest := mkAgentRequest {
  ar_code : string;
  ar_language : option string;
  ar_skillLevel : string;
  ar_focusAreas : list string
}.

(** What the process holds between requests: the two tables, the hit
    counters of the review rate limiter (one window), and the requests
    that were sent to the agent so far. *)
Record Store := mkStore {
  users : gmap string User;
  reviews : list ReviewRow;
  hits : gmap string nat;
  agent_log : list AgentRequest
}.

(** An [Error] object, with the properties the handlers read. *)
Record JsError := mkError {
  err_name : string;
  err_message : string;
  err_statusCode : option Z;
  err_first_msg : option string;   (* err.errors?.[0]?.msg *)
  err_stack : string
}.

Definition Error (message : string) : JsError :=
  mkError "Error" message None None "".

Definition TypeError (message : string) : JsError :=
  mkError "TypeError" message None None "".

Definition SqliteError (message : string) : JsError :=
  mkError "SqliteError" message None None "".

(** The result of a call that may throw. *)
Inductive Completion (A : Type) :=
  | Return (a : A)
  | Throw (e : JsError).
Arguments Return {A} a.
Arguments Throw {A} e.

(** ** Conversions of JavaScript on parsed JSON values *)

Module JsValue.

(** [if (v)]: [null], [false], [0] and [''] are falsy, every array and
    every object is truthy. *)
Definition truthy (v : json) : bool :=
  match v with
  | JNull => false
  | JBool b => b
  | JNum n => negb (n =? 0)
  | JStr s => negb (String.eqb s "")
  | JArr _ | JObj _ => true
  end.

(** [String(n)] for an integer. *)
Definition decimal (n : Z) : string := NilZero.string_of_int (Z.to_int n).

Definition not_primitive : JsError :=
  TypeError "Cannot convert object to primitive value".

(** [Array.prototype.join]: the elements, converted from left to right,
    with [","] between them. *)
Fixpoint join (convert : json -> Completion string) (l : list json)
  : Completion string :=
  match l with
  | [] => Return ""
  | x :: r =>
      match convert x, r with
      | Throw e, _ => Throw e
      | Return a, [] => Return a
      | Return a, _ :: _ =>
          match join convert r with
          | Return b => Return (a +:+ "," +:+ b)
          | Throw e => Throw e
          end
      end
  end.

(** [String(v)].  An array is the join of its elements, where [null]
    counts as the empty string.  An object answers through
    [Object.prototype.toString], unless it has a property [toString] of its
    own: parsed JSON holds no function, so that property cannot be called,
    [valueOf] returns the object, and the conversion throws. *)
Fixpoint toString (v : json) : Completion string :=
  match v with
  | JNull => Return "null"
  | JBool b => Return (if b then "true" else "false")
  | JNum n => Return (decimal n)
  | JStr s => Return s
  | JArr items =>
      join (fun x => match x with JNull => Return "" | _ => toString x end) items
  | JObj fs =>
      match assoc "toString" fs with
      | Some _ => Throw not_primitive
      | None => Return "[object Object]"
      end
  end.

(** The characters of a string, one string each. *)
Fixpoint characters (s : string) : list json :=
  match s with
  | String c r => JStr (String c EmptyString) :: characters r
  | EmptyString => []
  end.

(** The own enumerable properties that the spread [{ ...v }] copies: the
    properties of an object, the indices of an array or of a string, and
    nothing for any other value. *)
Definition spread (v : json) : list (string * json) :=
  match v with
  | JObj fs => fs
  | JArr items => imap (fun i x => (decimal (Z.of_nat i), x)) items
  | JStr s => imap (fun i x => (decimal (Z.of_nat i), x)) (characters s)
  | _ => []
  end.

(** The assignment of one property in an object literal: a property of
    that name takes the new value where it stands, and a new name is added
    at the end. *)
Definition define (fs : list (string * json)) (kv : string * json)
  : list (string * json) :=
  if existsb (fun p => String.eqb (fst kv) (fst p)) fs then
    (fun p => if String.eqb (fst kv) (fst p) then (fst p, snd kv) else p) <$> fs
  else fs ++ [kv].

End JsValue.

(** ** What SQLite does with the values of the queries *)

Module Sqlite.

(** A value of a result column: NULL, an integer, a text, or the text of
    a JSON array or object (kept parsed). *)
Inductive SqlValue :=
  | SqlNull
  | SqlInteger (n : Z)
  | SqlText (s : string)
  | SqlJson (v : json).

(** [json_extract(column, path)], given what stands at the path ([None]
    when the path leads nowhere): JSON [null] is NULL, [true] and [false]
    are 1 and 0, a string comes without its quotes, an array or an object
    as its JSON text. *)
Definition extracted (v : option json) : SqlValue :=
  match v with
  | None | Some JNull => SqlNull
  | Some (JBool b) => SqlInteger (if b then 1 else 0)
  | Some (JNum n) => SqlInteger n
  | Some (JStr s) => SqlText s
  | Some w => SqlJson w
  end.

Definition is_space (c : ascii) : bool :=
  let n := N_of_ascii c in ((9 <=? n) && (n <=? 13) || (n =? 32))%N.

Fixpoint skip_spaces (s : string) : string :=
  match s with
  | String c r => if is_space c then skip_spaces r else s
  | EmptyString => EmptyString
  end.

(** A run of decimal digits: its value after [acc], its length after [n],
    and what follows it. *)
Fixpoint read_digits (acc : Z) (n : nat) (s : string) : Z * nat * string :=
  match s with
  | String c r =>
      match Js.digit 10 c with
      | Some d => read_digits (acc * 10 + d) (S n) r
      | None => (acc, n, s)
      end
  | EmptyString => (acc, n, s)
  end.

(** A sign, when the text starts with one. *)
Definition read_sign (s : string) : bool * string :=
  match s with
  | String "-" r => (true, r)
  | String "+" r => (false, r)
  | _ => (false, s)
  end.

Definition power_of_ten (e : Z) : Q :=
  if e <? 0 then (1 # Pos.of_nat (Z.to_nat (10 ^ (- e))))%Q else inject_Z (10 ^ e).

(** The number that SQLite reads from a text where it needs one: the
    longest prefix of the shape blanks, sign, digits, [.] digits, exponent;
    a text without such a prefix counts as 0.  The value is exact here, where
    SQLite has the nearest double. *)
Definition text_value (s : string) : Q :=
  let '(negative, s0) := read_sign (skip_spaces s) in
  let '(i, ni, s1) := read_digits 0 O s0 in
  let '(f, nf, s2) :=
    match s1 with
    | String "." r => read_digits 0 O r
    | _ => (0, O, s1)
    end in
  let e :=
    match s2 with
    | String "e" r | String "E" r =>
        let '(minus, r') := read_sign r in
        let '(x, _, _) := read_digits 0 O r' in
        if minus then - x else x
    | _ => 0
    end in
  match ni, nf with
  | O, O => 0%Q
  | _, _ =>
      let mantissa := (inject_Z (i * 10 ^ Z.of_nat nf + f)
                       * power_of_ten (- Z.of_nat nf))%Q in
      let value := (mantissa * power_of_ten e)%Q in
      if negative then (- value)%Q else value
  end.

(** The number that an aggregate such as [AVG] takes from a value; NULL
    gives none.  The text of an array or object starts with a bracket. *)
Definition numeric (v : SqlValue) : option Q :=
  match v with
  | SqlNull => None
  | SqlInteger n => Some (inject_Z n)
  | SqlText s => Some (text_value s)
  | SqlJson _ => Some 0%Q
  end.

(** A JavaScript number is bound as a double, and LIMIT and OFFSET take a
    double only when it is a whole number strictly between -2^63 and 2^63.
    For the integer [n] of the model the double is the nearest one: the
    doubles next to 2^63 are 2^63 - 1024 and 2^63, and the tie at 2^63 - 512
    goes to 2^63. *)
Definition fits_int64 (n : Z) : bool :=
  (- 2 ^ 63 + 512 <? n) && (n <? 2 ^ 63 - 512).

End Sqlite.

(** The failure of an axios call: [error.code], and [error.response] with
    its status and [error.response.data?.error], the [error] property of its
    body ([None] when the body has none). *)
Record AxiosError := mkAxiosError {
  isAxiosError : bool;
  ax_code : option string;
  ax_response : option (Z * option json);
  ax_message : string
}.

Inductive AxiosResult :=
  | Resolved (data : json)
  | Rejected (e : AxiosError).

Inductive JwtResult :=
  | Decoded (userId : string)
  | JwtThrows (name : string).

(** What a request meets outside the process: the verdict of [jwt.verify]
    under the configured secret, the agent behind axios, the next uuid, the
    clock (seconds), and whether NODE_ENV is development. *)
Record Env := mkEnv {
  jwt_verify : string -> JwtResult;
  agent : AgentRequest -> AxiosResult;
  uuidv4 : string;
  now : Z;
  development : bool
}.

Record Body := mkBody {
  code : option string;
  language : option string;
  skillLevel : option string;
  focusAreas : option (list string)
}.

Record Request := mkRequest {
  authorization : option string;
  ip : string;
  body : Body;
  query_limit : option string;
  query_offset : option string;
  param_id : option string;
  user : option User
}.

(** One entry of express-validator's [errors.array()]. *)
Record FieldError := mkFieldError {
  path : string;
  msg : string
}.

Record Stats := mkStats {
  totalReviews : Z;
  averageScore : Z;
  languagesUsed : Z
}.

(** A row of [Review.getRecentSummary]. *)
Record SummaryRow := mkSummaryRow {
  sum_id : string;
  sum_language : string;
  sum_skill_level : string;
  sum_score : Sqlite.SqlValue;
  sum_created_at : Z;
  code_preview : string
}.

Inductive ResBody :=
  | ErrorBody (error : string) (stack : option string)
  | ValidationFailed (errors : list FieldError)
  | RateLimited (error : string) (retryAfter : Z)
  | ReviewCreated (answer : json)
  | ReviewData (review : ReviewRow)
  | Message (message : string)
  | History (rows : list ReviewRow) (stats : Stats)
  | Summary (stats : Stats) (recentReviews : list SummaryRow).

Record Response := mkResponse {
  status : Z;
  res_body : ResBody
}.

(** How a middleware or a handler ends: [next()], a response, or
    [next(err)] (a throw inside [asyncHandler] ends the same way). *)
Inductive Outcome :=
  | Next (req : Request) (st : Store)
  | Respond (res : Response) (st : Store)
  | Raise (err : JsError) (st : Store).

Definition Middleware := Request -> Store -> Outcome.

Definition store_of (o : Outcome) : Store :=
  match o with
  | Next _ st | Respond _ st | Raise _ st => st
  end.

(** ** utils/validators.js *)

Module Validators.

Definition supportedLanguages : list string :=
  ["javascript"; "typescript"; "python"; "go"; "java"; "cpp"; "c"].

Definition skillLevels : list string := ["junior"; "mid"; "senior"].

Definition validAreas : list string :=
  ["bugs"; "performance"; "security"; "clean-code"; "all"].

(** [arr.includes(s)] and validator's [isIn]. *)
Definition includes (l : list string) (s : string) : bool :=
  existsb (String.eqb s) l.

(** express-validator turns an absent value into [''] before a sanitizer
    or a standard validator sees it. *)
Definition toString (v : option string) : string := default "" v.

(** validator's [isLength]: no surrogate pair or variation selector exists
    below code unit 256, so the count is the number of code units. *)
Definition isLength (min max : Z) (s : string) : bool :=
  let len := Z.of_nat (String.length s) in
  (min <=? len) && (len <=? max).

Definition check (ok : bool) (p m : string) : list FieldError :=
  if ok then [] else [mkFieldError p m].

(** [body('code').trim().notEmpty()...isString()...isLength({min: 10, max: 50000})];
    no [bail()], so every failing validator reports.  The value is a string
    once [trim] has run, so [isString] passes. *)
Definition check_code (v : option string) : string * list FieldError :=
  let s := Js.trim (toString v) in
  (s, check (negb (String.eqb s "")) "code" "Code is required"
      ++ check (isLength 10 50000 s) "code"
           "Code must be between 10 and 50000 characters").

Definition check_language (v : option string) : string * list FieldError :=
  let s := Js.trim (toString v) in
  (s, check (negb (String.eqb s "")) "language" "Language is required"
      ++ check (includes supportedLanguages s) "language" "Invalid language").

(** [optional()]: an absent field skips its chain and stays absent. *)
Definition check_skillLevel (v : option string)
  : option string * list FieldError :=
  match v with
  | Some x =>
      let s := Js.trim x in
      (Some s, check (includes skillLevels s) "skillLevel" "Invalid skill level")
  | None => (None, [])
  end.

Definition join (l : list string) : string := String.concat ", " l.

Definition check_focusAreas (v : option (list string)) : list FieldError :=
  match v with
  | Some areas =>
      let invalidAreas := filter (fun area => negb (includes validAreas area)) areas in
      check (Z.of_nat (length invalidAreas) <=? 0) "focusAreas"
        ("Invalid focus areas: " +:+ join invalidAreas)
  | None => []
  end.

(** The whole array [validateCodeReview]: the four chains, which write the
    sanitized values back to [req.body], then [handleValidationErrors]. *)
Definition validateCodeReview : Middleware := fun req st =>
  let b := body req in
  let '(code', e1) := check_code (code b) in
  let '(language', e2) := check_language (language b) in
  let '(skillLevel', e3) := check_skillLevel (skillLevel b) in
  let e4 := check_focusAreas (focusAreas b) in
  let errors := e1 ++ e2 ++ e3 ++ e4 in
  match errors with
  | [] =>
      Next (mkRequest (authorization req) (ip req)
              (mkBody (Some code') (Some language') skillLevel' (focusAreas b))
              (query_limit req) (query_offset req) (param_id req) (user req)) st
  | _ => Respond (mkResponse 400 (ValidationFailed errors)) st
  end.

(** [validateId(paramName)] *)
Definition validateId : Middleware := fun req st =>
  match param_id req with
  | Some (String _ _) => Next req st
  | _ => Respond (mkResponse 400 (ErrorBody "Invalid id" None)) st
  end.

End Validators.

(** ** middleware/authMiddleware.js *)

Module AuthMiddleware.

Definition unauthorized (m : string) : Response := mkResponse 401 (ErrorBody m None).

Definition set_user (req : Request) (u : User) : Request :=
  mkRequest (authorization req) (ip req) (body req)
    (query_limit req) (query_offset req) (param_id req) (Some u).

(** [User.findById]: the row whose primary key is [id]. *)
Definition findById (st : Store) (id : string) : option User := users st !! id.

(** [authenticate]: the two named jwt errors answer 401, any other thrown
    error answers 500; [next()] runs only with the user attached. *)
Definition authenticate (env : Env) : Middleware := fun req st =>
  match authorization req with
  | None => Respond (unauthorized "No authorization token provided") st
  | Some authHeader =>
      if negb (Js.startsWith authHeader "Bearer ") then
        Respond (unauthorized "No authorization token provided") st
      else
        let token := Js.substring 7 authHeader in
        match jwt_verify env token with
        | Decoded userId =>
            match findById st userId with
            | Some u => Next (set_user req u) st
            | None => Respond (unauthorized "User not found") st
            end
        | JwtThrows name =>
            if String.eqb name "JsonWebTokenError" then
              Respond (unauthorized "Invalid token") st
            else if String.eqb name "TokenExpiredError" then
              Respond (unauthorized "Token expired") st
            else
              Respond (mkResponse 500 (ErrorBody "Authentication error" None)) st
        end
  end.

(** [optionalAuth]: the same checks, but every failure goes on with
    [next()] and no user. *)
Definition optionalAuth (env : Env) : Middleware := fun req st =>
  match authorization req with
  | None => Next req st
  | Some authHeader =>
      if negb (Js.startsWith authHeader "Bearer ") then Next req st
      else
        let token := Js.substring 7 authHeader in
        match jwt_verify env token with
        | Decoded userId =>
            match findById st userId with
            | Some u => Next (set_user req u) st
            | None => Next req st
            end
        | JwtThrows _ => Next req st
        end
  end.

End AuthMiddleware.

(** ** middleware/rateLimiter.js *)

Module RateLimiter.

Definition max : nat := 10.

(** [req.user?.id || req.ip] *)
Definition keyGenerator (req : Request) : string :=
  match user req with
  | Some u => if String.eqb (user_id u) "" then ip req else user_id u
  | None => ip req
  end.

Definition set_hits (st : Store) (h : gmap string nat) : Store :=
  mkStore (users st) (reviews st) h (agent_log st).

(** [reviewRateLimiter]: the hit is counted first, and the request is
    refused once the count of its key exceeds [max] (within one window). *)
Definition reviewRateLimiter : Middleware := fun req st =>
  let key := keyGenerator req in
  let totalHits := S (default O (hits st !! key)) in
  let st' := set_hits st (<[key := totalHits]> (hits st)) in
  if (max <? totalHits)%nat then
    Respond (mkResponse 429
      (RateLimited "Too many code review requests. Please try again later." 60)) st'
  else Next req st'.

End RateLimiter.

(** ** middleware/errorHandler.js *)

Module ErrorHandler.

(** [err.statusCode || 500] and [err.message || 'Internal server error'],
    then the four named error types. *)
Definition errorHandler (env : Env) (err : JsError) : Response :=
  let statusCode :=
    match err_statusCode err with
    | Some c => if c =? 0 then 500 else c
    | None => 500
    end in
  let message :=
    if String.eqb (err_message err) "" then "Internal server error"
    else err_message err in
  let '(statusCode, message) :=
    if String.eqb (err_name err) "ValidationError" then
      (400, match err_first_msg err with
            | Some m => if String.eqb m "" then "Validation error" else m
            | None => "Validation error"
            end)
    else if String.eqb (err_name err) "UnauthorizedError" then (401, "Unauthorized")
    else if String.eqb (err_name err) "JsonWebTokenError" then (401, "Invalid token")
    else if String.eqb (err_name err) "TokenExpiredError" then (401, "Token expired")
    else (statusCode, message) in
  mkResponse statusCode
    (ErrorBody message (if development env then Some (err_stack err) else None)).

Definition notFound : Response := mkResponse 404 (ErrorBody "Route not found" None).

End ErrorHandler.

(** ** services/aiService.js *)

Module AiService.

Definition log_call (st : Store) (r : AgentRequest) : Store :=
  mkStore (users st) (reviews st) (hits st) (agent_log st ++ [r]).

(** [error.response?.data?.error], when truthy. *)
Definition response_error (e : AxiosError) : option json :=
  match ax_response e with
  | Some (_, Some v) => if JsValue.truthy v then Some v else None
  | _ => None
  end.

(** [new Error(v)]: the message is [String(v)]; when that conversion
    throws, its error is what leaves the [catch] block. *)
Definition new_Error (v : json) : JsError :=
  match JsValue.toString v with
  | Return m => Error m
  | Throw e => e
  end.

(** [error.response?.status] *)
Definition response_status (e : AxiosError) : option Z := fst <$> ax_response e.

(** The [catch] block: which error is thrown for a failure of the [try]. *)
Definition rethrow (e : AxiosError) : JsError :=
  if isAxiosError e then
    if bool_decide (ax_code e = Some "ECONNREFUSED") then
      Error "AI agent service unavailable. Please ensure the Python agent is running."
    else
      match response_error e with
      | Some v => new_Error v
      | None =>
          if bool_decide (response_status e = Some 500) then
            Error "AI agent encountered an internal error"
          else Error "Failed to analyze code"
      end
  else Error "Failed to analyze code".

(** [analyzeCode(code, language, skillLevel = 'mid', focusAreas = [])].
    axios is given a timeout of 30000 ms; a call that exceeds it is rejected
    like any other failed call.  The reply's data is returned as it came;
    reading [response.data.issues] for the log throws on a [null] reply,
    which the [catch] turns into the generic error. *)
Definition analyzeCode (env : Env) (code : string) (language : option string)
    (skillLevel : option string) (focusAreas : option (list string))
    (st : Store) : Completion json * Store :=
  let payload := mkAgentRequest code language
                   (default "mid" skillLevel) (default [] focusAreas) in
  let st' := log_call st payload in
  match agent env payload with
  | Resolved JNull =>
      (Throw (rethrow (mkAxiosError false None None
                "Cannot read properties of null (reading 'issues')")), st')
  | Resolved data => (Return data, st')
  | Rejected e => (Throw (rethrow e), st')
  end.

End AiService.

(** ** models/Review.js *)

Module Review.

Definition owned_by (userId : string) (r : ReviewRow) : bool :=
  String.eqb (review_user r) userId.

(** [SELECT * FROM reviews WHERE id = ? AND user_id = ?] *)
Definition findById (st : Store) (id userId : string) : option ReviewRow :=
  List.find (fun r => String.eqb (review_id r) id && owned_by userId r) (reviews st).

(** Insertion into a list kept by [created_at], newest first; [r] goes
    before the rows of its own second, so that [order_desc] leaves the rows
    of one second in the order of the table, as SQLite returns them. *)
Fixpoint insert_desc (r : ReviewRow) (l : list ReviewRow) : list ReviewRow :=
  match l with
  | x :: l' => if created_at x <=? created_at r then r :: l
               else x :: insert_desc r l'
  | [] => [r]
  end.

Definition order_desc (l : list ReviewRow) : list ReviewRow :=
  foldr insert_desc [] l.

(** [... WHERE user_id = ? ORDER BY created_at DESC LIMIT ? OFFSET ?].
    A negative limit is no limit and a negative offset is none; a number
    that SQLite cannot take as a 64-bit integer fails the statement. *)
Definition findByUserId (st : Store) (userId : string) (limit offset : Z)
  : Completion (list ReviewRow) :=
  if Sqlite.fits_int64 limit && Sqlite.fits_int64 offset then
    let rows := drop (Z.to_nat offset)
                  (order_desc (filter (fun r => owned_by userId r) (reviews st))) in
    Return (if limit <? 0 then rows else take (Z.to_nat limit) rows)
  else Throw (SqliteError "datatype mismatch").

Definition set_reviews (st : Store) (l : list ReviewRow) : Store :=
  mkStore (users st) l (hits st) (agent_log st).

(** [Review.create]: the INSERT fails on a taken primary key and on a NULL
    in a NOT NULL column (db.js does not switch the foreign keys on, so the
    user id is not checked); the new row is read back. *)
Definition create (env : Env) (st : Store) (userId code : string)
    (language : option string) (skillLevel : string) (focusAreas : list string)
    (reviewResult : json) : Completion ReviewRow * Store :=
  match language with
  | None => (Throw (SqliteError "NOT NULL constraint failed: reviews.language"), st)
  | Some lang =>
      if existsb (fun r => String.eqb (review_id r) (uuidv4 env)) (reviews st) then
        (Throw (SqliteError "UNIQUE constraint failed: reviews.id"), st)
      else
        let row := mkReview (uuidv4 env) userId code lang skillLevel focusAreas
                     reviewResult (now env) in
        (Return row, set_reviews st (reviews st ++ [row]))
  end.

(** [DELETE FROM reviews WHERE id = ? AND user_id = ?]; the number of
    deleted rows is [result.changes]. *)
Definition delete (st : Store) (id userId : string) : Z * Store :=
  let hit r := String.eqb (review_id r) id && owned_by userId r in
  (Z.of_nat (length (filter (fun r => hit r) (reviews st))),
   set_reviews st (filter (fun r => negb (hit r)) (reviews st))).

(** [json_extract(review_result, '$.score.overall')] *)
Definition overall_of (r : ReviewRow) : Sqlite.SqlValue :=
  Sqlite.extracted (prop "score" (review_result r) ≫= prop "overall").

(** SQL [AVG]: NULL values are skipped, every other value counts with the
    number SQLite reads from it, and no value at all gives NULL. *)
Definition avg (l : list Sqlite.SqlValue) : option Q :=
  let values := omap Sqlite.numeric l in
  let total := foldr Qplus 0%Q values in
  let count := Z.of_nat (length values) in
  match values with
  | [] => None
  | _ => Some (total / inject_Z count)%Q
  end.

Record StatsRow := mkStatsRow {
  total_reviews : Z;
  avg_score : option Q;
  languages_used : Z
}.

Definition getStats (st : Store) (userId : string) : StatsRow :=
  let rows := filter (fun r => owned_by userId r) (reviews st) in
  mkStatsRow (Z.of_nat (length rows)) (avg (overall_of <$> rows))
    (Z.of_nat (length (remove_dups (review_language <$> rows)))).

(** [substr(code, 1, 100)] *)
Fixpoint substr (n : nat) (s : string) : string :=
  match n, s with
  | S n', String c r => String c (substr n' r)
  | _, _ => EmptyString
  end.

(** [Review.getRecentSummary(userId, limit)], for a limit from 0 to
    2^31 - 1 (the one call passes 5): the newest rows of the user, each with
    its score as [json_extract] gives it and the first 100 characters of its
    code. *)
Definition getRecentSummary (st : Store) (userId : string) (limit : Z)
  : list SummaryRow :=
  (fun r => mkSummaryRow (review_id r) (review_language r) (skill_level r)
              (overall_of r) (created_at r) (substr 100 (review_code r)))
  <$> take (Z.to_nat limit)
        (order_desc (filter (fun r => owned_by userId r) (reviews st))).

End Review.

(** ** routes/reviews.js, with the dispatch of server.js *)

Module Reviews.

(** Express runs the middlewares of a route in order; each goes on with
    [next()], ends the request with a response, or hands an error on. *)
Fixpoint run (ms : list Middleware) (handler : Middleware) : Middleware :=
  fun req st =>
    match ms with
    | m :: ms' =>
        match m req st with
        | Next req' st' => run ms' handler req' st'
        | o => o
        end
    | [] => handler req st
    end.

(** What the client receives: an error handed on reaches [errorHandler],
    and a route that only calls [next()] falls through to [notFound]. *)
Definition reply (env : Env) (o : Outcome) : Response * Store :=
  match o with
  | Respond res st => (res, st)
  | Raise err st => (ErrorHandler.errorHandler env err, st)
  | Next _ st => (ErrorHandler.notFound, st)
  end.

Definition defaultFocusAreas : list string :=
  ["bugs"; "performance"; "security"; "clean-code"].

Definition no_user : JsError :=
  TypeError "Cannot read properties of undefined (reading 'id')".

Definition no_code : JsError :=
  TypeError "Cannot read properties of undefined (reading 'length')".

(** The object [{ id, ...reviewResult, createdAt }]: the properties are
    assigned from left to right, so an [id] of the result replaces the id of
    the row, and the time of the row replaces a [createdAt] of the result.
    (JavaScript lists names that are indices first; JSON does not tell two
    objects apart by the order of their properties.) *)
Definition review_answer (id : string) (reviewResult : json) (createdAt : Z) : json :=
  JObj (foldl JsValue.define [("id", JStr id)]
          (JsValue.spread reviewResult ++ [("createdAt", JNum createdAt)])).

(** The handler of POST /analyze, inside [asyncHandler]. *)
Definition analyzeHandler (env : Env) : Middleware := fun req st =>
  let b := body req in
  let skillLevel := default "mid" (skillLevel b) in
  let focusAreas := default defaultFocusAreas (focusAreas b) in
  match user req, code b with
  | None, _ => Raise no_user st
  | Some _, None => Raise no_code st
  | Some u, Some code =>
      match AiService.analyzeCode env code (language b)
              (Some skillLevel) (Some focusAreas) st with
      | (Throw e, st1) => Raise e st1
      | (Return reviewResult, st1) =>
          match Review.create env st1 (user_id u) code (language b)
                  skillLevel focusAreas reviewResult with
          | (Throw e, st2) => Raise e st2
          | (Return review, st2) =>
              Respond (mkResponse 200
                (ReviewCreated
                   (review_answer (review_id review) reviewResult (created_at review)))) st2
          end
      end
  end.

Definition bad_request (m : string) : Response := mkResponse 400 (ErrorBody m None).

(** [stats.avg_score ? Math.round(stats.avg_score) : 0] *)
Definition rounded_average (a : option Q) : Z :=
  match a with
  | Some q => if Qeq_bool q 0 then 0 else Js.round q
  | None => 0
  end.

Definition stats_of (s : Review.StatsRow) : Stats :=
  mkStats (Review.total_reviews s) (rounded_average (Review.avg_score s))
    (Review.languages_used s).

(** The handler of GET /history. *)
Definition historyHandler : Middleware := fun req st =>
  let limit := Js.or_default (Js.parseInt (query_limit req)) 20 in
  let offset := Js.or_default (Js.parseInt (query_offset req)) 0 in
  if limit >? 100 then Respond (bad_request "Limit cannot exceed 100") st
  else if (limit <? 1) || (offset <? 0) then
    Respond (bad_request "Invalid limit or offset") st
  else
    match user req with
    | None => Raise no_user st
    | Some u =>
        match Review.findByUserId st (user_id u) limit offset with
        | Throw e => Raise e st
        | Return rows =>
            let stats := Review.getStats st (user_id u) in
            Respond (mkResponse 200 (History rows (stats_of stats))) st
        end
    end.

(** The handler of GET /:id; [validateId] has seen to it that the id is
    there, and an absent id would match no row. *)
Definition getHandler : Middleware := fun req st =>
  match param_id req, user req with
  | _, None => Raise no_user st
  | None, Some _ => Respond (mkResponse 404 (ErrorBody "Review not found" None)) st
  | Some id, Some u =>
      match Review.findById st id (user_id u) with
      | Some review => Respond (mkResponse 200 (ReviewData review)) st
      | None => Respond (mkResponse 404 (ErrorBody "Review not found" None)) st
      end
  end.

(** The handler of DELETE /:id. *)
Definition deleteHandler : Middleware := fun req st =>
  match param_id req, user req with
  | _, None => Raise no_user st
  | None, Some _ => Respond (mkResponse 404 (ErrorBody "Review not found" None)) st
  | Some id, Some u =>
      let '(changes, st') := Review.delete st id (user_id u) in
      if changes =? 0 then
        Respond (mkResponse 404 (ErrorBody "Review not found" None)) st'
      else Respond (mkResponse 200 (Message "Review deleted successfully")) st'
  end.

(** The handler of GET /stats/summary. *)
Definition summaryHandler : Middleware := fun req st =>
  match user req with
  | None => Raise no_user st
  | Some u =>
      let stats := Review.getStats st (user_id u) in
      let recentReviews := Review.getRecentSummary st (user_id u) 5 in
      Respond (mkResponse 200 (Summary (stats_of stats) recentReviews)) st
  end.

(** The protected endpoints of the router. *)
Inductive Endpoint := PostAnalyze | GetHistory | GetReview | DeleteReview | GetSummary.

(** The middlewares registered before the handler of each endpoint. *)
Definition middlewares (env : Env) (e : Endpoint) : list Middleware :=
  match e with
  | PostAnalyze =>
      [AuthMiddleware.authenticate env; RateLimiter.reviewRateLimiter;
       Validators.validateCodeReview]
  | GetHistory | GetSummary => [AuthMiddleware.authenticate env]
  | GetReview | DeleteReview =>
      [AuthMiddleware.authenticate env; Validators.validateId]
  end.

Definition handler_of (env : Env) (e : Endpoint) : Middleware :=
  match e with
  | PostAnalyze => analyzeHandler env
  | GetHistory => historyHandler
  | GetReview => getHandler
  | DeleteReview => deleteHandler
  | GetSummary => summaryHandler
  end.

Definition route (env : Env) (e : Endpoint) : Middleware :=
  run (middlewares env e) (handler_of env e).

End Reviews.

(** ** The agent's issue list and scorer (scoring.py) *)

Module Scoring.

Inductive Severity := SevError | SevWarning | SevInfo.

Inductive Category := Bug | Performance | Security | CleanCode | AntiPattern.

Inductive Dimension :=
  | Correctness | Readability | Maintainability | PerformanceDim | SecurityDim.

Record Issue := mkIssue {
  line : Z;
  severity : Severity;
  category : Category;
  message : string;
  explanation : string;
  suggestion : string
}.

#[global] Instance Category_eq_dec : EqDecision Category.
Proof. solve_decision. Defined.

Local Open Scope Q_scope.

(** Modelled from the spec: scoring.py is not among the sources.  Section
    4.3, step 2: the deduction of a severity (error 15, warning 8, info 3). *)
Definition severity_deduction (s : Severity) : Q :=
  match s with
  | SevError => 15
  | SevWarning => 8
  | SevInfo => 3
  end.

(** Modelled from the spec: scoring.py is not among the sources.  Section
    4.3, step 3: the category x dimension weight matrix; a dimension that is
    not named for a category has weight 0. *)
Definition weight (c : Category) (d : Dimension) : Q :=
  match c, d with
  | Bug, Correctness => 3 # 2
  | Bug, SecurityDim => 1 # 2
  | Security, SecurityDim => 2
  | Security, Correctness => 1 # 2
  | Performance, PerformanceDim => 3 # 2
  | CleanCode, Readability => 1
  | CleanCode, Maintainability => 1
  | AntiPattern, Maintainability => 3 # 2
  | AntiPattern, Readability => 1 # 2
  | _, _ => 0
  end.

(** Modelled from the spec: scoring.py is not among the sources.  Section
    4.3, step 3: what one issue takes from one dimension. *)
Definition deduction (d : Dimension) (i : Issue) : Q :=
  severity_deduction (severity i) * weight (category i) d.

(** Modelled from the spec: scoring.py is not among the sources.  The
    deductions of a dimension are summed over the issues. *)
Definition total_deduction (d : Dimension) (issues : list Issue) : Q :=
  foldr (fun i acc => deduction d i + acc) 0 issues.

(** Modelled from the spec: scoring.py is not among the sources.  Section
    4.3, step 4: a value is brought back into [0,100]. *)
Definition clamp (q : Q) : Q := Qmax 0 (Qmin 100 q).

(** Modelled from the spec: scoring.py is not among the sources.  The
    qualitative adjustment of the model analyzer: one delta per dimension. *)
Definition Adjustment := Dimension -> Q.

(** Modelled from the spec: scoring.py is not among the sources.  Section
    4.3, steps 1 to 5: start at 100, subtract the weighted deductions, clamp,
    then add the adjustment, when there is one, and clamp again.  The
    weights give half points, and the spec fixes no rounding of a dimension,
    so a dimension is an exact rational. *)
Definition dimension_score (d : Dimension) (issues : list Issue)
    (modelAdjustment : option Adjustment) : Q :=
  let base := clamp (100 - total_deduction d issues) in
  match modelAdjustment with
  | Some delta => clamp (base + delta d)
  | None => base
  end.

Record ScoreCard := mkScoreCard {
  correctness : Q;
  readability : Q;
  maintainability : Q;
  performance : Q;
  security : Q;
  overall : Z
}.

(** Modelled from the spec: scoring.py is not among the sources.  The
    unweighted arithmetic mean of the five dimensions of a card. *)
Definition mean (c r m p s : Q) : Q := (c + r + m + p + s) / 5.

(** Modelled from the spec: scoring.py is not among the sources.  The
    nearest integer; the spec does not say where a tie goes, here it goes up. *)
Definition round_nearest (q : Q) : Z := Qfloor (q + (1 # 2)).

(** Modelled from the spec: scoring.py is not among the sources.  Section
    4.3, [score(issues, modelAdjustment)]: the five dimensions (kept in
    lowest terms) and, step 6, [overall] as their rounded mean. *)
Definition score (issues : list Issue) (modelAdjustment : option Adjustment)
  : ScoreCard :=
  let dim d := Qred (dimension_score d issues modelAdjustment) in
  let c := dim Correctness in
  let r := dim Readability in
  let m := dim Maintainability in
  let p := dim PerformanceDim in
  let s := dim SecurityDim in
  mkScoreCard c r m p s (round_nearest (mean c r m p s)).

Definition in_range (q : Q) : Prop := 0 <= q /\ q <= 100.

End Scoring.

(** ** The agent's detector registry (agent.py) *)

Module Agent.

Import Scoring.

Inductive FocusArea := Bugs | PerformanceArea | SecurityArea | CleanCodeArea | All.

Inductive Detector :=
  | BugDetector | AntiPatternDetector | SecurityDetector
  | PerformanceDetector | CleanCodeDetector.

#[global] Instance FocusArea_eq_dec : EqDecision FocusArea.
Proof. solve_decision. Defined.

#[global] Instance Detector_eq_dec : EqDecision Detector.
Proof. solve_decision. Defined.

(** Modelled from the spec: agent.py is not among the sources.  The
    registry holds the five variants, in the order of the documentation. *)
Definition detectors : list Detector :=
  [BugDetector; AntiPatternDetector; SecurityDetector;
   PerformanceDetector; CleanCodeDetector].

(** Modelled from the spec: detectors.py is not among the sources.  The
    category that a detector reports (section 2: five variants). *)
Definition category_of (k : Detector) : Category :=
  match k with
  | BugDetector => Bug
  | AntiPatternDetector => AntiPattern
  | SecurityDetector => Security
  | PerformanceDetector => Performance
  | CleanCodeDetector => CleanCode
  end.

(** Modelled from the spec: agent.py is not among the sources.  The focus
    area that names a category (sections 3 and 6: the areas are bugs,
    performance, security, clean-code and all; none of them names the
    category anti-pattern). *)
Definition area_of (c : Category) : option FocusArea :=
  match c with
  | Bug => Some Bugs
  | Performance => Some PerformanceArea
  | Security => Some SecurityArea
  | CleanCode => Some CleanCodeArea
  | AntiPattern => None
  end.

(** Modelled from the spec: agent.py is not among the sources.  Section
    4.4: the category is included in [focusAreas]. *)
Definition includes (focusAreas : list FocusArea) (c : Category) : bool :=
  match area_of c with
  | Some a => bool_decide (a ∈ focusAreas)
  | None => false
  end.

(** Modelled from the spec: agent.py is not among the sources.  Section
    4.4: a detector is executed when its category is included in
    [focusAreas], and [all] activates every detector. *)
Definition active (focusAreas : list FocusArea) (k : Detector) : bool :=
  bool_decide (All ∈ focusAreas) || includes focusAreas (category_of k).

(** Modelled from the spec: agent.py is not among the sources.  The
    detectors that the registry runs for the requested focus areas. *)
Definition selected (focusAreas : list FocusArea) : list Detector :=
  filter (fun k => active focusAreas k) detectors.

Section Registry.

(** The rule sets themselves: [detect(code, language, lines)] of each variant. *)
Variable detect : Detector -> string -> string -> list string -> list Issue.

(** Modelled from the spec: agent.py is not among the sources.  The
    registry invokes every selected detector on the code and concatenates
    what they report, in registry order. *)
Definition run_detectors (focusAreas : list FocusArea) (code language : string)
    (lines : list string) : list Issue :=
  mjoin ((fun k => detect k code language lines) <$> selected focusAreas).

End Registry.

End Agent.

(** ** The wire shape of a review result *)

Module ReviewResult.

Definition dimensions : list string :=
  ["correctness"; "readability"; "maintainability"; "performance"; "security";
   "overall"].

Definition severities : list string := ["error"; "warning"; "info"].

Definition categories : list string :=
  ["bug"; "performance"; "security"; "clean-code"; "anti-pattern"].

Definition is_string (v : option json) : bool :=
  match v with
  | Some (JStr _) => true
  | _ => false
  end.

Definition is_enum (l : list string) (v : option json) : bool :=
  match v with
  | Some (JStr s) => Validators.includes l s
  | _ => false
  end.

Definition is_points (v : option json) : bool :=
  match v with
  | Some (JNum n) => (0 <=? n) && (n <=? 100)
  | _ => false
  end.

Definition is_score (v : json) : bool :=
  forallb (fun k => is_points (prop k v)) dimensions.

Definition is_issue (v : json) : bool :=
  match prop "line" v with
  | Some (JNum n) =>
      (0 <=? n) && is_enum severities (prop "severity" v)
      && is_enum categories (prop "category" v)
      && is_string (prop "message" v) && is_string (prop "explanation" v)
      && is_string (prop "suggestion" v)
  | _ => false
  end.

(** Section 6 of the specification: the serialized [ReviewResult];
    [improvedCode] is a string when it is there. *)
Definition well_formed (v : json) : bool :=
  match prop "score" v, prop "issues" v, prop "followUpQuestions" v with
  | Some sc, Some (JArr issues), Some (JArr questions) =>
      is_score sc && forallb is_issue issues
      && forallb (fun q => is_string (Some q)) questions
      && is_string (prop "mentorExplanation" v)
      && match prop "improvedCode" v with
         | Some c => is_string (Some c)
         | None => true
         end
  | _, _, _ => false
  end.

(** The body of a response carries a well-formed review result. *)
Definition carried_by (res : Response) : bool :=
  match res_body res with
  | ReviewCreated answer => well_formed answer
  | _ => false
  end.

(** The body of a response is the error object [{ error: ... }]. *)
Definition error_shaped (res : Response) : bool :=
  match res_body res with
  | ErrorBody _ _ => true
  | _ => false
  end.

End ReviewResult.

(** ** Sample data *)

Module Sample.

Definition alice : User := mkUser "u1" "github_123456" "user@github.com" "GitHub User".

Definition store : Store := mkStore {[ "u1" := alice ]} [] ∅ [].

Definition verdict (token : string) : JwtResult :=
  if String.eqb token "good" then Decoded "u1"
  else if String.eqb token "ghost" then Decoded "u404"
  else if String.eqb token "old" then JwtThrows "TokenExpiredError"
  else JwtThrows "JsonWebTokenError".

Definition result : json :=
  JObj [("score", JObj [("correctness", JNum 85); ("readability", JNum 92);
                        ("maintainability", JNum 100); ("performance", JNum 100);
                        ("security", JNum 93); ("overall", JNum 94)]);
        ("issues", JArr [JObj [("line", JNum 1); ("severity", JStr "warning");
                               ("category", JStr "bug");
                               ("message", JStr "Loose equality");
                               ("explanation", JStr "== coerces its operands");
                               ("suggestion", JStr "Use ===")]]);
        ("improvedCode", JStr "if (x === null) { y.push(x) }");
        ("mentorExplanation", JStr "Prefer strict equality.");
        ("followUpQuestions", JArr [JStr "What does == do with undefined?"])].

Definition timed_out : AxiosError :=
  mkAxiosError true (Some "ECONNABORTED") None "timeout of 30000ms exceeded".


Definition env_with (a : AgentRequest -> AxiosResult) : Env :=
  mkEnv verdict a "7c9e6679-7425-40de-944b-e07fc1f90ae7" 1700000000 false.

(** The agent answers with a review. *)
Definition env : Env := env_with (fun _ => Resolved result).

(** The agent does not answer in time. *)
Definition env_timeout : Env := env_with (fun _ => Rejected timed_out).

(** [jwt.verify] finds the token "early" not yet valid (its [nbf] lies
    ahead) and throws jsonwebtoken's NotBeforeError. *)
Definition env_early : Env :=
  mkEnv (fun token => if String.eqb token "early" then JwtThrows "NotBeforeError"
                      else verdict token)
    (fun _ => Resolved result) "7c9e6679-7425-40de-944b-e07fc1f90ae7" 1700000000 false.


Definition snippet : string := "if (x == null) { y.push(x) }".

Definition request (auth : option string) (b : Body) : Request :=
  mkRequest auth "203.0.113.7" b None None None None.

Definition review_request : Request :=
  request (Some "Bearer good") (mkBody (Some snippet) (Some "javascript") None None).

(** A query [?limit=...] of the signed-in user. *)
Definition history_request (limit : option string) : Request :=
  mkRequest (Some "Bearer good") "203.0.113.7" (mkBody None None None None)
    limit None None None.

Definition scored (overall : Z) : json :=
  JObj [("score", JObj [("overall", JNum overall)])].

Definition first_review : ReviewRow :=
  mkReview "r1" "u1" "let a = 1; let b = 2;" "javascript" "mid" ["bugs"]
    (scored 80) 1700000100.

Definition second_review : ReviewRow :=
  mkReview "r2" "u1" "print('hello world')" "python" "junior" ["all"]
    (scored 91) 1700000200.

(** The store once the user has two reviews. *)
Definition history_store : Store :=
  mkStore {[ "u1" := alice ]} [first_review; second_review] ∅ [].

Definition spaces (n : nat) : string := string_of_list_ascii (replicate n " "%char).

(** Fourteen characters of code followed by 49987 blanks: 50001 characters. *)
Definition padded : string := "function f(){}" +:+ spaces (Z.to_nat 49987).

Definition padded_request : Request :=
  request (Some "Bearer good") (mkBody (Some padded) (Some "javascript") None None).

(** Two rule sets for the registry: lines of more than 120 characters
    (clean code) and loops that open with [while (true)] (bugs). *)
Definition scan (rule : string -> bool) (found : Z -> Scoring.Issue)
    (lines : list string) : list Scoring.Issue :=
  omap id (imap (fun i l => if rule l then Some (found (Z.of_nat i + 1)) else None) lines).

Definition long_line (n : Z) : Scoring.Issue :=
  Scoring.mkIssue n Scoring.SevInfo Scoring.CleanCode
    "Line exceeds 120 characters" "Long lines are hard to read and to review"
    "Break the line".

Definition endless_loop (n : Z) : Scoring.Issue :=
  Scoring.mkIssue n Scoring.SevError Scoring.Bug
    "Possible infinite loop" "The loop condition never becomes false"
    "Add an exit condition".

Definition detect (k : Agent.Detector) (code language : string)
    (lines : list string) : list Scoring.Issue :=
  match k with
  | Agent.CleanCodeDetector =>
      scan (fun l => 120 <? Z.of_nat (String.length l)) long_line lines
  | Agent.BugDetector =>
      scan (fun l => String.prefix "while (true)" (Js.trimStart l)) endless_loop lines
  | _ => []
  end.

Definition looping : list string := ["let n = 0;"; "  while (true) { n++ }"].

End Sample.

(** ** models/User.js, over the full rows of the [users] table *)

Module Accounts.

(** A row of [users] with all its columns (models/db.js). *)
Record Account := mkAccount {
  acc_id : string;
  acc_oauth_id : string;
  acc_email : string;
  acc_name : string;
  acc_avatar_url : string;
  acc_created_at : Z;
  acc_updated_at : Z
}.

(** What an OAuth provider tells about a user. *)
Record OAuthInfo := mkOAuthInfo {
  oauthId : string;
  info_email : string;
  info_name : string;
  avatarUrl : string
}.

(** [SELECT * FROM users WHERE id = ?]; the table is kept in rowid order,
    and [stmt.get] returns the first row that matches. *)
Definition findById (t : list Account) (id : string) : option Account :=
  List.find (fun a => String.eqb (acc_id a) id) t.

Definition findByOAuthId (t : list Account) (o : string) : option Account :=
  List.find (fun a => String.eqb (acc_oauth_id a) o) t.

Definition findByEmail (t : list Account) (e : string) : option Account :=
  List.find (fun a => String.eqb (acc_email a) e) t.

(** [User.create]: the INSERT fails on a taken primary key and on a taken
    [oauth_id] (UNIQUE); the new row is read back. *)
Definition create (uuid : string) (now : Z) (t : list Account) (i : OAuthInfo)
  : Completion Account * list Account :=
  if existsb (fun a => String.eqb (acc_id a) uuid) t then
    (Throw (SqliteError "UNIQUE constraint failed: users.id"), t)
  else if existsb (fun a => String.eqb (acc_oauth_id a) (oauthId i)) t then
    (Throw (SqliteError "UNIQUE constraint failed: users.oauth_id"), t)
  else
    let row := mkAccount uuid (oauthId i) (info_email i) (info_name i)
                 (avatarUrl i) now now in
    (Return row, t ++ [row]).

(** The columns of [users] (models/db.js). *)
Inductive Column :=
  | ColId | ColOauthId | ColEmail | ColName | ColAvatarUrl
  | ColCreatedAt | ColUpdatedAt.

Definition column_name (c : Column) : string :=
  match c with
  | ColId => "id"
  | ColOauthId => "oauth_id"
  | ColEmail => "email"
  | ColName => "name"
  | ColAvatarUrl => "avatar_url"
  | ColCreatedAt => "created_at"
  | ColUpdatedAt => "updated_at"
  end.

Definition columns : list Column :=
  [ColId; ColOauthId; ColEmail; ColName; ColAvatarUrl; ColCreatedAt; ColUpdatedAt].

Definition lower (c : ascii) : ascii :=
  let n := N_of_ascii c in
  if ((65 <=? n) && (n <=? 90))%N then ascii_of_N (n + 32) else c.

Fixpoint lowercase (s : string) : string :=
  match s with
  | String c r => String (lower c) (lowercase r)
  | EmptyString => EmptyString
  end.

(** SQLite looks a name of the SET list up among the columns of the
    table, without regard to case. *)
Definition resolve (key : string) : option Column :=
  List.find (fun c => String.eqb (lowercase key) (column_name c)) columns.

(** The first name of the SET list that is no column. *)
Fixpoint unresolved (keys : list string) : option string :=
  match keys with
  | key :: r =>
      match resolve key with
      | Some _ => unresolved r
      | None => Some key
      end
  | [] => None
  end.

(** A text that is a decimal integer, as the two INTEGER columns take it. *)
Definition integer_text (v : string) : option Z :=
  let '(negative, r) := Sqlite.read_sign v in
  match Sqlite.read_digits 0 O r with
  | (n, S _, EmptyString) => Some (if negative then - n else n)
  | _ => None
  end.

(** One assignment [column = ?] with a string bound to it.  Any other
    text would stay a text in an INTEGER column, which the row type does not
    hold; the model leaves the column as it is then. *)
Definition assign (a : Account) (kv : string * string) : Account :=
  let v := snd kv in
  match resolve (fst kv) with
  | Some ColId =>
      mkAccount v (acc_oauth_id a) (acc_email a) (acc_name a) (acc_avatar_url a)
        (acc_created_at a) (acc_updated_at a)
  | Some ColOauthId =>
      mkAccount (acc_id a) v (acc_email a) (acc_name a) (acc_avatar_url a)
        (acc_created_at a) (acc_updated_at a)
  | Some ColEmail =>
      mkAccount (acc_id a) (acc_oauth_id a) v (acc_name a) (acc_avatar_url a)
        (acc_created_at a) (acc_updated_at a)
  | Some ColName =>
      mkAccount (acc_id a) (acc_oauth_id a) (acc_email a) v (acc_avatar_url a)
        (acc_created_at a) (acc_updated_at a)
  | Some ColAvatarUrl =>
      mkAccount (acc_id a) (acc_oauth_id a) (acc_email a) (acc_name a) v
        (acc_created_at a) (acc_updated_at a)
  | Some ColCreatedAt =>
      mkAccount (acc_id a) (acc_oauth_id a) (acc_email a) (acc_name a)
        (acc_avatar_url a) (default (acc_created_at a) (integer_text v))
        (acc_updated_at a)
  | Some ColUpdatedAt =>
      mkAccount (acc_id a) (acc_oauth_id a) (acc_email a) (acc_name a)
        (acc_avatar_url a) (acc_created_at a)
        (default (acc_updated_at a) (integer_text v))
  | None => a
  end.

Definition touch (now : Z) (a : Account) : Account :=
  mkAccount (acc_id a) (acc_oauth_id a) (acc_email a) (acc_name a)
    (acc_avatar_url a) (acc_created_at a) now.

(** [User.update(id, updates)], for an object whose keys are plain names
    (no SQL keyword, no name of the rowid) and whose values are strings.
    Without a key the row is only read.  Otherwise the keys become the SET
    list of [UPDATE users SET key = ?, ..., updated_at = ? WHERE id = ?]; a
    key that is no column fails the statement, and nothing is written.  The
    assignments are made from left to right, the last one to a column
    counts, and the new row must keep [id] and [oauth_id] unique.  The row
    is read back under the id that was passed. *)
Definition update (now : Z) (t : list Account) (id : string)
    (updates : list (string * string))
  : Completion (option Account) * list Account :=
  match updates with
  | [] => (Return (findById t id), t)
  | _ =>
      match unresolved (fst <$> updates) with
      | Some key => (Throw (SqliteError ("no such column: " +:+ key)), t)
      | None =>
          match findById t id with
          | None => (Return None, t)
          | Some old =>
              let row := touch now (foldl assign old updates) in
              let others := filter (fun a => negb (String.eqb (acc_id a) id)) t in
              if existsb (fun a => String.eqb (acc_id a) (acc_id row)) others then
                (Throw (SqliteError "UNIQUE constraint failed: users.id"), t)
              else if existsb (fun a => String.eqb (acc_oauth_id a) (acc_oauth_id row))
                        others then
                (Throw (SqliteError "UNIQUE constraint failed: users.oauth_id"), t)
              else
                let t' := (fun a => if String.eqb (acc_id a) id then row else a) <$> t in
                (Return (findById t' id), t')
          end
      end
  end.

(** [User.delete]: [DELETE FROM users WHERE id = ?], with the number of
    deleted rows. *)
Definition delete (t : list Account) (id : string) : Z * list Account :=
  (Z.of_nat (length (filter (fun a => String.eqb (acc_id a) id) t)),
   filter (fun a => negb (String.eqb (acc_id a) id)) t).

(** [User.getWithReviewCount]: the row of the user with the number of
    reviews that carry its id. *)
Definition getWithReviewCount (t : list Account) (rs : list ReviewRow)
    (userId : string) : option (Account * Z) :=
  match findById t userId with
  | Some a =>
      Some (a, Z.of_nat (length (filter (fun r => Review.owned_by userId r) rs)))
  | None => None
  end.

End Accounts.

(** ** services/authService.js *)

Module AuthService.

Import Accounts.

Definition google_user : OAuthInfo :=
  mkOAuthInfo "google_123456" "user@gmail.com" "Google User"
    "https://lh3.googleusercontent.com/a/default".

Definition github_user : OAuthInfo :=
  mkOAuthInfo "github_123456" "user@github.com" "GitHub User"
    "https://avatars.githubusercontent.com/u/1".

(** [exchangeOAuthCode]: [mockUsers[provider] || mockUsers.google], for
    the provider names that [validateOAuth] lets through and for any other
    name that is not a property of every object. *)
Definition exchangeOAuthCode (code provider : string) : OAuthInfo :=
  if String.eqb provider "google" then google_user
  else if String.eqb provider "github" then github_user
  else google_user.

Record Tokens := mkTokens {
  accessToken : string;
  refreshToken : string;
  expiresIn : string
}.

(** [jwt.sign] under the two secrets, as functions of the user id. *)
Record Signer := mkSigner {
  sign_access : string -> string;
  sign_refresh : string -> string
}.

Definition generateTokens (s : Signer) (userId : string) : Tokens :=
  mkTokens (sign_access s userId) (sign_refresh s userId) "24h".

End AuthService.

(** ** routes/auth.js, at the level of the router *)

Module AuthRoutes.

Import Accounts AuthService.

(** A request to /api/auth: its address, the three body fields read,
    and [req.user]. *)
Record AuthRequest := mkAuthRequest {
  a_ip : string;
  oauth_code : option string;
  provider : option string;
  body_refreshToken : option string;
  a_user : option Account
}.

(** The tables, and the hit counters of [authRateLimiter] (one window). *)
Record AuthStore := mkAuthStore {
  accounts : list Account;
  stored_reviews : list ReviewRow;
  auth_hits : gmap string nat
}.

(** [jwt.verify] under the refresh secret: the decoded user id, or the
    error object that is thrown. *)
Inductive Verdict :=
  | Verified (userId : string)
  | Refused (e : JsError).

Record AuthEnv := mkAuthEnv {
  base : Env;
  signer : Signer;
  verify_refresh : string -> Verdict
}.

Inductive AuthBody :=
  | Plain (b : ResBody)
  | LoggedIn (id email name avatar : string) (tokens : Tokens)
  | Refreshed (tokens : Tokens)
  | CurrentUser (id email name avatar : string) (reviewCount createdAt : Z).

Record AuthResponse := mkAuthResponse {
  a_status : Z;
  a_body : AuthBody
}.

Inductive AuthOutcome :=
  | ANext (req : AuthRequest) (st : AuthStore)
  | ARespond (res : AuthResponse) (st : AuthStore)
  | ARaise (err : JsError) (st : AuthStore).

Definition AuthMiddleware := AuthRequest -> AuthStore -> AuthOutcome.

Definition plain (code : Z) (b : ResBody) : AuthResponse :=
  mkAuthResponse code (Plain b).

(** [authRateLimiter]: five attempts per window and address. *)
Definition authRateLimiter : AuthMiddleware := fun req st =>
  let totalHits := S (default O (auth_hits st !! a_ip req)) in
  let st' := mkAuthStore (accounts st) (stored_reviews st)
               (<[a_ip req := totalHits]> (auth_hits st)) in
  if (5 <? totalHits)%nat then
    ARespond (plain 429
      (RateLimited "Too many authentication attempts. Please try again later." 900)) st'
  else ANext req st'.

(** [validateOAuth] of utils/validators.js: both fields are trimmed, the
    code must not be empty and the provider must be one of the two. *)
Definition validateOAuth : AuthMiddleware := fun req st =>
  let code' := Js.trim (Validators.toString (oauth_code req)) in
  let provider' := Js.trim (Validators.toString (provider req)) in
  let errors :=
    Validators.check (negb (String.eqb code' "")) "code" "OAuth code is required"
    ++ Validators.check (Validators.includes ["google"; "github"] provider')
         "provider" "Invalid OAuth provider" in
  match errors with
  | [] => ANext (mkAuthRequest (a_ip req) (Some code') (Some provider')
                   (body_refreshToken req) (a_user req)) st
  | _ => ARespond (plain 400 (ValidationFailed errors)) st
  end.

Definition set_accounts (st : AuthStore) (t : list Account) : AuthStore :=
  mkAuthStore t (stored_reviews st) (auth_hits st).

Definition logged_in (env : AuthEnv) (u : Account) : AuthResponse :=
  mkAuthResponse 200
    (LoggedIn (acc_id u) (acc_email u) (acc_name u) (acc_avatar_url u)
       (generateTokens (signer env) (acc_id u))).

(** The handler of POST /login: find the user by OAuth id, else by email
    (and then set its OAuth id), else create it. *)
Definition loginHandler (env : AuthEnv) : AuthMiddleware := fun req st =>
  let info := exchangeOAuthCode (Validators.toString (oauth_code req))
                (Validators.toString (provider req)) in
  match findByOAuthId (accounts st) (oauthId info) with
  | Some user => ARespond (logged_in env user) st
  | None =>
      match findByEmail (accounts st) (info_email info) with
      | Some existingUser =>
          match update (now (base env)) (accounts st) (acc_id existingUser)
                  [("oauthId", oauthId info)] with
          | (Throw e, t) => ARaise e (set_accounts st t)
          | (Return None, t) => ARaise Reviews.no_user (set_accounts st t)
          | (Return (Some user), t) => ARespond (logged_in env user) (set_accounts st t)
          end
      | None =>
          match create (uuidv4 (base env)) (now (base env)) (accounts st) info with
          | (Throw e, t) => ARaise e (set_accounts st t)
          | (Return user, t) => ARespond (logged_in env user) (set_accounts st t)
          end
      end
  end.

(** The handler of POST /refresh. *)
Definition refreshHandler (env : AuthEnv) : AuthMiddleware := fun req st =>
  match body_refreshToken req with
  | Some (String c r) =>
      match verify_refresh env (String c r) with
      | Verified userId =>
          match findById (accounts st) userId with
          | Some user =>
              ARespond (mkAuthResponse 200
                          (Refreshed (generateTokens (signer env) (acc_id user)))) st
          | None => ARespond (plain 401 (ErrorBody "Invalid refresh token" None)) st
          end
      | Refused e => ARaise e st
      end
  | _ => ARespond (plain 400 (ErrorBody "Refresh token is required" None)) st
  end.

(** The handler of POST /logout. *)
Definition logoutHandler : AuthMiddleware := fun req st =>
  ARespond (plain 200 (Message "Logged out successfully")) st.

(** The handler of GET /user. *)
Definition userHandler : AuthMiddleware := fun req st =>
  match a_user req with
  | None => ARaise Reviews.no_user st
  | Some u =>
      match getWithReviewCount (accounts st) (stored_reviews st) (acc_id u) with
      | Some (a, n) =>
          ARespond (mkAuthResponse 200
                      (CurrentUser (acc_id a) (acc_email a) (acc_name a)
                         (acc_avatar_url a) n (acc_created_at a))) st
      | None => ARaise Reviews.no_user st
      end
  end.

Fixpoint run (ms : list AuthMiddleware) (handler : AuthMiddleware) : AuthMiddleware :=
  fun req st =>
    match ms with
    | m :: ms' =>
        match m req st with
        | ANext req' st' => run ms' handler req' st'
        | o => o
        end
    | [] => handler req st
    end.

Inductive AuthEndpoint := Login | Refresh | Logout | GetUser.

(** The router.  GET /user is registered with its handler alone. *)
Definition route (env : AuthEnv) (e : AuthEndpoint) : AuthMiddleware :=
  match e with
  | Login => run [authRateLimiter; validateOAuth] (loginHandler env)
  | Refresh => refreshHandler env
  | Logout => logoutHandler
  | GetUser => userHandler
  end.

(** What the client receives; an error handed on reaches [errorHandler]. *)
Definition reply (env : AuthEnv) (o : AuthOutcome) : AuthResponse * AuthStore :=
  match o with
  | ARespond res st => (res, st)
  | ARaise err st =>
      let r := ErrorHandler.errorHandler (base env) err in
      (plain (status r) (res_body r), st)
  | ANext _ st =>
      (plain (status ErrorHandler.notFound) (res_body ErrorHandler.notFound), st)
  end.

End AuthRoutes.

(** ** server.js, for the requests to /api/auth *)

Module Server.

Import Accounts AuthRoutes.

(** What reaches the first middleware of server.js once the body is
    parsed: the address of the client and the three body fields.  Express
    creates the request object, and [user] is none of its properties. *)
Record Arrival := mkArrival {
  from_ip : string;
  sent_code : option string;
  sent_provider : option string;
  sent_refreshToken : option string
}.

Definition request_of (a : Arrival) : AuthRequest :=
  mkAuthRequest (from_ip a) (sent_code a) (sent_provider a) (sent_refreshToken a) None.

(** The counters of [apiRateLimiter] (one window) beside the router's store. *)
Record ServerStore := mkServerStore {
  api_hits : gmap string nat;
  auth_store : AuthStore
}.

(** [app.use('/api', apiRateLimiter)]: a hundred requests per window and
    address; the limiter answers 429 itself, or goes on. *)
Definition apiRateLimiter (req : AuthRequest) (h : gmap string nat)
  : option AuthResponse * gmap string nat :=
  let totalHits := S (default O (h !! a_ip req)) in
  (if (100 <? totalHits)%nat then
     Some (plain 429 (RateLimited "Too many requests. Please slow down." 60))
   else None,
   <[a_ip req := totalHits]> h).

(** The way of a request to /api/auth through server.js: the logging
    middleware only reads the request, then come [apiRateLimiter], the
    router, and [notFound] or [errorHandler]. *)
Definition auth (env : AuthEnv) (e : AuthEndpoint) (a : Arrival) (ss : ServerStore)
  : AuthResponse * ServerStore :=
  let req := request_of a in
  match apiRateLimiter req (api_hits ss) with
  | (Some res, h) => (res, mkServerStore h (auth_store ss))
  | (None, h) =>
      let '(res, st) := reply env (route env e req (auth_store ss)) in
      (res, mkServerStore h st)
  end.

End Server.

(** ** The client: services/auth.js, services/api.js and the components *)

Module Frontend.

(** [getToken]: [localStorage.getItem('accessToken')]. *)
Definition getToken (ls : gmap string string) : option string :=
  ls !! "accessToken".

(** [clearTokens] removes the three keys of the session. *)
Definition clearTokens (ls : gmap string string) : gmap string string :=
  delete "user" (delete "refreshToken" (delete "accessToken" ls)).

(** [isAuthenticated]: [!!getToken()]. *)
Definition isAuthenticated (ls : gmap string string) : bool :=
  match getToken ls with
  | Some token => negb (String.eqb token "")
  | None => false
  end.

(** The request interceptor of services/api.js: with a token in storage,
    the Authorization header of the request becomes [`Bearer ${token}`]. *)
Definition with_token (ls : gmap string string) (authorization : option string)
  : option string :=
  match ls !! "accessToken" with
  | Some token =>
      if String.eqb token "" then authorization else Some ("Bearer " +:+ token)
  | None => authorization
  end.

(** [getCurrentUser] up to its request: without a token it throws. *)
Definition getCurrentUser_header (ls : gmap string string) : Completion string :=
  match getToken ls with
  | Some (String c r) => Return ("Bearer " +:+ String c r)
  | _ => Throw (Error "No token found")
  end.

(** The settings of Sidebar.jsx. *)
Definition languageOptions : list string :=
  ["javascript"; "typescript"; "python"; "go"; "java"; "cpp"; "c"].

Definition skillOptions : list string := ["junior"; "mid"; "senior"].

Definition areaOptions : list string :=
  ["bugs"; "performance"; "security"; "clean-code"; "all"].

Definition initialFocusAreas : list string :=
  ["bugs"; "performance"; "security"; "clean-code"].

(** [handleFocusAreaToggle]: a selected area is removed, another is added
    at the end. *)
Definition handleFocusAreaToggle (area : string) (prev : list string)
  : list string :=
  if Validators.includes prev area then
    filter (fun a => negb (String.eqb a area)) prev
  else prev ++ [area].

(** The focus areas after a run of clicks on the check boxes. *)
Definition after_clicks (clicks : list string) : list string :=
  foldl (fun prev area => handleFocusAreaToggle area prev) initialFocusAreas clicks.

(** DashboardPage.jsx: the submit button is disabled while [!code.trim()],
    and [handleSubmit] sends the code with the settings of the sidebar. *)
Definition can_submit (code : string) : bool :=
  negb (String.eqb (Js.trim code) "").

Definition submission (code language skillLevel : string)
    (focusAreas : list string) : Body :=
  mkBody (Some code) (Some language) (Some skillLevel) (Some focusAreas).

(** ExplanationPanel.jsx: the colour of a dimension's badge and of the
    overall figure. *)
Definition green : string := "text-green-600 dark:text-green-400".
Definition yellow : string := "text-yellow-600 dark:text-yellow-400".
Definition red : string := "text-red-600 dark:text-red-400".

Definition badge_colour (score : Z) : string :=
  if score <? 60 then red else if score <? 80 then yellow else green.

Definition overall_colour (score : Z) : string :=
  if score >=? 80 then green else if score >=? 60 then yellow else red.

End Frontend.

(** ** Runs of requests and further sample data *)

Module Scenario.

(** The store after [k] requests of the same client have met the review
    rate limiter. *)
Definition after_hits (k : nat) (req : Request) (st : Store) : Store :=
  Nat.iter k (fun s => store_of (RateLimiter.reviewRateLimiter req s)) st.

(** The middleware went on with the request. *)
Definition passed (o : Outcome) : bool :=
  match o with
  | Next _ _ => true
  | _ => false
  end.

(** The body of a review request that [validateCodeReview] accepts. *)
Definition acceptable (b : Body) : Prop :=
  Validators.isLength 10 50000 (Js.trim (Validators.toString (code b))) = true
  /\ Validators.includes Validators.supportedLanguages
       (Js.trim (Validators.toString (language b))) = true
  /\ (forall s, skillLevel b = Some s ->
        Validators.includes Validators.skillLevels (Js.trim s) = true)
  /\ (forall areas, focusAreas b = Some areas ->
        Forall (fun a => Validators.includes Validators.validAreas a = true) areas).

(** The same request, asking for the review [id]. *)
Definition asking_for (id : string) (req : Request) : Request :=
  mkRequest (authorization req) (ip req) (body req)
    (query_limit req) (query_offset req) (Some id) None.

(** Newest first. *)
Definition newest_first (rows : list ReviewRow) : Prop :=
  StronglySorted (fun a b => created_at b <= created_at a) rows.

Definition bob : User := mkUser "u2" "google_123456" "user@gmail.com" "Google User".

Definition bobs_review : ReviewRow :=
  mkReview "r3" "u2" "package main; func main() {}" "go" "senior" ["security"]
    (Sample.scored 64) 1700000150.

(** Two users; the first has two reviews, the second one. *)
Definition shared_store : Store :=
  mkStore {[ "u1" := Sample.alice; "u2" := bob ]}
    [Sample.first_review; bobs_review; Sample.second_review] ∅ [].

Definition signed_in (u : User) (id : option string) : Request :=
  mkRequest None "203.0.113.7" (mkBody None None None None) None None id (Some u).

Definition signer : AuthService.Signer :=
  AuthService.mkSigner (fun u => "access." +:+ u) (fun u => "refresh." +:+ u).

Definition refresh_verdict (t : string) : AuthRoutes.Verdict :=
  if String.eqb t "refresh.a1" then AuthRoutes.Verified "a1"
  else AuthRoutes.Refused (mkError "JsonWebTokenError" "jwt malformed" None None "").

Definition auth_env : AuthRoutes.AuthEnv :=
  AuthRoutes.mkAuthEnv Sample.env signer refresh_verdict.

Definition login_request (p : string) : AuthRoutes.AuthRequest :=
  AuthRoutes.mkAuthRequest "203.0.113.7" (Some "4/0AX4XfWh") (Some p) None None.

Definition empty_auth_store : AuthRoutes.AuthStore :=
  AuthRoutes.mkAuthStore [] [] ∅.

(** A user who signed up with another provider under the GitHub address. *)
Definition known_by_email : AuthRoutes.AuthStore :=
  AuthRoutes.mkAuthStore
    [Accounts.mkAccount "a1" "google_777" "user@github.com" "Someone" "" 1690000000
       1690000000] [] ∅.

End Scenario.

(** ** Conditions named by the properties *)

Module Conditions.

(** The request carries no usable credentials: no header, a header that
    is not a bearer header, a token that [jwt.verify] refuses as invalid or
    as expired, or a token of a user who is not in the table. *)
Inductive unauthenticated (env : Env) (st : Store) (req : Request) : Prop :=
  | no_header :
      authorization req = None -> unauthenticated env st req
  | not_bearer h :
      authorization req = Some h -> Js.startsWith h "Bearer " = false ->
      unauthenticated env st req
  | invalid_token h :
      authorization req = Some h -> Js.startsWith h "Bearer " = true ->
      jwt_verify env (Js.substring 7 h) = JwtThrows "JsonWebTokenError" ->
      unauthenticated env st req
  | expired_token h :
      authorization req = Some h -> Js.startsWith h "Bearer " = true ->
      jwt_verify env (Js.substring 7 h) = JwtThrows "TokenExpiredError" ->
      unauthenticated env st req
  | unknown_user h userId :
      authorization req = Some h -> Js.startsWith h "Bearer " = true ->
      jwt_verify env (Js.substring 7 h) = Decoded userId ->
      users st !! userId = None ->
      unauthenticated env st req.

(** The middlewares of POST /analyze let the request through to the
    handler, which then sees [req'] and [st']. *)
Definition admitted (env : Env) (req : Request) (st : Store)
    (req' : Request) (st' : Store) : Prop :=
  Reviews.run (Reviews.middlewares env Reviews.PostAnalyze) Next req st = Next req' st'.

(** The entry of the error list for a code of the wrong length. *)
Definition length_error : FieldError :=
  mkFieldError "code" "Code must be between 10 and 50000 characters".

(** The request that the handler of POST /analyze sends to the agent for
    an admitted request [req]: the sanitized code and language, and the
    defaults of the handler for what the client left out. *)
Definition payload_for (req : Request) : AgentRequest :=
  let b := body req in
  mkAgentRequest (Js.trim (Validators.toString (code b)))
    (Some (Js.trim (Validators.toString (language b))))
    (default "mid" (Js.trim <$> skillLevel b))
    (default Reviews.defaultFocusAreas (focusAreas b)).

(** The text that [errorHandler] shows for the message of an error:
    [err.message || 'Internal server error']. *)
Definition shown (m : string) : string :=
  if String.eqb m "" then "Internal server error" else m.

(** The number of characters of the submitted code, as the client sent it. *)
Definition code_length (req : Request) : Z :=
  Z.of_nat (String.length (Validators.toString (code (body req)))).

(** The same after the [trim()] of the validation chain. *)
Definition trimmed_length (req : Request) : Z :=
  Z.of_nat (String.length (Js.trim (Validators.toString (code (body req))))).

End Conditions.

(** * Properties *)

Example parseInt_examples :
  Js.parseInt (Some "42") = Some 42 /\ Js.parseInt (Some " -7px") = Some (-7)
  /\ Js.parseInt (Some "abc") = None /\ Js.parseInt None = None
  /\ Js.parseInt (Some "0x1F") = Some 31 /\ Js.parseInt (Some "") = None
  /\ Js.parseInt (Some "0") = Some 0.
Proof. repeat split; reflexivity. Qed.

Example trim_examples :
  Js.trim "  a b  " = "a b" /\ Js.trim "   " = "" /\ Js.trim "x" = "x".
Proof. repeat split; reflexivity. Qed.


(** ** Routing *)

(** Case analysis on every [match] and [if] of the goal, in turn. *)
Ltac case_matches tac :=
  repeat (match goal with
          | |- context [match ?x with _ => _ end] => destruct x
          end; simpl; tac).

Section Routing.

Import Reviews.

Lemma run_respond m ms h req st res st' :
  m req st = Respond res st' -> run (m :: ms) h req st = Respond res st'.
Proof. intros E. simpl. now rewrite E. Qed.

Lemma run_raise m ms h req st err st' :
  m req st = Raise err st' -> run (m :: ms) h req st = Raise err st'.
Proof. intros E. simpl. now rewrite E. Qed.

Lemma run_next m ms h req st req' st' :
  m req st = Next req' st' -> run (m :: ms) h req st = run ms h req' st'.
Proof. intros E. simpl. now rewrite E. Qed.

(** The handler runs on what the middlewares hand over, and only then. *)
Lemma run_pass ms h : forall req st,
  run ms h req st =
  match run ms Next req st with
  | Next req' st' => h req' st'
  | o => o
  end.
Proof.
  induction ms as [|m ms IH]; intros req st; simpl; [reflexivity|].
  destruct (m req st); auto.
Qed.

Lemma middlewares_start env e :
  exists ms, middlewares env e = AuthMiddleware.authenticate env :: ms.
Proof. destruct e; simpl; eauto. Qed.

End Routing.

(** ** Authentication *)

Section Authentication.

Import AuthMiddleware Conditions.

Lemma authenticate_refuses env st req :
  unauthenticated env st req ->
  exists m, authenticate env req st = Respond (unauthorized m) st.
Proof.
  unfold authenticate.
  destruct 1 as [E|h E B|h E B V|h E B V|h uid E B V U]; rewrite E; eauto;
    rewrite B; cbn [negb]; eauto; rewrite V; eauto.
  unfold findById. rewrite U. eauto.
Qed.

(** [authenticate] never writes to the store. *)
Lemma authenticate_store env req st :
  store_of (authenticate env req st) = st.
Proof.
  unfold authenticate. case_matches ltac:(try reflexivity).
Qed.

(** When [authenticate] goes on, it has only attached a user. *)
Lemma authenticate_next env req st req' st' :
  authenticate env req st = Next req' st' ->
  st' = st /\ exists u, req' = set_user req u.
Proof.
  unfold authenticate. case_matches ltac:(try discriminate).
  intros [= <- <-]. eauto.
Qed.

(** Any other error thrown by [jwt.verify] is answered 500, not 401. *)
Lemma authenticate_other_error env req st h name :
  authorization req = Some h -> Js.startsWith h "Bearer " = true ->
  jwt_verify env (Js.substring 7 h) = JwtThrows name ->
  name <> "JsonWebTokenError" -> name <> "TokenExpiredError" ->
  authenticate env req st
  = Respond (mkResponse 500 (ErrorBody "Authentication error" None)) st.
Proof.
  intros E B V N1 N2. unfold authenticate. rewrite E, B. cbn [negb]. rewrite V.
  apply String.eqb_neq in N1, N2. now rewrite N1, N2.
Qed.

(** C10 (as the code has it): a request to a protected review endpoint
    without a header, with a header that is not a bearer header, with a
    token that [jwt.verify] refuses with a JsonWebTokenError or a
    TokenExpiredError, or with a token of an unknown user is answered 401 by
    [authenticate]; whatever stands after it in the chain is not run (the
    outcome is the same for every rest of the chain and every handler), and
    the store, hence every review, is as before. *)
Theorem unauthenticated_request_gets_401 env e req st :
  unauthenticated env st req ->
  exists res,
    status res = 401
    /\ ReviewResult.error_shaped res = true
    /\ (forall ms h, Reviews.run (authenticate env :: ms) h req st = Respond res st)
    /\ Reviews.reply env (Reviews.route env e req st) = (res, st).
Proof.
  intros U. destruct (authenticate_refuses env st req U) as [m A].
  exists (unauthorized m). repeat split.
  - intros ms h. now apply run_respond.
  - unfold Reviews.route.
    destruct (middlewares_start env e) as [ms ->].
    now rewrite (run_respond _ _ _ _ _ _ _ A).
Qed.

Lemma unauthenticated_request_gets_401_witness :
  exists res,
    status res = 401
    /\ ReviewResult.error_shaped res = true
    /\ (forall ms h,
          Reviews.run (authenticate Sample.env :: ms) h
            (Sample.request (Some "Bearer ghost") (mkBody None None None None))
            Sample.store = Respond res Sample.store)
    /\ Reviews.reply Sample.env
         (Reviews.route Sample.env Reviews.DeleteReview
            (Sample.request (Some "Bearer ghost") (mkBody None None None None))
            Sample.store) = (res, Sample.store).
Proof.
  apply (unauthenticated_request_gets_401 Sample.env Reviews.DeleteReview).
  apply (unknown_user _ _ _ "Bearer ghost" "u404"); vm_compute; reflexivity.
Defined.

(** C10 fails as stated for a token that fails verification in another
    way: a token that is not yet valid makes [jwt.verify] throw a
    NotBeforeError, and the request is answered 500, not 401. *)
Lemma token_not_yet_valid_gets_500 :
  jwt_verify Sample.env_early (Js.substring 7 "Bearer early")
  = JwtThrows "NotBeforeError"
  /\ Reviews.reply Sample.env_early
       (Reviews.route Sample.env_early Reviews.GetHistory
          (Sample.request (Some "Bearer early") (mkBody None None None None))
          Sample.store)
     = (mkResponse 500 (ErrorBody "Authentication error" None), Sample.store)
  /\ status (fst (Reviews.reply Sample.env_early
                    (Reviews.route Sample.env_early Reviews.PostAnalyze
                       Sample.review_request Sample.store))) = 200
  /\ status (fst (Reviews.reply Sample.env_early
                    (Reviews.route Sample.env_early Reviews.PostAnalyze
                       (Sample.request (Some "Bearer early")
                          (mkBody (Some Sample.snippet) (Some "javascript") None None))
                       Sample.store))) <> 401.
Proof. vm_compute. repeat split; discriminate. Qed.

End Authentication.

(** ** Validation of a review request *)

Section Validation.

Import Validators Conditions.

Lemma check_cases ok p m : check ok p m = [] \/ check ok p m = [mkFieldError p m].
Proof. destruct ok; simpl; auto. Qed.

(** A code whose trimmed length is out of bounds ends the request with 400. *)
Lemma validate_rejects req st :
  isLength 10 50000 (Js.trim (toString (code (body req)))) = false ->
  exists errors,
    validateCodeReview req st = Respond (mkResponse 400 (ValidationFailed errors)) st
    /\ In length_error errors.
Proof.
  intros L. unfold validateCodeReview, check_code. rewrite L.
  destruct (check_language _) as [language' e2].
  destruct (check_skillLevel _) as [skillLevel' e3].
  destruct (check_cases (negb (String.eqb (Js.trim (toString (code (body req)))) ""))
              "code" "Code is required") as [-> | ->]; simpl;
    eexists; (split; [reflexivity|]); simpl; auto.
Qed.

(** What the handler finds in the request when validation lets it pass. *)
Lemma validate_next req st req' st' :
  validateCodeReview req st = Next req' st' ->
  st' = st /\ user req' = user req
  /\ code (body req') = Some (Js.trim (toString (code (body req))))
  /\ language (body req') = Some (Js.trim (toString (language (body req))))
  /\ skillLevel (body req') = Js.trim <$> skillLevel (body req)
  /\ focusAreas (body req') = focusAreas (body req)
  /\ isLength 10 50000 (Js.trim (toString (code (body req)))) = true.
Proof.
  unfold validateCodeReview. intros H.
  destruct (check_code _) as [c e1] eqn:E1.
  destruct (check_language _) as [l e2] eqn:E2.
  destruct (check_skillLevel _) as [s e3] eqn:E3.
  destruct (e1 ++ e2 ++ e3 ++ check_focusAreas _) eqn:EE; [|discriminate].
  injection H as <- <-. simpl.
  apply app_eq_nil in EE as [-> _].
  unfold check_code in E1. injection E1 as <- E1.
  apply app_eq_nil in E1 as [_ E1].
  unfold check_language in E2. injection E2 as <- _.
  assert (s = Js.trim <$> skillLevel (body req)) as ->.
  { unfold check_skillLevel in E3.
    destruct (skillLevel (body req)); now injection E3 as <- _. }
  repeat split.
  destruct (isLength 10 50000 _); [reflexivity|discriminate].
Qed.

(** The rate limiter touches only its hit counters. *)
Lemma limiter_cases req st :
  exists st', users st' = users st /\ reviews st' = reviews st
              /\ agent_log st' = agent_log st
              /\ (RateLimiter.reviewRateLimiter req st = Next req st'
                  \/ exists res, RateLimiter.reviewRateLimiter req st = Respond res st').
Proof.
  unfold RateLimiter.reviewRateLimiter.
  set (key := RateLimiter.keyGenerator req).
  set (st' := RateLimiter.set_hits st _).
  exists st'. do 3 (split; [reflexivity|]).
  destruct (_ <? _)%nat; eauto.
Qed.

End Validation.

Section Admission.

Import Validators Conditions Reviews.

(** What the handler of POST /analyze can rely on: a signed-in user, the
    sanitized body, a code of 10 to 50000 characters, and tables that no
    middleware has touched. *)
Lemma admitted_inv env req st req' st' :
  admitted env req st req' st' ->
  (exists u, user req' = Some u)
  /\ code (body req') = Some (Js.trim (toString (code (body req))))
  /\ language (body req') = Some (Js.trim (toString (language (body req))))
  /\ skillLevel (body req') = Js.trim <$> skillLevel (body req)
  /\ focusAreas (body req') = focusAreas (body req)
  /\ isLength 10 50000 (Js.trim (toString (code (body req)))) = true
  /\ reviews st' = reviews st /\ agent_log st' = agent_log st.
Proof.
  unfold admitted. simpl.
  destruct (AuthMiddleware.authenticate env req st) as [req0 st0| |] eqn:A;
    try discriminate.
  apply authenticate_next in A.
  destruct A as [-> [u ->]].
  destruct (limiter_cases (AuthMiddleware.set_user req u) st)
    as (st1 & _ & R & G & [-> | [res ->]]); [|discriminate].
  destruct (validateCodeReview _ st1) as [req2 st2| |] eqn:V; try discriminate.
  intros [= -> ->]. apply validate_next in V.
  destruct V as (-> & U & C & La & S & F & Len). simpl in *.
  rewrite U. eauto 12.
Qed.

(** C5 (as the code has it): a request whose code, once trimmed, is
    shorter than 10 or longer than 50000 characters is answered 400
    "Validation failed" by [validateCodeReview], with the length error in
    the list, and the route never sends it to the agent. *)
Theorem out_of_bounds_code_is_rejected req st :
  trimmed_length req < 10 \/ 50000 < trimmed_length req ->
  (exists errors,
     validateCodeReview req st = Respond (mkResponse 400 (ValidationFailed errors)) st
     /\ In length_error errors)
  /\ forall env, agent_log (store_of (route env PostAnalyze req st)) = agent_log st.
Proof.
  intros B.
  assert (L : isLength 10 50000 (Js.trim (toString (code (body req)))) = false).
  { unfold trimmed_length in B. unfold isLength. cbv zeta.
    destruct B; [apply andb_false_intro1|apply andb_false_intro2]; lia. }
  split; [now apply validate_rejects|].
  intros env. unfold route. simpl.
  destruct (AuthMiddleware.authenticate env req st) as [req0 st0|res st0|err st0] eqn:A.
  - apply authenticate_next in A. destruct A as [-> [u ->]].
    destruct (limiter_cases (AuthMiddleware.set_user req u) st)
      as (st1 & _ & _ & G & [-> | [res ->]]); [|exact G].
    destruct (validate_rejects (AuthMiddleware.set_user req u) st1 L)
      as (errors & -> & _). exact G.
  - pose proof (authenticate_store env req st) as S.
    rewrite A in S. simpl in *. now subst.
  - pose proof (authenticate_store env req st) as S.
    rewrite A in S. simpl in *. now subst.
Qed.

Lemma out_of_bounds_code_is_rejected_witness :
  (exists errors,
     validateCodeReview
       (Sample.request (Some "Bearer good")
          (mkBody (Some "  x = 1;   ") (Some "javascript") None None))
       Sample.store
     = Respond (mkResponse 400 (ValidationFailed errors)) Sample.store
     /\ In length_error errors)
  /\ forall env,
       agent_log (store_of (route env PostAnalyze
         (Sample.request (Some "Bearer good")
            (mkBody (Some "  x = 1;   ") (Some "javascript") None None))
         Sample.store)) = agent_log Sample.store.
Proof.
  apply out_of_bounds_code_is_rejected. left. vm_compute. reflexivity.
Defined.

(** C5 fails as stated: this code has 50001 characters, more than 50000,
    and yet the request is accepted: the agent is asked about its 14
    characters that are not blank, and the review is stored. *)
Lemma long_padded_code_is_accepted :
  50000 < code_length Sample.padded_request
  /\ status (fst (reply Sample.env
                    (route Sample.env PostAnalyze Sample.padded_request Sample.store)))
     = 200
  /\ agent_log (snd (reply Sample.env
                    (route Sample.env PostAnalyze Sample.padded_request Sample.store)))
     = [mkAgentRequest "function f(){}" (Some "javascript") "mid" defaultFocusAreas].
Proof. vm_compute. repeat split. Qed.

End Admission.

(** ** The handler of POST /analyze and the agent *)

Section Analyze.

Import Validators Conditions Reviews AiService.

(** On an admitted request the route is its handler, run on the sanitized
    request, and the agent receives [payload_for req]. *)
Lemma route_admitted env req st req' st' :
  admitted env req st req' st' ->
  route env PostAnalyze req st = analyzeHandler env req' st'
  /\ exists u c,
       user req' = Some u /\ code (body req') = Some c
       /\ mkAgentRequest c (language (body req'))
            (default "mid" (Some (default "mid" (skillLevel (body req')))))
            (default [] (Some (default defaultFocusAreas (focusAreas (body req')))))
          = payload_for req.
Proof.
  intros A. split.
  - unfold route. rewrite run_pass. unfold admitted in A. simpl in A |- *.
    now rewrite A.
  - apply admitted_inv in A.
    destruct A as ([u U] & C & L & S & F & _).
    exists u, (Js.trim (toString (code (body req)))).
    repeat split; auto. unfold payload_for. simpl. now rewrite L, S, F.
Qed.

(** The handler asks the agent once, whatever comes of it. *)
Lemma handler_log env req st u c :
  user req = Some u -> code (body req) = Some c ->
  agent_log (store_of (analyzeHandler env req st))
  = agent_log st
      ++ [mkAgentRequest c (language (body req))
            (default "mid" (Some (default "mid" (skillLevel (body req)))))
            (default [] (Some (default defaultFocusAreas (focusAreas (body req)))))].
Proof.
  intros U C. unfold analyzeHandler, analyzeCode. rewrite U, C.
  destruct (agent env _) as [[]|]; simpl; try reflexivity;
    unfold Review.create; destruct (language (body req)); simpl; try reflexivity;
    destruct (existsb _ _); reflexivity.
Qed.

(** C7: when the request reaches the handler, the agent is asked once;
    with no skillLevel in the request it is asked with "mid", and with no
    focusAreas it is asked with the four named areas, "all" not among them. *)
Theorem defaults_reach_the_agent env req st req' st' :
  admitted env req st req' st' ->
  exists call,
    agent_log (store_of (route env PostAnalyze req st)) = agent_log st ++ [call]
    /\ (skillLevel (body req) = None -> ar_skillLevel call = "mid")
    /\ (focusAreas (body req) = None ->
        ar_focusAreas call = ["bugs"; "performance"; "security"; "clean-code"]
        /\ ~ In "all" (ar_focusAreas call)).
Proof.
  intros A. destruct (route_admitted _ _ _ _ _ A) as (-> & u & c & U & C & P).
  exists (payload_for req). split.
  - rewrite (handler_log _ _ _ _ _ U C), P.
    apply admitted_inv in A. now destruct A as (_ & _ & _ & _ & _ & _ & _ & ->).
  - unfold payload_for. simpl. split.
    + now intros ->.
    + intros ->. simpl. split; [reflexivity|].
      intros H. repeat (destruct H as [H|H]; [discriminate H|]). exact H.
Qed.

Lemma defaults_reach_the_agent_witness :
  exists call,
    agent_log (store_of (route Sample.env PostAnalyze Sample.review_request Sample.store))
    = agent_log Sample.store ++ [call]
    /\ (skillLevel (body Sample.review_request) = None -> ar_skillLevel call = "mid")
    /\ (focusAreas (body Sample.review_request) = None ->
        ar_focusAreas call = ["bugs"; "performance"; "security"; "clean-code"]
        /\ ~ In "all" (ar_focusAreas call)).
Proof.
  eapply (defaults_reach_the_agent Sample.env Sample.review_request Sample.store).
  vm_compute. reflexivity.
Defined.

End Analyze.

Section AgentFailure.

Import Validators Conditions Reviews AiService.

(** Induction over a JSON value and the values inside it. *)
Lemma json_induction (P : json -> Prop) :
  P JNull -> (forall b, P (JBool b)) -> (forall n, P (JNum n)) ->
  (forall s, P (JStr s)) ->
  (forall items, Forall P items -> P (JArr items)) ->
  (forall fs, Forall (fun kv => P (snd kv)) fs -> P (JObj fs)) ->
  forall v, P v.
Proof.
  intros HN HB HZ HS HA HO. fix IH 1. intros [ |b|n|s|items|fs].
  - exact HN.
  - apply HB.
  - apply HZ.
  - apply HS.
  - apply HA. revert items. fix IHl 1.
    intros [|x r]; constructor; [apply IH|apply IHl].
  - apply HO. revert fs. fix IHl 1.
    intros [|[k x] r]; constructor; [apply IH|apply IHl].
Qed.

Lemma join_throws (f : json -> Completion string) l e :
  Forall (fun x => forall e, f x = Throw e -> e = JsValue.not_primitive) l ->
  JsValue.join f l = Throw e -> e = JsValue.not_primitive.
Proof.
  induction 1 as [|x r H _ IH]; simpl; [discriminate|].
  destruct (f x) as [a|e'] eqn:X.
  - destruct r as [|y r']; [discriminate|].
    destruct (JsValue.join f (y :: r')) as [c|e'] eqn:J; [discriminate|].
    intros [= <-]. now apply IH.
  - intros [= <-]. now apply H.
Qed.

(** The conversion to a string throws one error only. *)
Lemma toString_throws v :
  forall e, JsValue.toString v = Throw e -> e = JsValue.not_primitive.
Proof.
  induction v as [ |b|n|s|items IH|fs _] using json_induction;
    intros e; simpl; try discriminate.
  - apply join_throws. eapply Forall_impl; [exact IH|].
    intros [] H e'; try discriminate; apply H.
  - destruct (assoc "toString" fs); [|discriminate]. now intros [= <-].
Qed.

(** What leaves the [catch] block is a plain [Error] or the [TypeError] of
    a conversion that failed. *)
Lemma rethrow_shape e :
  (exists m, rethrow e = Error m) \/ rethrow e = JsValue.not_primitive.
Proof.
  unfold rethrow, new_Error.
  destruct (isAxiosError e); [|eauto].
  destruct (bool_decide _); [eauto|].
  destruct (response_error e) as [v|].
  - destruct (JsValue.toString v) as [m|e'] eqn:T; [eauto|].
    right. exact (toString_throws _ _ T).
  - destruct (bool_decide _); eauto.
Qed.

(** An error without a status of its own and with none of the four names
    reaches the client as 500 with its message. *)
Lemma errorHandler_unnamed_error env name m :
  name = "Error" \/ name = "TypeError" ->
  ErrorHandler.errorHandler env (mkError name m None None "")
  = mkResponse 500 (ErrorBody (shown m) (if development env then Some "" else None)).
Proof. intros [-> | ->]; reflexivity. Qed.

Lemma errorHandler_rethrow env e :
  (err_name (rethrow e) = "Error" \/ err_name (rethrow e) = "TypeError")
  /\ ErrorHandler.errorHandler env (rethrow e)
     = mkResponse 500
         (ErrorBody (shown (err_message (rethrow e)))
            (if development env then Some "" else None)).
Proof.
  destruct (rethrow_shape e) as [[m ->] | ->]; (split; [simpl; auto|]).
  - now apply (errorHandler_unnamed_error env "Error" m); left.
  - now apply (errorHandler_unnamed_error env "TypeError"); right.
Qed.

(** A plain [Error] reaches the client as 500 with its message. *)
Lemma errorHandler_plain env m :
  m <> "" ->
  ErrorHandler.errorHandler env (Error m)
  = mkResponse 500 (ErrorBody m (if development env then Some "" else None)).
Proof.
  intros N. unfold ErrorHandler.errorHandler. simpl.
  destruct (String.eqb m "") eqn:E; [|reflexivity].
  apply String.eqb_eq in E. contradiction.
Qed.

(** C1 (as the code has it): when the call to the agent fails on an
    admitted request, [analyzeCode] throws the error [rethrow e] of its
    [catch] block, an [Error] or a [TypeError], and the client receives
    status 500 with the error object [{ error: message }], where the message
    is that of the thrown error, or "Internal server error" when it is
    empty: no review result is returned, and no review is stored. *)
Theorem agent_failure_is_an_error_response env req st req' st' e :
  admitted env req st req' st' ->
  agent env (payload_for req) = Rejected e ->
  (err_name (rethrow e) = "Error" \/ err_name (rethrow e) = "TypeError")
  /\ route env PostAnalyze req st
     = Raise (rethrow e) (log_call st' (payload_for req))
  /\ reply env (route env PostAnalyze req st)
     = (mkResponse 500
          (ErrorBody (shown (err_message (rethrow e)))
             (if development env then Some "" else None)),
        log_call st' (payload_for req))
  /\ ReviewResult.carried_by (fst (reply env (route env PostAnalyze req st))) = false
  /\ reviews (snd (reply env (route env PostAnalyze req st))) = reviews st.
Proof.
  intros A R.
  destruct (route_admitted _ _ _ _ _ A) as (Rt & u & c & U & C & P).
  destruct (errorHandler_rethrow env e) as [N H].
  assert (T : route env PostAnalyze req st
              = Raise (rethrow e) (log_call st' (payload_for req))).
  { rewrite Rt. unfold analyzeHandler, analyzeCode. now rewrite U, C, P, R. }
  split; [exact N|]. split; [exact T|]. rewrite T. simpl. rewrite H.
  repeat split.
  apply admitted_inv in A. now destruct A as (_ & _ & _ & _ & _ & _ & -> & _).
Qed.

Lemma agent_failure_is_an_error_response_witness :
  (err_name (rethrow Sample.timed_out) = "Error"
   \/ err_name (rethrow Sample.timed_out) = "TypeError")
  /\ route Sample.env_timeout PostAnalyze Sample.review_request Sample.store
     = Raise (rethrow Sample.timed_out)
         (log_call (RateLimiter.set_hits Sample.store {[ "u1" := 1%nat ]})
            (payload_for Sample.review_request))
  /\ reply Sample.env_timeout
       (route Sample.env_timeout PostAnalyze Sample.review_request Sample.store)
     = (mkResponse 500
          (ErrorBody (shown (err_message (rethrow Sample.timed_out))) None),
        log_call (RateLimiter.set_hits Sample.store {[ "u1" := 1%nat ]})
          (payload_for Sample.review_request))
  /\ ReviewResult.carried_by
       (fst (reply Sample.env_timeout
               (route Sample.env_timeout PostAnalyze Sample.review_request Sample.store)))
     = false
  /\ reviews (snd (reply Sample.env_timeout
               (route Sample.env_timeout PostAnalyze Sample.review_request Sample.store)))
     = reviews Sample.store.
Proof.
  apply (agent_failure_is_an_error_response Sample.env_timeout Sample.review_request
           Sample.store
           (AuthMiddleware.set_user
              (Sample.request (Some "Bearer good")
                 (mkBody (Some Sample.snippet) (Some "javascript") None None))
              Sample.alice)).
  - vm_compute. reflexivity.
  - reflexivity.
Defined.

(** C1 fails as stated: the request is valid and the agent times out; the
    client receives status 500 and an error object, not a review result. *)
Lemma agent_timeout_gives_500 :
  Validators.validateCodeReview Sample.review_request Sample.store
  = Next (Sample.request (Some "Bearer good")
            (mkBody (Some Sample.snippet) (Some "javascript") None None))
      Sample.store
  /\ agent Sample.env_timeout (payload_for Sample.review_request)
     = Rejected Sample.timed_out
  /\ fst (reply Sample.env_timeout
            (route Sample.env_timeout PostAnalyze Sample.review_request Sample.store))
     = mkResponse 500 (ErrorBody "Failed to analyze code" None)
  /\ ReviewResult.carried_by
       (fst (reply Sample.env_timeout
               (route Sample.env_timeout PostAnalyze Sample.review_request Sample.store)))
     = false
  /\ ReviewResult.error_shaped
       (fst (reply Sample.env_timeout
               (route Sample.env_timeout PostAnalyze Sample.review_request Sample.store)))
     = true.
Proof. vm_compute. repeat split. Qed.

(** The error text of the agent may be any JSON value: a number is shown
    in decimal, and an empty array gives an empty message, which the client
    reads as "Internal server error". *)
Example error_values_reach_the_client :
  rethrow (mkAxiosError true None (Some (400, Some (JNum 42))) "") = Error "42"
  /\ rethrow (mkAxiosError true None (Some (400, Some (JArr []))) "") = Error ""
  /\ ErrorHandler.errorHandler Sample.env
       (rethrow (mkAxiosError true None (Some (400, Some (JArr []))) ""))
     = mkResponse 500 (ErrorBody "Internal server error" None)
  /\ rethrow (mkAxiosError true None
                (Some (400, Some (JObj [("toString", JNum 1)]))) "")
     = TypeError "Cannot convert object to primitive value"
  /\ rethrow (mkAxiosError true None
                (Some (400, Some (JArr [JNum 1; JNull; JStr "a"; JArr [JBool true]]))) "")
     = Error "1,,a,true".
Proof. repeat split; reflexivity. Qed.

End AgentFailure.

Section AnalyzeCode.

Import AiService.




End AnalyzeCode.

(** ** GET /history *)

Section HistoryRoute.

Import Reviews.

(** The limit and the offset that the handler works with. *)
Lemma limit_default (q : option string) :
  Js.parseInt q = None -> Js.or_default (Js.parseInt q) 20 = 20.
Proof. now intros ->. Qed.

(** A limit above 100, a negative limit and a negative offset are refused. *)
Lemma history_refuses req st :
  let limit := Js.or_default (Js.parseInt (query_limit req)) 20 in
  let offset := Js.or_default (Js.parseInt (query_offset req)) 0 in
  100 < limit \/ limit < 1 \/ offset < 0 ->
  exists m, historyHandler req st = Respond (bad_request m) st.
Proof.
  cbv zeta. intros H. unfold historyHandler.
  destruct (_ >? 100) eqn:G; [eauto|].
  destruct ((_ <? 1) || _) eqn:B; [eauto|].
  apply orb_false_elim in B. lia.
Qed.

(** [stats.avg_score ? Math.round(stats.avg_score) : 0] is the rounded
    average when there is one, and 0 when there is none. *)
Lemma rounded_average_spec a :
  rounded_average a = match a with Some q => Js.round q | None => 0 end.
Proof.
  destruct a as [q|]; [|reflexivity]. unfold rounded_average, Js.round.
  destruct (Qeq_bool q 0) eqn:E; [|reflexivity].
  apply Qeq_bool_iff in E. now rewrite E.
Qed.

(** A user without reviews has no average. *)
Lemma getStats_empty st userId :
  filter (fun r => Review.owned_by userId r) (reviews st) = [] ->
  Review.avg_score (Review.getStats st userId) = None
  /\ averageScore (stats_of (Review.getStats st userId)) = 0.
Proof. unfold stats_of, Review.getStats. now intros ->. Qed.

(** With a limit and an offset that SQLite takes, the query returns the
    page that they cut from the user's rows, newest first. *)
Lemma findByUserId_returns st userId limit offset :
  0 <= limit < 2 ^ 63 - 512 -> 0 <= offset < 2 ^ 63 - 512 ->
  Review.findByUserId st userId limit offset
  = Return (take (Z.to_nat limit)
              (drop (Z.to_nat offset)
                 (Review.order_desc
                    (filter (fun r => Review.owned_by userId r) (reviews st))))).
Proof.
  intros L O. unfold Review.findByUserId, Sqlite.fits_int64.
  replace (- 2 ^ 63 + 512 <? limit) with true by (symmetry; apply Z.ltb_lt; lia).
  replace (limit <? 2 ^ 63 - 512) with true by (symmetry; apply Z.ltb_lt; lia).
  replace (- 2 ^ 63 + 512 <? offset) with true by (symmetry; apply Z.ltb_lt; lia).
  replace (offset <? 2 ^ 63 - 512) with true by (symmetry; apply Z.ltb_lt; lia).
  replace (limit <? 0) with false by (symmetry; apply Z.ltb_ge; lia).
  reflexivity.
Qed.

(** An offset that SQLite cannot take as a 64-bit integer fails the query. *)
Lemma findByUserId_mismatch st userId limit offset :
  2 ^ 63 - 512 <= offset ->
  Review.findByUserId st userId limit offset = Throw (SqliteError "datatype mismatch").
Proof.
  intros O. unfold Review.findByUserId, Sqlite.fits_int64.
  replace (offset <? 2 ^ 63 - 512) with false by (symmetry; apply Z.ltb_ge; lia).
  now rewrite !andb_false_r.
Qed.

(** With a limit from 1 to 100 and an offset that is not negative and that
    SQLite takes, the signed-in user is served at most [limit] reviews. *)
Lemma history_serves req st u :
  let limit := Js.or_default (Js.parseInt (query_limit req)) 20 in
  let offset := Js.or_default (Js.parseInt (query_offset req)) 0 in
  user req = Some u -> 1 <= limit <= 100 -> 0 <= offset < 2 ^ 63 - 512 ->
  exists rows stats,
    historyHandler req st = Respond (mkResponse 200 (History rows stats)) st
    /\ Z.of_nat (length rows) <= limit.
Proof.
  cbv zeta. intros U L O. unfold historyHandler. rewrite U.
  destruct (_ >? 100) eqn:G; [lia|].
  destruct ((_ <? 1) || _) eqn:B.
  { apply orb_prop in B. lia. }
  rewrite findByUserId_returns by lia.
  do 2 eexists. split; [reflexivity|].
  rewrite length_take. lia.
Qed.

(** C9, at the input where the code departs from it: [limit=0] is less
    than 1, yet the handler replaces it by 20 before the check and answers
    200 with the user's reviews, newest first. *)
Theorem history_limit_zero_is_served :
  Js.parseInt (Some "0") = Some 0
  /\ Js.or_default (Js.parseInt (Some "0")) 20 = 20
  /\ reply Sample.env
       (route Sample.env GetHistory (Sample.history_request (Some "0"))
          Sample.history_store)
     = (mkResponse 200
          (History [Sample.second_review; Sample.first_review] (mkStats 2 86 2)),
        Sample.history_store).
Proof. vm_compute. repeat split. Qed.

End HistoryRoute.

(** ** The scorer *)

Section Scorer.

Import Scoring.
Local Open Scope Q_scope.

Lemma clamp_range q : in_range (clamp q).
Proof.
  unfold in_range, clamp. split.
  - apply Q.le_max_l.
  - apply Q.max_lub; [discriminate|apply Q.le_min_l].
Qed.

Lemma clamp_compat p q : p == q -> clamp p == clamp q.
Proof. intros E. unfold clamp. now rewrite E. Qed.

Lemma dimension_score_range d issues adj :
  in_range (dimension_score d issues adj).
Proof. destruct adj; apply clamp_range. Qed.

Lemma Qred_range q : in_range q -> in_range (Qred q).
Proof. unfold in_range. now rewrite Qred_correct. Qed.

(** The rounded mean is within one half of the mean. *)
Lemma round_nearest_close q :
  Qabs (inject_Z (round_nearest q) - q) <= 1 # 2.
Proof.
  unfold round_nearest. apply Qabs_Qle_condition.
  pose proof (Qfloor_le (q + (1 # 2))) as Lo.
  pose proof (Qlt_floor (q + (1 # 2))) as Hi.
  rewrite inject_Z_plus in Hi. change (inject_Z 1) with 1 in Hi.
  split; lra.
Qed.

Lemma round_nearest_range q :
  in_range q -> (0 <= round_nearest q <= 100)%Z.
Proof.
  intros [Lo Hi]. unfold round_nearest. split.
  - change 0%Z with (Qfloor 0). apply Qfloor_resp_le. lra.
  - change 100%Z with (Qfloor (100 + (1 # 2))). apply Qfloor_resp_le. lra.
Qed.

Lemma mean_range c r m p s :
  in_range c -> in_range r -> in_range m -> in_range p -> in_range s ->
  in_range (mean c r m p s).
Proof.
  unfold in_range, mean. intros [] [] [] [] [].
  split; [apply Qle_shift_div_l|apply Qle_shift_div_r]; lra.
Qed.

(** C3: every dimension of a score card and its overall field lie in
    [0,100], for every issue list, with or without a model adjustment. *)
Theorem score_within_bounds issues adj :
  let card := score issues adj in
  in_range (correctness card) /\ in_range (readability card)
  /\ in_range (maintainability card) /\ in_range (performance card)
  /\ in_range (security card) /\ (0 <= overall card <= 100)%Z.
Proof.
  cbv zeta. unfold score. cbn [correctness readability maintainability
    performance security overall].
  repeat split;
    try (apply round_nearest_range, mean_range);
    apply Qred_range, dimension_score_range.
Qed.

(** C2: [overall] is the mean of the five dimensions of the card rounded
    to the nearest integer (it is within one half of the mean), and the
    empty issue list with no adjustment scores 100 everywhere. *)
Theorem overall_is_rounded_mean issues adj :
  let card := score issues adj in
  let mu := mean (correctness card) (readability card) (maintainability card)
              (performance card) (security card) in
  overall card = round_nearest mu
  /\ Qabs (inject_Z (overall card) - mu) <= 1 # 2
  /\ score [] None = mkScoreCard 100 100 100 100 100 100.
Proof.
  cbv zeta. split; [reflexivity|]. split; [|reflexivity].
  apply round_nearest_close.
Qed.

End Scorer.

Section ScorerOrder.

Import Scoring.
Local Open Scope Q_scope.

(** The sum of the deductions does not depend on the order of the issues. *)
Lemma total_deduction_perm d l l' :
  Permutation l l' -> total_deduction d l == total_deduction d l'.
Proof.
  induction 1 as [|i l l' _ IH|i j l|l l' l'' _ IH1 _ IH2]; simpl.
  - reflexivity.
  - now rewrite IH.
  - ring.
  - now rewrite IH1.
Qed.

Lemma dimension_score_perm d l l' adj :
  Permutation l l' ->
  dimension_score d l adj == dimension_score d l' adj.
Proof.
  intros P. unfold dimension_score.
  assert (E : clamp (100 - total_deduction d l) == clamp (100 - total_deduction d l')).
  { apply clamp_compat. now rewrite (total_deduction_perm d l l' P). }
  destruct adj as [delta|]; [|exact E].
  apply clamp_compat. now rewrite E.
Qed.

(** C8: the scorer is a function of the issue list and the adjustment,
    and it gives the same card to any two orderings of the same issues. *)
Theorem score_order_independent l l' adj :
  Permutation l l' -> score l adj = score l' adj.
Proof.
  intros P. unfold score.
  now rewrite !(Qred_complete _ _ (dimension_score_perm _ l l' adj P)).
Qed.

Lemma score_order_independent_witness :
  score [Sample.long_line 3; Sample.endless_loop 2; Sample.long_line 7] None
  = score [Sample.endless_loop 2; Sample.long_line 7; Sample.long_line 3] None.
Proof.
  apply score_order_independent.
  apply perm_trans with (Sample.endless_loop 2 :: Sample.long_line 3
                           :: [Sample.long_line 7]).
  - apply perm_swap.
  - apply perm_skip, perm_swap.
Defined.

End ScorerOrder.

(** ** The detector registry *)

Section DetectorRegistry.

Import Scoring Agent.

Lemma category_of_inj k k' : category_of k = category_of k' -> k = k'.
Proof. destruct k, k'; simpl; congruence. Qed.



Variable detect : Detector -> string -> string -> list string -> list Issue.


(** Each detector reports issues of its own category only (glossary: a
    detector reports issues for one category). *)
Hypothesis detect_category : forall k code language lines i,
  i ∈ detect k code language lines -> category i = category_of k.


End DetectorRegistry.

Section DetectorSample.

Import Scoring Agent.




Example registry_runs_the_bug_detector :
  run_detectors Sample.detect [Bugs] Sample.snippet "javascript" Sample.looping
  = [Sample.endless_loop 2].
Proof. reflexivity. Qed.

(** No focus area names the category anti-pattern: its detector runs
    under "all" only. *)
Example selected_examples :
  selected [CleanCodeArea] = [CleanCodeDetector]
  /\ selected [Bugs; SecurityArea] = [BugDetector; SecurityDetector]
  /\ selected [All] = detectors
  /\ selected [] = [].
Proof. repeat split; reflexivity. Qed.

End DetectorSample.

(** * Further properties of the backend and the client *)

(** ** Trimming *)

Section Trim.

Lemma trimEnd_cons c r :
  Js.trimEnd (String c r)
  = match Js.trimEnd r with
    | EmptyString => if Js.is_whitespace c then EmptyString else String c EmptyString
    | r' => String c r'
    end.
Proof. reflexivity. Qed.

Lemma trimEnd_idem s : Js.trimEnd (Js.trimEnd s) = Js.trimEnd s.
Proof.
  induction s as [|c r IH]; [reflexivity|].
  rewrite trimEnd_cons. destruct (Js.trimEnd r) as [|c' r'] eqn:E.
  - destruct (Js.is_whitespace c) eqn:W; [reflexivity|].
    rewrite trimEnd_cons. simpl. now rewrite W.
  - rewrite trimEnd_cons, IH. reflexivity.
Qed.

(** What is left by [trimStart] does not begin with white space. *)
Lemma trimStart_head s :
  match Js.trimStart s with
  | String c _ => Js.is_whitespace c = false
  | EmptyString => True
  end.
Proof.
  induction s as [|c r IH]; simpl; [exact I|].
  destruct (Js.is_whitespace c) eqn:W; [exact IH|exact W].
Qed.

Lemma trimEnd_head c r :
  Js.is_whitespace c = false -> exists r', Js.trimEnd (String c r) = String c r'.
Proof.
  intros W. rewrite trimEnd_cons. destruct (Js.trimEnd r); [rewrite W|]; eauto.
Qed.

Lemma trim_idem s : Js.trim (Js.trim s) = Js.trim s.
Proof.
  unfold Js.trim. pose proof (trimStart_head s) as H.
  destruct (Js.trimStart s) as [|c r]; [reflexivity|].
  destruct (trimEnd_head c r H) as [r' E]. rewrite E.
  simpl Js.trimStart. rewrite H, <- E. apply trimEnd_idem.
Qed.

Lemma trimEnd_length s :
  (String.length (Js.trimEnd s) <= String.length s)%nat.
Proof.
  induction s as [|c r IH]; [reflexivity|].
  rewrite trimEnd_cons. destruct (Js.trimEnd r); [destruct (Js.is_whitespace c)|];
    simpl in *; lia.
Qed.

Lemma trimStart_length s :
  (String.length (Js.trimStart s) <= String.length s)%nat.
Proof.
  induction s as [|c r IH]; [reflexivity|]. simpl.
  destruct (Js.is_whitespace c); simpl; lia.
Qed.

Lemma trim_length s : (String.length (Js.trim s) <= String.length s)%nat.
Proof.
  unfold Js.trim. pose proof (trimEnd_length (Js.trimStart s)).
  pose proof (trimStart_length s). lia.
Qed.

End Trim.

(** ** What [validateCodeReview] accepts *)

Section Acceptance.

Import Validators Scenario.

Lemma check_nil ok p m : check ok p m = [] <-> ok = true.
Proof. destruct ok; simpl; split; congruence. Qed.

Lemma includes_nonempty l s :
  includes l s = true -> ~ In "" l -> negb (String.eqb s "") = true.
Proof.
  intros I N. destruct (String.eqb s "") eqn:E; [|reflexivity].
  apply String.eqb_eq in E. subst s. exfalso. apply N.
  unfold includes in I. apply existsb_exists in I as (x & Hx & Ex).
  apply String.eqb_eq in Ex. now subst x.
Qed.

Lemma isLength_nonempty s :
  isLength 10 50000 s = true -> negb (String.eqb s "") = true.
Proof. destruct s; [discriminate|reflexivity]. Qed.

Lemma focus_nil areas :
  check_focusAreas (Some areas) = []
  <-> Forall (fun a => includes validAreas a = true) areas.
Proof.
  unfold check_focusAreas. rewrite check_nil.
  induction areas as [|a l IH].
  - split; [constructor|reflexivity].
  - rewrite filter_cons. destruct (decide _) as [D|D].
    + split; [simpl; intros H; apply Z.leb_le in H; lia|].
      intros H. inversion H as [|? ? Ha _]. rewrite Ha in D. contradiction.
    + rewrite IH. split; [|now inversion 1].
      intros H. constructor; [|exact H].
      destruct (includes validAreas a); [reflexivity|]. exfalso. now apply D.
Qed.

(** The request as the validation chain hands it on. *)
Lemma accepted_request req st :
  acceptable (body req) ->
  validateCodeReview req st
  = Next (mkRequest (authorization req) (ip req)
            (mkBody (Some (Js.trim (toString (code (body req)))))
               (Some (Js.trim (toString (language (body req)))))
               (Js.trim <$> skillLevel (body req)) (focusAreas (body req)))
            (query_limit req) (query_offset req) (param_id req) (user req)) st.
Proof.
  intros (Len & Lang & Skill & Focus).
  unfold validateCodeReview, check_code, check_language, check_skillLevel.
  rewrite Len, Lang, (isLength_nonempty _ Len).
  rewrite (includes_nonempty _ _ Lang)
    by (simpl; intros H; repeat (destruct H as [H|H]; [discriminate H|]); exact H).
  assert (F : check_focusAreas (focusAreas (body req)) = []).
  { destruct (focusAreas (body req)) as [areas|] eqn:E; [|reflexivity].
    apply focus_nil. now apply Focus. }
  destruct (skillLevel (body req)) as [s|]; cbv zeta;
    [rewrite (Skill s eq_refl)|]; simpl; now rewrite F.
Qed.

Lemma accepted_inv req st req' st' :
  validateCodeReview req st = Next req' st' -> acceptable (body req).
Proof.
  unfold validateCodeReview. intros H.
  destruct (check_code _) as [c e1] eqn:E1.
  destruct (check_language _) as [l e2] eqn:E2.
  destruct (check_skillLevel _) as [s e3] eqn:E3.
  destruct (e1 ++ e2 ++ e3 ++ check_focusAreas _) eqn:EE; [|discriminate].
  apply app_eq_nil in EE as [-> EE]. apply app_eq_nil in EE as [-> EE].
  apply app_eq_nil in EE as [-> EE].
  unfold check_code in E1. injection E1 as _ E1.
  apply app_eq_nil in E1 as [_ E1]. apply check_nil in E1.
  unfold check_language in E2. injection E2 as _ E2.
  apply app_eq_nil in E2 as [_ E2]. apply check_nil in E2.
  repeat split; auto.
  - intros x Hx. unfold check_skillLevel in E3. rewrite Hx in E3.
    injection E3 as _ E3. now apply check_nil in E3.
  - intros areas Ha. rewrite Ha in EE. now apply focus_nil.
Qed.

(** X1: [validateCodeReview] lets a request through exactly when the
    trimmed code has 10 to 50000 characters, the trimmed language is one of
    the seven supported ones, the skill level, if given, is one of the three
    after trimming, and the focus areas, if given, are all among the five
    known ones; otherwise it answers 400 with the list of errors. *)
Theorem validateCodeReview_accepts_iff req st :
  (acceptable (body req) <-> exists req', validateCodeReview req st = Next req' st)
  /\ (~ acceptable (body req) <->
      exists e errors,
        validateCodeReview req st
        = Respond (mkResponse 400 (ValidationFailed (e :: errors))) st).
Proof.
  assert (A : acceptable (body req) <-> exists req', validateCodeReview req st = Next req' st).
  { split.
    - intros H. eexists. now apply accepted_request.
    - intros [req' H]. now apply accepted_inv in H. }
  split; [exact A|]. split.
  - intros N. unfold validateCodeReview in *.
    destruct (check_code _) as [c e1]. destruct (check_language _) as [l e2].
    destruct (check_skillLevel _) as [s e3].
    destruct (e1 ++ e2 ++ e3 ++ check_focusAreas _) as [|e errors]; [|eauto].
    exfalso. apply N, A. eauto.
  - intros (e & errors & H) Acc. apply A in Acc as [req' Acc]. congruence.
Qed.

(** X2: validation is stable: a request that was let through is let
    through again as it is, the sanitized fields being fixed points of the
    sanitizers. *)
Theorem validateCodeReview_stable req st req' st' :
  validateCodeReview req st = Next req' st' ->
  validateCodeReview req' st' = Next req' st'.
Proof.
  intros H. pose proof (accepted_inv _ _ _ _ H) as (Len & Lang & Skill & Focus).
  rewrite (accepted_request req st) in H by (repeat split; assumption).
  injection H as <- <-.
  rewrite accepted_request; simpl.
  - rewrite !trim_idem. destruct (skillLevel (body req)); simpl;
      now rewrite ?trim_idem.
  - repeat split; simpl; rewrite ?trim_idem; auto.
    destruct (skillLevel (body req)) as [x|]; simpl; [|discriminate].
    intros s [= <-]. rewrite trim_idem. now apply Skill.
Qed.

Lemma validateCodeReview_stable_witness :
  validateCodeReview
    (Sample.request (Some "Bearer good")
       (mkBody (Some Sample.snippet) (Some "javascript") None None)) Sample.store
  = Next (Sample.request (Some "Bearer good")
            (mkBody (Some Sample.snippet) (Some "javascript") None None))
      Sample.store.
Proof.
  apply (validateCodeReview_stable Sample.review_request Sample.store).
  vm_compute. reflexivity.
Defined.

(** X3: a code that has fewer than 10 characters as it was sent is
    always refused with 400, trimming can only shorten it. *)
Theorem short_code_is_rejected req st :
  Conditions.code_length req < 10 ->
  exists errors,
    validateCodeReview req st = Respond (mkResponse 400 (ValidationFailed errors)) st
    /\ In Conditions.length_error errors.
Proof.
  intros S. apply validate_rejects. unfold isLength. cbv zeta.
  apply andb_false_intro1. unfold Conditions.code_length in S.
  pose proof (trim_length (toString (code (body req)))). lia.
Qed.

Lemma short_code_is_rejected_witness :
  exists errors,
    validateCodeReview
      (Sample.request None (mkBody (Some "x = 1") (Some "python") None None))
      Sample.store
    = Respond (mkResponse 400 (ValidationFailed errors)) Sample.store
    /\ In Conditions.length_error errors.
Proof. apply short_code_is_rejected. vm_compute. reflexivity. Defined.

End Acceptance.

(** ** Who gets past the authentication *)

Section SignedIn.

Import AuthMiddleware.

Lemma authenticate_next_iff env req st req' st' :
  authenticate env req st = Next req' st'
  <-> exists h userId u,
        authorization req = Some h
        /\ Js.startsWith h "Bearer " = true
        /\ jwt_verify env (Js.substring 7 h) = Decoded userId
        /\ users st !! userId = Some u
        /\ req' = set_user req u /\ st' = st.
Proof.
  unfold authenticate, findById. split.
  - destruct (authorization req) as [h|]; [|discriminate].
    destruct (Js.startsWith h "Bearer ") eqn:B; [|discriminate]. cbn [negb].
    destruct (jwt_verify env _) as [userId|name] eqn:V.
    + destruct (users st !! userId) as [u|] eqn:U; [|discriminate].
      intros [= <- <-]. exists h, userId, u. auto 10.
    + repeat (destruct (String.eqb _ _)); discriminate.
  - intros (h & userId & u & -> & -> & V & U & -> & ->). cbn [negb].
    now rewrite V, U.
Qed.

(** X4: [authenticate] goes on exactly for a bearer header whose token
    [jwt.verify] decodes to the id of a user in the table; the request goes
    on with that user attached and is otherwise unchanged, as is the store. *)
Theorem authenticate_passes_iff env req st req' st' :
  authenticate env req st = Next req' st'
  <-> exists h userId u,
        authorization req = Some h
        /\ Js.startsWith h "Bearer " = true
        /\ jwt_verify env (Js.substring 7 h) = Decoded userId
        /\ users st !! userId = Some u
        /\ req' = set_user req u /\ st' = st.
Proof.
  unfold authenticate, findById. split.
  - destruct (authorization req) as [h|]; [|discriminate].
    destruct (Js.startsWith h "Bearer ") eqn:B; [|discriminate]. cbn [negb].
    destruct (jwt_verify env _) as [userId|name] eqn:V.
    + destruct (users st !! userId) as [u|] eqn:U; [|discriminate].
      intros [= <- <-]. exists h, userId, u. auto 10.
    + repeat (destruct (String.eqb _ _)); discriminate.
  - intros (h & userId & u & -> & -> & V & U & -> & ->). cbn [negb].
    now rewrite V, U.
Qed.

(** X5: [optionalAuth] never ends a request and never writes: it always
    goes on, with a user attached exactly when [authenticate] would have
    let the request through, and with the request as it came otherwise. *)
Theorem optionalAuth_always_goes_on env req st :
  (exists req', optionalAuth env req st = Next req' st)
  /\ (forall req' st', authenticate env req st = Next req' st' ->
        optionalAuth env req st = Next req' st')
  /\ ((forall req' st', authenticate env req st <> Next req' st') ->
        optionalAuth env req st = Next req st).
Proof.
  unfold optionalAuth, authenticate.
  destruct (authorization req) as [h|]; [|split; [eauto|split; [discriminate|auto]]].
  destruct (negb _); [split; [eauto|split; [discriminate|auto]]|].
  destruct (jwt_verify env _) as [userId|name].
  - destruct (findById st userId) as [u|].
    + split; [eauto|]. split; [auto|]. intros N. now destruct (N _ _ eq_refl).
    + split; [eauto|]. split; [discriminate|auto].
  - split; [eauto|]. split; [|auto].
    repeat (destruct (String.eqb _ _)); discriminate.
Qed.

Lemma optionalAuth_always_goes_on_witness :
  (exists req',
     optionalAuth Sample.env (Sample.request (Some "Bearer old")
                                (mkBody None None None None)) Sample.store
     = Next req' Sample.store)
  /\ optionalAuth Sample.env Sample.review_request Sample.store
     = Next (set_user Sample.review_request Sample.alice) Sample.store
  /\ optionalAuth Sample.env (Sample.request (Some "Bearer old")
                                (mkBody None None None None)) Sample.store
     = Next (Sample.request (Some "Bearer old") (mkBody None None None None))
         Sample.store.
Proof.
  split; [|split].
  - apply (optionalAuth_always_goes_on Sample.env).
  - apply (optionalAuth_always_goes_on Sample.env). reflexivity.
  - apply (optionalAuth_always_goes_on Sample.env). discriminate.
Defined.

(** X6: the header that the client's request interceptor builds from a
    stored token is read back by [authenticate] to that very token: with a
    token that verifies for a user of the table, the request is let through
    with that user, whatever header it carried before. *)
Theorem stored_token_authenticates env ls token userId u req st :
  Frontend.getToken ls = Some token -> token <> "" ->
  jwt_verify env token = Decoded userId ->
  users st !! userId = Some u ->
  let sent := mkRequest (Frontend.with_token ls (authorization req)) (ip req)
                (body req) (query_limit req) (query_offset req) (param_id req)
                (user req) in
  authorization sent = Some ("Bearer " +:+ token)
  /\ authenticate env sent st = Next (set_user sent u) st.
Proof.
  intros T N V U. cbv zeta. unfold Frontend.with_token, Frontend.getToken in *.
  rewrite T. apply String.eqb_neq in N. rewrite N. split; [reflexivity|].
  apply authenticate_next_iff. exists ("Bearer " +:+ token), userId, u.
  repeat split; auto.
  unfold Js.startsWith. simpl. now destruct token.
Qed.

Lemma stored_token_authenticates_witness :
  authorization
    (mkRequest (Frontend.with_token {[ "accessToken" := "good" ]} None)
       "203.0.113.7" (mkBody None None None None) None None None None)
  = Some "Bearer good"
  /\ authenticate Sample.env
       (mkRequest (Frontend.with_token {[ "accessToken" := "good" ]} None)
          "203.0.113.7" (mkBody None None None None) None None None None)
       Sample.store
     = Next (set_user
               (mkRequest (Frontend.with_token {[ "accessToken" := "good" ]} None)
                  "203.0.113.7" (mkBody None None None None) None None None None)
               Sample.alice) Sample.store.
Proof.
  apply (stored_token_authenticates Sample.env {[ "accessToken" := "good" ]}
           "good" "u1" Sample.alice
           (mkRequest None "203.0.113.7" (mkBody None None None None)
              None None None None) Sample.store);
    [reflexivity|discriminate|reflexivity|reflexivity].
Defined.

End SignedIn.

(** ** The review rate limiter *)

Section Limiter.

Import RateLimiter Scenario.

Lemma limiter_hits req st :
  hits (store_of (reviewRateLimiter req st)) !! keyGenerator req
  = Some (S (default O (hits st !! keyGenerator req))).
Proof.
  unfold reviewRateLimiter. destruct (_ <? _)%nat; simpl; apply lookup_insert_eq.
Qed.

Lemma limiter_passes req st :
  passed (reviewRateLimiter req st)
  = (default O (hits st !! keyGenerator req) <? max)%nat.
Proof.
  unfold reviewRateLimiter, max.
  destruct (_ <? S _)%nat eqn:E; simpl; symmetry.
  - apply Nat.ltb_lt in E. apply Nat.ltb_ge. lia.
  - apply Nat.ltb_ge in E. apply Nat.ltb_lt. lia.
Qed.

Lemma after_hits_count k req st :
  hits st !! keyGenerator req = None ->
  default O (hits (after_hits k req st) !! keyGenerator req) = k.
Proof.
  intros H. induction k as [|k IH]; simpl.
  - now rewrite H.
  - unfold after_hits in *. simpl. rewrite limiter_hits. simpl. now rewrite IH.
Qed.

(** X7: within a window, the first ten requests of a client pass the
    review rate limiter and every later one is answered 429: after [k]
    requests of a client without earlier hits, the next one passes exactly
    when [k < 10]. *)
Theorem ten_reviews_per_window k req st :
  hits st !! keyGenerator req = None ->
  passed (reviewRateLimiter req (after_hits k req st)) = (k <? 10)%nat
  /\ ((10 <= k)%nat ->
      exists st',
        reviewRateLimiter req (after_hits k req st)
        = Respond (mkResponse 429
            (RateLimited "Too many code review requests. Please try again later." 60))
            st').
Proof.
  intros H. split.
  - now rewrite limiter_passes, after_hits_count.
  - intros K. pose proof (after_hits_count k req st H) as C.
    unfold reviewRateLimiter. rewrite C.
    destruct (max <? S k)%nat eqn:E; [eauto|].
    apply Nat.ltb_ge in E. unfold max in E. lia.
Qed.

Lemma ten_reviews_per_window_witness :
  passed (reviewRateLimiter (signed_in Sample.alice None)
            (after_hits 10 (signed_in Sample.alice None) Sample.store))
  = (10 <? 10)%nat
  /\ ((10 <= 10)%nat ->
      exists st',
        reviewRateLimiter (signed_in Sample.alice None)
          (after_hits 10 (signed_in Sample.alice None) Sample.store)
        = Respond (mkResponse 429
            (RateLimited "Too many code review requests. Please try again later." 60))
            st').
Proof. apply ten_reviews_per_window. reflexivity. Defined.

(** X8: the limiter counts each client on its own: a request of one
    client changes neither the count of another nor whether the other's
    next request passes, and it leaves the tables and the agent alone. *)
Theorem limiter_counts_per_client req other st :
  keyGenerator other <> keyGenerator req ->
  let st' := store_of (reviewRateLimiter req st) in
  hits st' !! keyGenerator other = hits st !! keyGenerator other
  /\ passed (reviewRateLimiter other st') = passed (reviewRateLimiter other st)
  /\ users st' = users st /\ reviews st' = reviews st
  /\ agent_log st' = agent_log st.
Proof.
  intros N. cbv zeta.
  assert (H : hits (store_of (reviewRateLimiter req st)) !! keyGenerator other
              = hits st !! keyGenerator other).
  { unfold reviewRateLimiter. destruct (_ <? _)%nat; simpl;
      now apply lookup_insert_ne. }
  split; [exact H|]. split; [now rewrite !limiter_passes, H|].
  unfold reviewRateLimiter. now destruct (_ <? _)%nat.
Qed.

Lemma limiter_counts_per_client_witness :
  let st' := store_of (reviewRateLimiter (signed_in Sample.alice None)
                         shared_store) in
  hits st' !! keyGenerator (signed_in bob None)
  = hits shared_store !! keyGenerator (signed_in bob None)
  /\ passed (reviewRateLimiter (signed_in bob None) st')
     = passed (reviewRateLimiter (signed_in bob None) shared_store)
  /\ users st' = users shared_store /\ reviews st' = reviews shared_store
  /\ agent_log st' = agent_log shared_store.
Proof. apply limiter_counts_per_client. discriminate. Defined.

End Limiter.

(** ** The reviews table *)

Section ReviewTable.

Import Scenario.

Lemma find_app {A} (f : A -> bool) l l' :
  List.find f (l ++ l')
  = match List.find f l with
    | Some x => Some x
    | None => List.find f l'
    end.
Proof. induction l as [|x l IH]; simpl; [reflexivity|]. now destruct (f x). Qed.

Lemma find_none_existsb {A} (f p : A -> bool) l :
  existsb p l = false -> (forall x, f x = true -> p x = true) -> List.find f l = None.
Proof.
  intros E I. induction l as [|x l IH]; simpl in *; [reflexivity|].
  apply orb_false_elim in E as [Ex El].
  destruct (f x) eqn:F; [|auto]. apply I in F. congruence.
Qed.

Lemma find_ext {A} (f : A -> bool) l x :
  List.find f l = Some x -> In x l /\ f x = true.
Proof. apply find_some. Qed.

(** X9: a review that [Review.create] has stored is found again under
    its id by its owner, with the code and the result that were given; the
    table has grown by this one row at its end, and every other id is
    looked up as before. *)
Theorem created_review_is_found env st userId code language skill focus result row st' :
  Review.create env st userId code language skill focus result = (Return row, st') ->
  Review.findById st' (review_id row) userId = Some row
  /\ reviews st' = reviews st ++ [row]
  /\ review_id row = uuidv4 env /\ review_user row = userId
  /\ review_code row = code /\ review_result row = result
  /\ created_at row = now env
  /\ forall id u, id <> review_id row ->
       Review.findById st' id u = Review.findById st id u.
Proof.
  unfold Review.create. destruct language as [lang|]; [|discriminate].
  destruct (existsb _ _) eqn:E; [discriminate|].
  intros [= <- <-]. unfold Review.findById, Review.owned_by. simpl.
  repeat split.
  - rewrite find_app, (find_none_existsb _ _ _ E).
    + simpl. now rewrite !String.eqb_refl.
    + intros x H. now apply andb_prop in H as [H _].
  - intros id u N. rewrite find_app. destruct (List.find _ (reviews st)); [reflexivity|].
    simpl. apply String.eqb_neq in N. rewrite String.eqb_sym in N. now rewrite N.
Qed.

Lemma created_review_is_found_witness :
  Review.findById
    (mkStore (users Sample.history_store)
       (reviews Sample.history_store
        ++ [mkReview (uuidv4 Sample.env) "u1" Sample.snippet "javascript" "mid"
              ["bugs"] Sample.result (now Sample.env)])
       (hits Sample.history_store) (agent_log Sample.history_store))
    (review_id
       (mkReview (uuidv4 Sample.env) "u1" Sample.snippet "javascript" "mid"
          ["bugs"] Sample.result (now Sample.env))) "u1"
  = Some (mkReview (uuidv4 Sample.env) "u1" Sample.snippet "javascript" "mid"
            ["bugs"] Sample.result (now Sample.env)).
Proof.
  apply (created_review_is_found Sample.env Sample.history_store "u1"
           Sample.snippet (Some "javascript") "mid" ["bugs"] Sample.result).
  reflexivity.
Defined.

Lemma filter_split_length {A} (p : A -> bool) l :
  (length (filter (fun x => p x) l) + length (filter (fun x => negb (p x)) l)
   = length l)%nat.
Proof.
  induction l as [|x l IH]; [reflexivity|]. rewrite !filter_cons.
  destruct (p x) eqn:E.
  - rewrite decide_True, decide_False by (simpl; tauto). simpl. lia.
  - rewrite decide_False, decide_True by (simpl; tauto). simpl. lia.
Qed.

Lemma find_filter_negb {A} (p : A -> bool) l :
  List.find p (filter (fun x => negb (p x)) l) = None.
Proof.
  induction l as [|x l IH]; [reflexivity|]. rewrite filter_cons.
  destruct (p x) eqn:E.
  - now rewrite decide_False by (simpl; tauto).
  - rewrite decide_True by (simpl; tauto). simpl. now rewrite E.
Qed.

Lemma filter_filter_keep {A} (p q : A -> bool) (l : list A) :
  (forall x, q x = true -> p x = true) ->
  filter (fun x => p x) (filter (fun x => q x) l) = filter (fun x => q x) l.
Proof.
  intros I. induction l as [|x l IH]; [reflexivity|]. rewrite filter_cons.
  destruct (q x) eqn:E.
  - rewrite decide_True by (simpl; tauto). rewrite filter_cons, IH.
    now rewrite decide_True by (rewrite (I x E); simpl; tauto).
  - now rewrite decide_False by (simpl; tauto).
Qed.

Lemma filter_comm_bool {A} (p q : A -> bool) (l : list A) :
  filter (fun x => p x) (filter (fun x => q x) l)
  = filter (fun x => q x) (filter (fun x => p x) l).
Proof.
  induction l as [|x l IH]; [reflexivity|]. rewrite !filter_cons.
  destruct (p x) eqn:P, (q x) eqn:Q;
    repeat (first [rewrite decide_True by (rewrite ?P, ?Q; simpl; tauto)
                  |rewrite decide_False by (rewrite ?P, ?Q; simpl; tauto)
                  |rewrite filter_cons]);
    now rewrite IH.
Qed.

(** X10: [Review.delete] removes exactly the rows with the given id that
    belong to the given user and reports their number; afterwards the id
    is not found for that user, and the rows of every other user are what
    they were. *)
Theorem delete_removes_own_rows st id userId :
  let '(changes, st') := Review.delete st id userId in
  (forall r, r ∈ reviews st' <->
             r ∈ reviews st /\ ~ (review_id r = id /\ review_user r = userId))
  /\ Review.findById st' id userId = None
  /\ changes = Z.of_nat (length (reviews st)) - Z.of_nat (length (reviews st'))
  /\ forall other, other <> userId ->
       filter (fun r => Review.owned_by other r) (reviews st')
       = filter (fun r => Review.owned_by other r) (reviews st).
Proof.
  unfold Review.delete, Review.findById, Review.owned_by. simpl.
  pose (hit := fun r => String.eqb (review_id r) id && String.eqb (review_user r) userId).
  split; [|split; [|split]].
  - intros r.
    rewrite list_elem_of_filter, negb_True, andb_True, !Is_true_true, !String.eqb_eq.
    tauto.
  - exact (find_filter_negb hit (reviews st)).
  - pose proof (filter_split_length hit (reviews st)) as H.
    unfold hit in H. lia.
  - intros other N.
    rewrite (filter_comm_bool (fun r => String.eqb (review_user r) other)
               (fun r => negb (hit r))).
    apply (filter_filter_keep (fun r => negb (hit r))). intros r O.
    apply String.eqb_eq in O. unfold hit.
    destruct (String.eqb (review_user r) userId) eqn:E;
      [|now rewrite andb_false_r].
    apply String.eqb_eq in E. congruence.
Qed.

End ReviewTable.

(** ** Pages of the history *)

Section Pages.

Import Scenario.

Lemma insert_desc_perm r l : Permutation (Review.insert_desc r l) (r :: l).
Proof.
  induction l as [|x l IH]; simpl; [reflexivity|].
  destruct (created_at x <=? created_at r); [reflexivity|].
  rewrite IH. apply perm_swap.
Qed.

Lemma order_desc_perm l : Permutation (Review.order_desc l) l.
Proof.
  induction l as [|x l IH]; simpl; [reflexivity|].
  unfold Review.order_desc in *. simpl. now rewrite insert_desc_perm, IH.
Qed.

Lemma insert_desc_sorted r l :
  newest_first l -> newest_first (Review.insert_desc r l).
Proof.
  unfold newest_first. induction l as [|x l IH]; simpl; intros S.
  - repeat constructor.
  - apply StronglySorted_cons in S as [F S].
    destruct (created_at x <=? created_at r) eqn:E.
    + apply Z.leb_le in E. constructor; [now constructor|].
      constructor; [lia|]. eapply Forall_impl; [exact F|]. simpl. intros. lia.
    + apply Z.leb_gt in E. constructor; [now apply IH|].
      rewrite insert_desc_perm. constructor; [lia|exact F].
Qed.

Lemma order_desc_sorted l : newest_first (Review.order_desc l).
Proof.
  induction l as [|x l IH]; [constructor|]. now apply insert_desc_sorted.
Qed.

(** A page cut from the user's rows, newest first: no more rows than
    the limit, rows of the table that belong to the user, in order. *)
Lemma page_spec st userId limit offset :
  0 <= limit ->
  let page := take (Z.to_nat limit)
                (drop (Z.to_nat offset)
                   (Review.order_desc
                      (filter (fun r => Review.owned_by userId r) (reviews st)))) in
  Z.of_nat (length page) <= limit
  /\ (forall r, r ∈ page -> r ∈ reviews st /\ review_user r = userId)
  /\ newest_first page.
Proof.
  intros L. cbv zeta.
  set (own := filter _ (reviews st)). split; [|split].
  - rewrite length_take. lia.
  - intros r H.
    pose proof (elem_of_sublist _ _ _ H (sublist_take _ _)) as H1.
    pose proof (elem_of_sublist _ _ _ H1 (sublist_drop _ _)) as H2.
    clear H H1. rename H2 into H.
    rewrite order_desc_perm in H. apply list_elem_of_filter in H as [O I].
    split; [exact I|]. unfold Review.owned_by in O.
    now apply Is_true_true, String.eqb_eq in O.
  - pose proof (order_desc_sorted own) as S. unfold newest_first in *.
    rewrite <- (take_drop (Z.to_nat offset) (Review.order_desc own)) in S.
    apply StronglySorted_app in S as (_ & _ & S).
    rewrite <- (take_drop (Z.to_nat limit) (drop _ _)) in S.
    now apply StronglySorted_app in S as (_ & S & _).
Qed.

(** Rows of one second come in the order of the table. *)
Example order_desc_keeps_ties :
  Review.order_desc
    [mkReview "a" "u" "" "" "" [] JNull 5; mkReview "b" "u" "" "" "" [] JNull 7;
     mkReview "c" "u" "" "" "" [] JNull 5; mkReview "d" "u" "" "" "" [] JNull 7]
  = [mkReview "b" "u" "" "" "" [] JNull 7; mkReview "d" "u" "" "" "" [] JNull 7;
     mkReview "a" "u" "" "" "" [] JNull 5; mkReview "c" "u" "" "" "" [] JNull 5].
Proof. reflexivity. Qed.

End Pages.

(** ** Statistics *)

Section Statistics.

Import Reviews.

Lemma remove_dups_length (l : list string) :
  (length (remove_dups l) <= length l)%nat.
Proof.
  induction l as [|x l IH]; simpl; [lia|].
  destruct (decide_rel _ _ _); simpl; lia.
Qed.

Lemma sum_bounds lo hi (vs : list Q) :
  Forall (fun q => inject_Z lo <= q /\ q <= inject_Z hi)%Q vs ->
  (inject_Z lo * inject_Z (Z.of_nat (length vs)) <= foldr Qplus 0 vs
   /\ foldr Qplus 0 vs <= inject_Z hi * inject_Z (Z.of_nat (length vs)))%Q.
Proof.
  induction 1 as [|q vs [Lo Hi] _ [IH1 IH2]]; simpl foldr; simpl length.
  - split; ring_simplify; apply Qle_refl.
  - rewrite Nat2Z.inj_succ. unfold Z.succ. rewrite inject_Z_plus.
    change (inject_Z 1) with 1%Q.
    set (a := inject_Z lo) in *. set (b := inject_Z hi) in *.
    set (n := inject_Z (Z.of_nat (length vs))) in *.
    set (t := foldr Qplus 0%Q vs) in *.
    clearbody a b n t. split; nra.
Qed.

(** The average of values that count between two bounds lies between them. *)
Lemma avg_bounds lo hi (l : list Sqlite.SqlValue) q :
  Forall (fun v => forall x, Sqlite.numeric v = Some x ->
                     (inject_Z lo <= x /\ x <= inject_Z hi)%Q) l ->
  Review.avg l = Some q ->
  (inject_Z lo <= q /\ q <= inject_Z hi)%Q.
Proof.
  intros F. unfold Review.avg.
  assert (V : Forall (fun x => inject_Z lo <= x /\ x <= inject_Z hi)%Q
                (omap Sqlite.numeric l)).
  { apply Forall_forall. intros x H. apply list_elem_of_omap in H as (v & Hv & E).
    rewrite Forall_forall in F. exact (F _ Hv x E). }
  destruct (omap Sqlite.numeric l) as [|v vs] eqn:E; [discriminate|]. intros [= <-].
  pose proof (sum_bounds lo hi _ V) as [Lo Hi].
  assert (P : (0 < inject_Z (Z.of_nat (length (v :: vs))))%Q).
  { change 0%Q with (inject_Z 0). rewrite <- Zlt_Qlt. simpl length. lia. }
  split.
  - apply Qle_shift_div_l; [exact P|exact Lo].
  - apply Qle_shift_div_r; [exact P|exact Hi].
Qed.

Lemma round_range q : (0 <= q /\ q <= 100)%Q -> 0 <= Js.round q <= 100.
Proof. exact (round_nearest_range q). Qed.

(** X12: the statistics of a user count the user's own rows; the number
    of languages lies between 0 and that count; the average score is 0 for
    a user without reviews; and when every stored overall score of the user
    that counts in the average (an integer, a boolean as 1 or 0, a text as
    the number SQLite reads from it) lies in [0,100], so does the average
    score that is shown. *)
Theorem stats_are_bounded st userId :
  let own := filter (fun r => Review.owned_by userId r) (reviews st) in
  let s := stats_of (Review.getStats st userId) in
  totalReviews s = Z.of_nat (length own)
  /\ 0 <= languagesUsed s <= totalReviews s
  /\ (own = [] -> averageScore s = 0)
  /\ (Forall (fun r => forall x, Sqlite.numeric (Review.overall_of r) = Some x ->
                         (0 <= x /\ x <= 100)%Q) own ->
      0 <= averageScore s <= 100).
Proof.
  cbv zeta. unfold stats_of, Review.getStats. simpl.
  set (own := filter _ (reviews st)). repeat split.
  - lia.
  - pose proof (remove_dups_length (review_language <$> own)) as H.
    rewrite length_fmap in H. lia.
  - now intros ->.
  - rewrite rounded_average_spec. destruct (Review.avg _) as [q|] eqn:A; [|lia].
    apply round_range. apply (avg_bounds 0 100 _ q) in A; [exact A|].
    apply Forall_fmap. exact H.
  - rewrite rounded_average_spec. destruct (Review.avg _) as [q|] eqn:A; [|lia].
    apply round_range. apply (avg_bounds 0 100 _ q) in A; [exact A|].
    apply Forall_fmap. exact H.
Qed.

Lemma stats_are_bounded_witness :
  0 <= averageScore (stats_of (Review.getStats Scenario.shared_store "u1")) <= 100.
Proof.
  apply (stats_are_bounded Scenario.shared_store "u1").
  apply Forall_forall. intros r H x E. apply list_elem_of_filter in H as [_ H].
  apply list_elem_of_In in H. simpl in H.
  destruct H as [<-|[<-|[<-|[]]]]; injection E as <-; split; discriminate.
Defined.

(** A score that the agent sent as a text counts with its number. *)
Example text_scores_count :
  Review.avg [Sqlite.extracted (Some (JStr "250"))] = Some (250 / 1)%Q
  /\ Sqlite.text_value " -12.5e1x" = (- ((125 # 1) * (1 # 10) * (10 # 1)))%Q
  /\ Sqlite.text_value "abc" = 0%Q
  /\ Review.avg [Sqlite.extracted (Some (JBool true)); Sqlite.extracted (Some JNull);
                 Sqlite.extracted (Some (JArr [JNum 90]))]
     = Some ((1 + (0 + 0)) / 2)%Q.
Proof. repeat split; reflexivity. Qed.

End Statistics.

(** ** The handlers that read *)

Section Readers.

Import Reviews Scenario.

(** X13: GET /history for a signed-in user.  The limit is the parsed
    query value, or 20 when that is absent, not a number or 0; the offset
    likewise with 0.  A limit above 100 or below 1 and a negative offset are
    answered 400 without any review.  Otherwise, with an offset below
    2^63 - 512, the answer is 200 with at most [limit] reviews, all of them
    the user's own, the newest first; from that offset on the query fails
    with "datatype mismatch" and the error is handed to [errorHandler]. *)
Theorem history_answer req st u :
  user req = Some u ->
  let limit := Js.or_default (Js.parseInt (query_limit req)) 20 in
  let offset := Js.or_default (Js.parseInt (query_offset req)) 0 in
  (100 < limit \/ limit < 1 \/ offset < 0 ->
   exists m, historyHandler req st = Respond (mkResponse 400 (ErrorBody m None)) st)
  /\ (1 <= limit <= 100 -> 0 <= offset < 2 ^ 63 - 512 ->
      exists rows stats,
        historyHandler req st = Respond (mkResponse 200 (History rows stats)) st
        /\ Z.of_nat (length rows) <= limit
        /\ (forall r, r ∈ rows -> r ∈ reviews st /\ review_user r = user_id u)
        /\ newest_first rows)
  /\ (1 <= limit <= 100 -> 2 ^ 63 - 512 <= offset ->
      historyHandler req st = Raise (SqliteError "datatype mismatch") st)
  /\ (Js.parseInt (query_limit req) = None \/ Js.parseInt (query_limit req) = Some 0 ->
      limit = 20).
Proof.
  intros U. cbv zeta. split; [|split; [|split]].
  - intros H. destruct (history_refuses req st H) as [m E]. eauto.
  - intros L O. unfold historyHandler. rewrite U.
    destruct (_ >? 100) eqn:G; [lia|].
    destruct ((_ <? 1) || _) eqn:B.
    { apply orb_prop in B. lia. }
    rewrite findByUserId_returns by lia.
    do 2 eexists. split; [reflexivity|].
    apply page_spec. lia.
  - intros L O. unfold historyHandler. rewrite U.
    destruct (_ >? 100) eqn:G; [lia|].
    destruct ((_ <? 1) || _) eqn:B.
    { apply orb_prop in B. lia. }
    now rewrite findByUserId_mismatch.
  - now intros [-> | ->].
Qed.

Lemma history_answer_witness :
  (exists m,
     historyHandler
       (mkRequest None "203.0.113.7" (mkBody None None None None) (Some "250")
          None None (Some Sample.alice)) shared_store
     = Respond (mkResponse 400 (ErrorBody m None)) shared_store)
  /\ (exists rows stats,
        historyHandler
          (mkRequest None "203.0.113.7" (mkBody None None None None) (Some "1")
             (Some "1") None (Some Sample.alice)) shared_store
        = Respond (mkResponse 200 (History rows stats)) shared_store
        /\ Z.of_nat (length rows) <= 1
        /\ (forall r, r ∈ rows -> r ∈ reviews shared_store /\ review_user r = "u1")
        /\ newest_first rows)
  /\ historyHandler
       (mkRequest None "203.0.113.7" (mkBody None None None None) None
          (Some "99999999999999999999") None (Some Sample.alice)) shared_store
     = Raise (SqliteError "datatype mismatch") shared_store.
Proof.
  split; [|split].
  - apply (history_answer
             (mkRequest None "203.0.113.7" (mkBody None None None None) (Some "250")
                None None (Some Sample.alice)) shared_store Sample.alice eq_refl).
    left. vm_compute. reflexivity.
  - apply (history_answer
             (mkRequest None "203.0.113.7" (mkBody None None None None) (Some "1")
                (Some "1") None (Some Sample.alice)) shared_store Sample.alice eq_refl);
      vm_compute; intuition discriminate.
  - apply (history_answer
             (mkRequest None "203.0.113.7" (mkBody None None None None) None
                (Some "99999999999999999999") None (Some Sample.alice))
             shared_store Sample.alice eq_refl);
      vm_compute; intuition discriminate.
Defined.

Lemma substr_length n s : (String.length (Review.substr n s) <= n)%nat.
Proof.
  revert s. induction n as [|n IH]; intros [|c r]; simpl; try lia.
  specialize (IH r). lia.
Qed.

(** X14: GET /stats/summary lists at most the five newest reviews of the
    user, each with a preview of at most 100 characters of its code, and
    never a row of somebody else. *)
Theorem summary_lists_five_previews st userId :
  let rows := Review.getRecentSummary st userId 5 in
  Z.of_nat (length rows) <= 5
  /\ forall s, s ∈ rows ->
       Z.of_nat (String.length (code_preview s)) <= 100
       /\ exists r, r ∈ reviews st /\ review_user r = userId
                    /\ sum_id s = review_id r
                    /\ String.prefix (code_preview s) (review_code r) = true.
Proof.
  cbv zeta. unfold Review.getRecentSummary. split.
  - rewrite length_fmap, length_take. lia.
  - intros s H. apply list_elem_of_fmap in H as (r & -> & H).
    cbn [code_preview sum_id].
    split; [pose proof (substr_length 100 (review_code r)); lia|].
    exists r. pose proof (elem_of_sublist _ _ _ H (sublist_take _ _)) as H1.
    rewrite order_desc_perm in H1. apply list_elem_of_filter in H1 as [O I].
    unfold Review.owned_by in O. apply Is_true_true, String.eqb_eq in O.
    repeat split; auto.
    generalize 100%nat. generalize (review_code r). clear.
    intros c n. revert c. induction n as [|n IH]; intros [|a c]; simpl; auto.
    destruct (ascii_dec a a); [apply IH|contradiction].
Qed.

(** X15: GET /:id never shows a review of somebody else: what it returns
    is a row of the table with the requested id that belongs to the
    signed-in user, and when the user has no such row the answer is 404. *)
Theorem review_is_shown_to_its_owner_only req st u id :
  user req = Some u -> param_id req = Some id ->
  match Review.findById st id (user_id u) with
  | Some r =>
      getHandler req st = Respond (mkResponse 200 (ReviewData r)) st
      /\ r ∈ reviews st /\ review_id r = id /\ review_user r = user_id u
  | None =>
      getHandler req st = Respond (mkResponse 404 (ErrorBody "Review not found" None)) st
      /\ forall r, r ∈ reviews st -> review_id r = id -> review_user r <> user_id u
  end.
Proof.
  intros U P. unfold getHandler. rewrite U, P.
  destruct (Review.findById st id (user_id u)) as [r|] eqn:F;
    (split; [reflexivity|]); unfold Review.findById, Review.owned_by in F.
  - apply find_some in F as [I F]. apply andb_prop in F as [F1 F2].
    apply String.eqb_eq in F1, F2. now rewrite list_elem_of_In.
  - intros r I E O. apply list_elem_of_In in I.
    pose proof (find_none _ _ F r I) as N. simpl in N.
    rewrite E, O, !String.eqb_refl in N. discriminate.
Qed.

Lemma review_is_shown_to_its_owner_only_witness :
  getHandler (signed_in bob (Some "r1")) shared_store
  = Respond (mkResponse 404 (ErrorBody "Review not found" None)) shared_store
  /\ forall r, r ∈ reviews shared_store -> review_id r = "r1" ->
       review_user r <> user_id bob.
Proof.
  apply (review_is_shown_to_its_owner_only (signed_in bob (Some "r1")) shared_store
           bob "r1" eq_refl eq_refl).
Defined.

End Readers.

(** ** What POST /analyze writes *)

Section Writers.

Import Validators Conditions Reviews AiService Scenario.

(** The answer to an admitted request whose call to the agent is rejected. *)
Lemma rejected_reply env req st req' st' e m :
  admitted env req st req' st' ->
  agent env (payload_for req) = Rejected e ->
  rethrow e = Error m -> m <> "" ->
  reply env (route env PostAnalyze req st)
  = (mkResponse 500 (ErrorBody m (if development env then Some "" else None)),
     log_call st' (payload_for req)).
Proof.
  intros A R M N.
  destruct (route_admitted _ _ _ _ _ A) as (Rt & u & c & U & C & P).
  rewrite Rt. unfold analyzeHandler, analyzeCode. rewrite U, C, P, R. simpl.
  now rewrite M, errorHandler_plain.
Qed.

(** X16: when the agent answers a failed call with an error text of its
    own, that text is what the client reads in the 500 answer; a refused
    connection is reported as the agent being unavailable, whatever else the
    failure carries. *)
Theorem agent_error_text_reaches_client env req st req' st' e :
  admitted env req st req' st' ->
  agent env (payload_for req) = Rejected e ->
  isAxiosError e = true ->
  (forall s m, ax_code e <> Some "ECONNREFUSED" ->
     ax_response e = Some (s, Some (JStr m)) -> m <> "" ->
     fst (reply env (route env PostAnalyze req st))
     = mkResponse 500 (ErrorBody m (if development env then Some "" else None)))
  /\ (ax_code e = Some "ECONNREFUSED" ->
      fst (reply env (route env PostAnalyze req st))
      = mkResponse 500
          (ErrorBody
             "AI agent service unavailable. Please ensure the Python agent is running."
             (if development env then Some "" else None))).
Proof.
  intros A R X. split.
  - intros s m C Rs N.
    rewrite (rejected_reply env req st req' st' e m A R); [reflexivity| |exact N].
    unfold rethrow, response_error. rewrite X, (bool_decide_eq_false_2 _ C), Rs.
    simpl. apply String.eqb_neq in N. now rewrite N.
  - intros C.
    erewrite (rejected_reply env req st req' st' e _ A R); [reflexivity| |discriminate].
    unfold rethrow. now rewrite X, (bool_decide_eq_true_2 _ C).
Qed.

Lemma agent_error_text_reaches_client_witness :
  fst (reply (Sample.env_with (fun _ => Rejected
                (mkAxiosError true (Some "ERR_BAD_REQUEST")
                   (Some (400, Some (JStr "Unsupported language: cobol")))
                   "Request failed with status code 400")))
         (route (Sample.env_with (fun _ => Rejected
                   (mkAxiosError true (Some "ERR_BAD_REQUEST")
                      (Some (400, Some (JStr "Unsupported language: cobol")))
                      "Request failed with status code 400")))
            PostAnalyze Sample.review_request Sample.store))
  = mkResponse 500 (ErrorBody "Unsupported language: cobol" None).
Proof.
  eapply (agent_error_text_reaches_client
            (Sample.env_with (fun _ => Rejected
               (mkAxiosError true (Some "ERR_BAD_REQUEST")
                  (Some (400, Some (JStr "Unsupported language: cobol")))
                  "Request failed with status code 400")))
            Sample.review_request Sample.store).
  - vm_compute. reflexivity.
  - reflexivity.
  - reflexivity.
  - discriminate.
  - reflexivity.
  - discriminate.
Defined.

Lemma validate_outcome req st :
  (exists req', validateCodeReview req st = Next req' st)
  \/ (exists errors,
        validateCodeReview req st = Respond (mkResponse 400 (ValidationFailed errors)) st).
Proof.
  unfold validateCodeReview.
  destruct (check_code _) as [c e1]. destruct (check_language _) as [l e2].
  destruct (check_skillLevel _) as [s e3].
  destruct (e1 ++ e2 ++ e3 ++ check_focusAreas _); eauto.
Qed.

Lemma authenticate_outcome env req st :
  (exists u, AuthMiddleware.authenticate env req st
             = Next (AuthMiddleware.set_user req u) st)
  \/ (exists res, AuthMiddleware.authenticate env req st = Respond res st
                  /\ (status res = 401 \/ status res = 500)).
Proof.
  unfold AuthMiddleware.authenticate.
  case_matches ltac:(eauto 6).
Qed.

(** The middlewares of POST /analyze either admit the request or end it
    with another status than 200; they write nothing but hit counters. *)
Lemma gate_cases env req st :
  (exists req' st', admitted env req st req' st')
  \/ (exists res st',
        run (middlewares env PostAnalyze) Next req st = Respond res st'
        /\ status res <> 200 /\ users st' = users st
        /\ reviews st' = reviews st /\ agent_log st' = agent_log st).
Proof.
  unfold admitted. simpl.
  destruct (authenticate_outcome env req st) as [[u ->]|(res & -> & S)].
  2:{ right. exists res, st. repeat split; auto; lia. }
  destruct (limiter_cases (AuthMiddleware.set_user req u) st)
    as (st1 & U & R & G & [-> | [res E]]).
  - destruct (validate_outcome (AuthMiddleware.set_user req u) st1)
      as [[req' ->]|[errors ->]]; [eauto|].
    right. do 2 eexists. split; [reflexivity|]. simpl. repeat split; auto; lia.
  - rewrite E. right. exists res, st1. repeat split; auto.
    unfold RateLimiter.reviewRateLimiter in E.
    destruct (_ <? _)%nat; [|discriminate]. injection E as <-. simpl; lia.
Qed.

(** A later property of an object hides an earlier one of the same name. *)
Lemma assoc_app k l1 l2 :
  assoc k (l1 ++ l2)
  = match assoc k l2 with
    | Some w => Some w
    | None => assoc k l1
    end.
Proof.
  induction l1 as [|[k' v] l1 IH]; simpl.
  - now destruct (assoc k l2).
  - rewrite IH. now destruct (assoc k l2).
Qed.

(** An index starts with a digit, or with the sign. *)
Lemma decimal_head n :
  exists c r, JsValue.decimal n = String c r /\ c <> "i"%char /\ c <> "c"%char.
Proof.
  unfold JsValue.decimal. destruct (Z.to_int n) as [d|d]; simpl.
  - destruct d; simpl; do 2 eexists; (split; [reflexivity|]); split; discriminate.
  - do 2 eexists. split; [reflexivity|]. split; discriminate.
Qed.

Lemma assoc_indices k (l : list json) :
  k = "id" \/ k = "createdAt" ->
  forall start,
    assoc k (imap (fun i x => (JsValue.decimal (Z.of_nat (start + i)), x)) l) = None.
Proof.
  intros K. induction l as [|x l IH]; intros start; [reflexivity|].
  cbn [imap assoc].
  assert (E : imap ((fun i x => (JsValue.decimal (Z.of_nat (start + i)), x)) ∘ S) l
              = imap (fun i x => (JsValue.decimal (Z.of_nat (S start + i)), x)) l).
  { apply imap_ext. intros i y _. simpl. do 3 f_equal. lia. }
  rewrite E, IH.
  destruct (decimal_head (Z.of_nat (start + 0))) as (c & r & -> & N1 & N2).
  destruct (String.eqb_spec k (String c r)) as [Q|Q]; [|reflexivity].
  destruct K as [-> | ->]; injection Q as Q _; congruence.
Qed.

(** The properties that the spread copies from a value that is no object
    have indices for names. *)
Lemma spread_no_index k d :
  k = "id" \/ k = "createdAt" ->
  assoc k (JsValue.spread d) = prop k d.
Proof.
  intros K. destruct d as [ |b|n|s|items|fs]; try reflexivity.
  - exact (assoc_indices k (JsValue.characters s) K O).
  - exact (assoc_indices k items K O).
Qed.

(** What the answer [{ id, ...reviewResult, createdAt }] shows: the time
    of the row; the id of the row, unless the result has an [id] of its own,
    which is shown instead; and every other property of a result that is an
    object. *)
Lemma assoc_replace k v k' (fs : list (string * json)) :
  assoc k' ((fun p => if String.eqb k (fst p) then (fst p, v) else p) <$> fs)
  = if String.eqb k' k then (fun _ => v) <$> assoc k' fs else assoc k' fs.
Proof.
  induction fs as [|[k0 w] fs IH].
  - simpl. now destruct (String.eqb k' k).
  - rewrite fmap_cons. cbn [fst snd].
    destruct (String.eqb_spec k k0) as [<-|N]; cbn [assoc]; rewrite IH.
    + destruct (String.eqb_spec k' k) as [->|N'];
        [now destruct (assoc k fs)|reflexivity].
    + destruct (String.eqb_spec k' k) as [->|N']; [|reflexivity].
      destruct (assoc k fs); [reflexivity|].
      destruct (String.eqb_spec k k0); [contradiction|reflexivity].
Qed.

Lemma assoc_none_existsb k (fs : list (string * json)) :
  assoc k fs = None <-> existsb (fun p => String.eqb k (fst p)) fs = false.
Proof.
  induction fs as [|[k0 w] fs IH]; simpl; [tauto|].
  destruct (assoc k fs); destruct (String.eqb k k0); simpl;
    rewrite <- ?IH; split; congruence.
Qed.

(** Reading a property after one assignment. *)
Lemma assoc_define k fs kv :
  assoc k (JsValue.define fs kv)
  = if String.eqb k (fst kv) then Some (snd kv) else assoc k fs.
Proof.
  unfold JsValue.define. destruct kv as [k0 v]. cbn [fst snd].
  destruct (existsb _ fs) eqn:E.
  - rewrite assoc_replace. destruct (String.eqb_spec k k0) as [->|N]; [|reflexivity].
    destruct (assoc k0 fs) eqn:A; [reflexivity|].
    apply assoc_none_existsb in A. congruence.
  - rewrite assoc_app. simpl. destruct (String.eqb_spec k k0) as [->|N]; [|reflexivity].
    reflexivity.
Qed.

(** Reading a property after a run of assignments: the last one to that
    name counts. *)
Lemma assoc_defines k l : forall fs,
  assoc k (foldl JsValue.define fs l)
  = match assoc k l with
    | Some w => Some w
    | None => assoc k fs
    end.
Proof.
  induction l as [|[k0 v] l IH]; intros fs; [reflexivity|].
  cbn [foldl assoc]. rewrite IH, assoc_define. cbn [fst snd].
  destruct (assoc k l); [reflexivity|]. now destruct (String.eqb k k0).
Qed.

Lemma review_answer_shows id d t :
  prop "createdAt" (review_answer id d t) = Some (JNum t)
  /\ prop "id" (review_answer id d t) = Some (default (JStr id) (prop "id" d))
  /\ forall k v, k <> "createdAt" -> prop k d = Some v ->
       prop k (review_answer id d t) = Some v.
Proof.
  unfold review_answer. cbn [prop]. split; [|split].
  - now rewrite assoc_defines, assoc_app.
  - rewrite assoc_defines, assoc_app. cbn [assoc].
    rewrite (spread_no_index "id" d) by auto. simpl.
    now destruct (prop "id" d).
  - intros k v N P. rewrite assoc_defines, assoc_app. cbn [assoc].
    apply String.eqb_neq in N. rewrite N.
    destruct d as [ |b|n|s|items|fs]; try discriminate P.
    cbn [JsValue.spread prop] in *. now rewrite P.
Qed.

(** X17: POST /analyze stores a review exactly when it answers 200: then
    one row is added at the end of the table, with the fresh id, the result
    of the agent and the time; the answer is [{ id, ...result, createdAt }]
    of that row: it shows the time of the row, and it shows the id of the
    row unless the result has an [id] of its own, which it shows instead.
    With any other status the table is as before.  The users are never
    touched, and the agent is asked at most once, with the sanitized
    request. *)
Theorem analyze_stores_iff_200 env req st :
  let '(res, st') := reply env (route env PostAnalyze req st) in
  users st' = users st
  /\ (agent_log st' = agent_log st
      \/ agent_log st' = agent_log st ++ [payload_for req])
  /\ ((status res = 200
       /\ exists row answer,
            reviews st' = reviews st ++ [row]
            /\ review_id row = uuidv4 env /\ created_at row = now env
            /\ res_body res = ReviewCreated answer
            /\ answer = review_answer (review_id row) (review_result row)
                          (created_at row)
            /\ prop "createdAt" answer = Some (JNum (created_at row))
            /\ prop "id" answer
               = Some (default (JStr (review_id row))
                         (prop "id" (review_result row))))
      \/ (status res <> 200 /\ reviews st' = reviews st)).
Proof.
  destruct (gate_cases env req st) as [(req' & st1 & A)|(res & st1 & E & S & U & R & G)].
  2:{ unfold route. rewrite run_pass, E. simpl. auto 6. }
  destruct (route_admitted _ _ _ _ _ A) as (Rt & u & c & Us & C & P).
  assert (T : users st1 = users st /\ reviews st1 = reviews st
              /\ agent_log st1 = agent_log st).
  { unfold admitted in A. simpl in A.
    destruct (authenticate_outcome env req st) as [[u0 E]|(res & E & _)];
      rewrite E in A; [|discriminate].
    destruct (limiter_cases (AuthMiddleware.set_user req u0) st)
      as (st2 & U2 & R2 & G2 & [E2 | [res E2]]); rewrite E2 in A; [|discriminate].
    destruct (validate_outcome (AuthMiddleware.set_user req u0) st2)
      as [[r E3]|[errors E3]]; rewrite E3 in A; [|discriminate].
    now injection A as _ <-. }
  destruct T as (U & R & G).
  rewrite Rt. unfold analyzeHandler, analyzeCode. rewrite Us, C, P.
  destruct (agent env (payload_for req)) as [d|e] eqn:Ag.
  - assert (D : d = JNull \/ d <> JNull) by (destruct d; auto; right; discriminate).
    destruct D as [-> | D].
    + simpl. rewrite G. split; [exact U|]. split; [auto|]. right.
      split; [|exact R]. destruct (development env); simpl; lia.
    + replace (match d with JNull => _ | _ => (Return d, log_call st1 (payload_for req)) end)
        with (Return d, log_call st1 (payload_for req)) by (now destruct d).
      unfold Review.create.
      destruct (language (body req')) as [lang|];
        [destruct (existsb _ _)|]; simpl; rewrite ?G, ?R;
        (split; [exact U|]); (split; [auto|]).
      * right. split; [|reflexivity]. destruct (development env); simpl; lia.
      * left. split; [reflexivity|]. do 2 eexists.
        split; [reflexivity|]. cbn [review_id created_at review_result].
        split; [reflexivity|]. split; [reflexivity|]. split; [reflexivity|].
        split; [reflexivity|].
        destruct (review_answer_shows (uuidv4 env) d (now env)) as (H1 & H2 & _).
        split; [exact H1|exact H2].
      * right. split; [|reflexivity]. destruct (development env); simpl; lia.
  - simpl. destruct (errorHandler_rethrow env e) as [_ H]. rewrite H. simpl.
    rewrite G. split; [exact U|]. split; [auto|]. right. split; [lia|exact R].
Qed.

Lemma fresh_id_existsb id (l : list ReviewRow) :
  Forall (fun r => review_id r <> id) l ->
  existsb (fun r => String.eqb (review_id r) id) l = false.
Proof.
  induction 1 as [|r l N _ IH]; simpl; [reflexivity|].
  apply String.eqb_neq in N. now rewrite N.
Qed.

Lemma admitted_tables env req st req' st' :
  admitted env req st req' st' ->
  users st' = users st /\ reviews st' = reviews st /\ agent_log st' = agent_log st
  /\ exists u, AuthMiddleware.authenticate env req st
               = Next (AuthMiddleware.set_user req u) st
               /\ user req' = Some u.
Proof.
  unfold admitted. simpl. intros A.
  destruct (authenticate_outcome env req st) as [[u E]|(res & E & _)];
    rewrite E in A; [|discriminate].
  destruct (limiter_cases (AuthMiddleware.set_user req u) st)
    as (st2 & U2 & R2 & G2 & [E2 | [res E2]]); rewrite E2 in A; [|discriminate].
  destruct (validateCodeReview _ st2) as [r s| |] eqn:V; try discriminate.
  injection A as <- <-. apply validate_next in V as (-> & Uq & _).
  repeat split; auto. exists u. split; [exact E|]. now rewrite Uq.
Qed.

Lemma validateId_passes req st id :
  param_id req = Some id -> id <> "" -> validateId req st = Next req st.
Proof. unfold validateId. intros -> N. now destruct id. Qed.

Lemma getHandler_found req st u id r :
  user req = Some u -> param_id req = Some id ->
  Review.findById st id (user_id u) = Some r ->
  getHandler req st = Respond (mkResponse 200 (ReviewData r)) st.
Proof. unfold getHandler. now intros -> -> ->. Qed.

(** X18: a review that POST /analyze has answered with 200 can be read
    back: when the agent answers an admitted request and the new id is not
    taken, the answer is 200 with [{ id, ...result, createdAt }], which shows
    the new id when the result has no [id] of its own and every property of
    an object result other than [createdAt]; and a GET /:id for the new id
    with the same credentials returns the stored row, which holds the
    trimmed code, the result and the settings that were sent to the agent. *)
Theorem posted_review_is_read_back env req st req' st' d :
  admitted env req st req' st' ->
  agent env (payload_for req) = Resolved d -> d <> JNull ->
  Forall (fun r => review_id r <> uuidv4 env) (reviews st) ->
  uuidv4 env <> "" ->
  let posted := reply env (route env PostAnalyze req st) in
  let answer := review_answer (uuidv4 env) d (now env) in
  fst posted = mkResponse 200 (ReviewCreated answer)
  /\ (prop "id" d = None -> prop "id" answer = Some (JStr (uuidv4 env)))
  /\ (forall k v, k <> "createdAt" -> prop k d = Some v -> prop k answer = Some v)
  /\ exists row,
       reply env (route env GetReview (asking_for (uuidv4 env) req) (snd posted))
       = (mkResponse 200 (ReviewData row), snd posted)
       /\ review_code row = ar_code (payload_for req)
       /\ review_result row = d
       /\ skill_level row = ar_skillLevel (payload_for req)
       /\ focus_areas row = ar_focusAreas (payload_for req).
Proof.
  intros A Ag D F N. cbv zeta.
  destruct (route_admitted _ _ _ _ _ A) as (Rt & u & c & Us & C & P).
  destruct (admitted_tables _ _ _ _ _ A) as (U & R & G & u' & Au & Us').
  rewrite Us in Us'. injection Us' as <-.
  pose proof (admitted_inv _ _ _ _ _ A) as (_ & C' & L & Sk & Fo & _).
  rewrite C in C'. injection C' as ->.
  assert (Post : route env PostAnalyze req st
                 = Respond (mkResponse 200
                              (ReviewCreated (review_answer (uuidv4 env) d (now env))))
                     (Review.set_reviews (log_call st' (payload_for req))
                        (reviews st ++
                         [mkReview (uuidv4 env) (user_id u)
                            (ar_code (payload_for req))
                            (Js.trim (toString (language (body req))))
                            (ar_skillLevel (payload_for req))
                            (ar_focusAreas (payload_for req)) d (now env)]))).
  { rewrite Rt. unfold analyzeHandler, analyzeCode. rewrite Us, C, P, Ag.
    replace (match d with JNull => _ | _ => (Return d, log_call st' (payload_for req)) end)
      with (Return d, log_call st' (payload_for req)) by (now destruct d).
    unfold Review.create. rewrite L. simpl reviews. rewrite R.
    rewrite (fresh_id_existsb _ _ F). unfold payload_for. simpl.
    now rewrite Sk, Fo. }
  rewrite Post. simpl fst. simpl snd. split; [reflexivity|].
  destruct (review_answer_shows (uuidv4 env) d (now env)) as (_ & ShowId & ShowKey).
  split; [intros Nid; now rewrite ShowId, Nid|]. split; [exact ShowKey|].
  eexists. split.
  - apply authenticate_next_iff in Au
      as (h & uid & u0 & H1 & H2 & H3 & H4 & H5 & _).
    assert (u0 = u) as ->.
    { unfold AuthMiddleware.set_user in H5. now injection H5. }
    set (st2 := Review.set_reviews _ _).
    assert (Get : AuthMiddleware.authenticate env (asking_for (uuidv4 env) req) st2
                  = Next (AuthMiddleware.set_user (asking_for (uuidv4 env) req) u) st2).
    { apply authenticate_next_iff. exists h, uid, u.
      repeat split; auto. simpl. now rewrite U. }
    unfold route. simpl middlewares. simpl handler_of.
    rewrite (run_next _ _ _ _ _ _ _ Get).
    rewrite (run_next _ _ _ _ _ _ _
               (validateId_passes (AuthMiddleware.set_user (asking_for (uuidv4 env) req) u)
                  st2 (uuidv4 env) eq_refl N)).
    simpl run. unfold reply.
    erewrite getHandler_found; [reflexivity|reflexivity|reflexivity|].
    subst st2. unfold Review.findById, Review.set_reviews. simpl reviews.
    rewrite find_app, (find_none_existsb _ _ _ (fresh_id_existsb _ _ F)).
    + simpl. unfold Review.owned_by. simpl. now rewrite !String.eqb_refl.
    + intros x H. now apply andb_prop in H as [H _].
  - simpl. auto.
Qed.

Lemma posted_review_is_read_back_witness :
  let posted := reply Sample.env
                  (route Sample.env PostAnalyze Sample.review_request Sample.store) in
  let answer := review_answer (uuidv4 Sample.env) Sample.result (now Sample.env) in
  fst posted = mkResponse 200 (ReviewCreated answer)
  /\ (prop "id" Sample.result = None -> prop "id" answer = Some (JStr (uuidv4 Sample.env)))
  /\ (forall k v, k <> "createdAt" -> prop k Sample.result = Some v ->
        prop k answer = Some v)
  /\ exists row,
       reply Sample.env
         (route Sample.env GetReview
            (asking_for (uuidv4 Sample.env) Sample.review_request) (snd posted))
       = (mkResponse 200 (ReviewData row), snd posted)
       /\ review_code row = ar_code (payload_for Sample.review_request)
       /\ review_result row = Sample.result
       /\ skill_level row = ar_skillLevel (payload_for Sample.review_request)
       /\ focus_areas row = ar_focusAreas (payload_for Sample.review_request).
Proof.
  eapply (posted_review_is_read_back Sample.env Sample.review_request Sample.store).
  - vm_compute. reflexivity.
  - reflexivity.
  - discriminate.
  - constructor.
  - discriminate.
Defined.

(** X19: a signed-in client that has used up its ten requests gets 429
    from POST /analyze whatever it sends: the body is not looked at, the
    agent is not asked and the tables are not touched. *)
Theorem over_the_limit_gets_429 env req st u :
  AuthMiddleware.authenticate env req st = Next (AuthMiddleware.set_user req u) st ->
  (10 <= default O (hits st !! RateLimiter.keyGenerator (AuthMiddleware.set_user req u)))%nat ->
  exists st',
    reply env (route env PostAnalyze req st)
    = (mkResponse 429
         (RateLimited "Too many code review requests. Please try again later." 60), st')
    /\ users st' = users st /\ reviews st' = reviews st
    /\ agent_log st' = agent_log st.
Proof.
  intros A H. unfold route. simpl. rewrite A.
  unfold RateLimiter.reviewRateLimiter.
  destruct (_ <? _)%nat eqn:E.
  - eexists. split; [reflexivity|]. auto.
  - apply Nat.ltb_ge in E. unfold RateLimiter.max in E. lia.
Qed.

Lemma over_the_limit_gets_429_witness :
  exists st',
    reply Sample.env
      (route Sample.env PostAnalyze
         (Sample.request (Some "Bearer good") (mkBody None None None None))
         (after_hits 10 (signed_in Sample.alice None) Sample.store))
    = (mkResponse 429
         (RateLimited "Too many code review requests. Please try again later." 60), st')
    /\ users st' = users (after_hits 10 (signed_in Sample.alice None) Sample.store)
    /\ reviews st' = reviews (after_hits 10 (signed_in Sample.alice None) Sample.store)
    /\ agent_log st'
       = agent_log (after_hits 10 (signed_in Sample.alice None) Sample.store).
Proof.
  apply (over_the_limit_gets_429 Sample.env _ _ Sample.alice).
  - vm_compute. reflexivity.
  - vm_compute. lia.
Defined.

(** X20: the three reading endpoints (history, one review, summary)
    leave the store exactly as it was, whatever the request and whatever
    the answer. *)
Theorem reading_endpoints_do_not_write env req st :
  snd (reply env (route env GetHistory req st)) = st
  /\ snd (reply env (route env GetReview req st)) = st
  /\ snd (reply env (route env GetSummary req st)) = st.
Proof.
  unfold route. simpl.
  destruct (authenticate_outcome env req st) as [[u ->]|(res & -> & _)];
    [|now repeat split].
  repeat split.
  - unfold historyHandler. case_matches ltac:(try reflexivity).
  - unfold validateId, getHandler. simpl.
    destruct (param_id req) as [[|c r]|] eqn:P; simpl; rewrite ?P; try reflexivity.
    now destruct (Review.findById st (String c r) (user_id u)).
Qed.

Lemma filter_filter_negb_nil {A} (p : A -> bool) (l : list A) :
  filter (fun x => p x) (filter (fun x => negb (p x)) l) = [].
Proof.
  induction l as [|x l IH]; [reflexivity|]. rewrite filter_cons.
  destruct (p x) eqn:E.
  - now rewrite decide_False by (simpl; tauto).
  - rewrite decide_True by (simpl; tauto). rewrite filter_cons.
    now rewrite decide_False by (rewrite E; simpl; tauto).
Qed.

(** What [Review.delete] does, told without its filters. *)
Lemma delete_spec st id uid :
  exists removed kept : list ReviewRow,
    Review.delete st id uid
    = (Z.of_nat (length removed), Review.set_reviews st kept)
    /\ (removed <> [] <->
        exists r, r ∈ reviews st /\ review_id r = id /\ review_user r = uid)
    /\ Review.findById (Review.set_reviews st kept) id uid = None
    /\ Review.delete (Review.set_reviews st kept) id uid
       = (0, Review.set_reviews st kept).
Proof.
  pose (hit := fun r => String.eqb (review_id r) id && Review.owned_by uid r).
  exists (filter (fun r => hit r) (reviews st)),
         (filter (fun r => negb (hit r)) (reviews st)).
  split; [reflexivity|]. split; [|split].
  - split.
    + destruct (filter _ _) as [|r l] eqn:E; [congruence|]. intros _.
      assert (I : r ∈ filter (fun r => hit r) (reviews st)) by (rewrite E; left).
      apply list_elem_of_filter in I as [H I]. exists r. split; [exact I|].
      unfold hit, Review.owned_by in H.
      apply Is_true_true, andb_prop in H as [H1 H2].
      now apply String.eqb_eq in H1, H2.
    + intros (r & I & E1 & E2) N.
      assert (H : r ∈ filter (fun r => hit r) (reviews st)).
      { apply list_elem_of_filter. split; [|exact I]. unfold hit, Review.owned_by.
        now rewrite E1, E2, !String.eqb_refl. }
      rewrite N in H. now apply elem_of_nil in H.
  - exact (find_filter_negb hit (reviews st)).
  - unfold Review.delete. cbv beta zeta. simpl reviews. fold hit.
    change (fun r => String.eqb (review_id r) id && Review.owned_by uid r) with hit.
    pose proof (filter_filter_negb_nil hit (reviews st)) as E1.
    pose proof (filter_filter_keep (fun r => negb (hit r)) (fun r => negb (hit r))
                  (reviews st) (fun x H => H)) as E2.
    unfold hit in *. cbv beta in *. rewrite E1, E2. reflexivity.
Qed.

(** X21: DELETE /:id answers 200 exactly when the signed-in user owns a
    review with that id; once it has run, the id is gone for that user: the
    same DELETE and a GET for the id both answer 404.  Nothing but the
    reviews table is written. *)
Theorem deleted_review_is_gone req st u id :
  user req = Some u -> param_id req = Some id ->
  let st' := store_of (deleteHandler req st) in
  ((exists r, r ∈ reviews st /\ review_id r = id /\ review_user r = user_id u)
   <-> deleteHandler req st
       = Respond (mkResponse 200 (Message "Review deleted successfully")) st')
  /\ deleteHandler req st'
     = Respond (mkResponse 404 (ErrorBody "Review not found" None)) st'
  /\ getHandler req st'
     = Respond (mkResponse 404 (ErrorBody "Review not found" None)) st'
  /\ users st' = users st /\ hits st' = hits st /\ agent_log st' = agent_log st.
Proof.
  intros U P. cbv zeta.
  destruct (delete_spec st id (user_id u)) as (removed & kept & D1 & Ex & F & D2).
  assert (H1 : deleteHandler req st
               = if Z.of_nat (length removed) =? 0
                 then Respond (mkResponse 404 (ErrorBody "Review not found" None))
                        (Review.set_reviews st kept)
                 else Respond (mkResponse 200 (Message "Review deleted successfully"))
                        (Review.set_reviews st kept)).
  { unfold deleteHandler. now rewrite U, P, D1. }
  assert (St : store_of (deleteHandler req st) = Review.set_reviews st kept).
  { rewrite H1. now destruct (_ =? 0). }
  rewrite St. split; [|split; [|split]].
  - rewrite <- Ex, H1. destruct removed; simpl; split; congruence.
  - unfold deleteHandler. now rewrite U, P, D2.
  - unfold getHandler. now rewrite U, P, F.
  - auto.
Qed.

Lemma deleted_review_is_gone_witness :
  let st' := store_of (deleteHandler (signed_in Sample.alice (Some "r1")) shared_store) in
  ((exists r, r ∈ reviews shared_store /\ review_id r = "r1"
              /\ review_user r = user_id Sample.alice)
   <-> deleteHandler (signed_in Sample.alice (Some "r1")) shared_store
       = Respond (mkResponse 200 (Message "Review deleted successfully")) st')
  /\ deleteHandler (signed_in Sample.alice (Some "r1")) st'
     = Respond (mkResponse 404 (ErrorBody "Review not found" None)) st'
  /\ getHandler (signed_in Sample.alice (Some "r1")) st'
     = Respond (mkResponse 404 (ErrorBody "Review not found" None)) st'
  /\ users st' = users shared_store /\ hits st' = hits shared_store
  /\ agent_log st' = agent_log shared_store.
Proof.
  apply (deleted_review_is_gone (signed_in Sample.alice (Some "r1")) shared_store
           Sample.alice "r1" eq_refl eq_refl).
Defined.

End Writers.

(** ** Signing in *)

Section SigningIn.

Import Accounts AuthService AuthRoutes.

Lemma errorHandler_unnamed env name m :
  m <> "" ->
  name <> "ValidationError" -> name <> "UnauthorizedError" ->
  name <> "JsonWebTokenError" -> name <> "TokenExpiredError" ->
  ErrorHandler.errorHandler env (mkError name m None None "")
  = mkResponse 500 (ErrorBody m (if development env then Some "" else None)).
Proof.
  intros M N1 N2 N3 N4. unfold ErrorHandler.errorHandler. simpl.
  apply String.eqb_neq in M, N1, N2, N3, N4. now rewrite M, N1, N2, N3, N4.
Qed.

(** [apiRateLimiter] leaves the request as it came. *)
Lemma apiRateLimiter_cases req h :
  let k := default O (h !! a_ip req) in
  ((100 <= k)%nat
   /\ Server.apiRateLimiter req h
      = (Some (plain 429 (RateLimited "Too many requests. Please slow down." 60)),
         <[a_ip req := S k]> h))
  \/ ((k < 100)%nat
      /\ Server.apiRateLimiter req h = (None, <[a_ip req := S k]> h)).
Proof.
  cbv zeta. unfold Server.apiRateLimiter.
  destruct (100 <? S _)%nat eqn:E.
  - left. apply Nat.ltb_lt in E. split; [lia|reflexivity].
  - right. apply Nat.ltb_ge in E. split; [lia|reflexivity].
Qed.

(** [User.update] fails on the first key that is no column, and writes
    nothing then. *)
Lemma update_unknown_column now t id updates key :
  unresolved (fst <$> updates) = Some key ->
  update now t id updates
  = (Throw (SqliteError ("no such column: " +:+ key)), t).
Proof.
  unfold update. destruct updates as [|kv r]; [discriminate|]. now intros ->.
Qed.

(** The one update that the routes ask for names no column. *)
Lemma update_oauthId now t id v :
  update now t id [("oauthId", v)]
  = (Throw (SqliteError "no such column: oauthId"), t).
Proof. exact (update_unknown_column now t id [("oauthId", v)] "oauthId" eq_refl). Qed.

(** X22: GET /api/auth/user cannot succeed.  Its handler reads
    [req.user.id]; a request arrives without [req.user], and neither
    server.js nor the router puts a middleware before the handler that
    assigns it.  So a request is answered 429 by the general limiter once
    the address has made a hundred requests in the window, and 500 with the
    TypeError's message otherwise; the tables are not written.  The handler
    itself answers 200 for a request that carries a user of the table. *)
Theorem current_user_always_fails env a ss :
  (let '(res, ss') := Server.auth env GetUser a ss in
   ((100 <= default O (Server.api_hits ss !! Server.from_ip a))%nat
    /\ res = plain 429 (RateLimited "Too many requests. Please slow down." 60)
    \/ (default O (Server.api_hits ss !! Server.from_ip a) < 100)%nat
       /\ res = plain 500
                 (ErrorBody "Cannot read properties of undefined (reading 'id')"
                    (if development (base env) then Some "" else None)))
   /\ a_status res <> 200
   /\ Server.auth_store ss' = Server.auth_store ss)
  /\ forall req st u row,
       a_user req = Some u -> findById (accounts st) (acc_id u) = Some row ->
       exists n,
         userHandler req st
         = ARespond (mkAuthResponse 200
                       (CurrentUser (acc_id row) (acc_email row) (acc_name row)
                          (acc_avatar_url row) n (acc_created_at row))) st.
Proof.
  split.
  - unfold Server.auth.
    destruct (apiRateLimiter_cases (Server.request_of a) (Server.api_hits ss))
      as [[K E]|[K E]]; simpl in K; rewrite E.
    + split; [left; auto|]. split; [discriminate|reflexivity].
    + unfold route, userHandler, reply, Reviews.no_user, TypeError. simpl a_user.
      cbv iota. rewrite errorHandler_unnamed by discriminate.
      split; [right; auto|]. split; [simpl; lia|reflexivity].
  - intros req st u row U F. unfold userHandler, getWithReviewCount.
    rewrite U, F. eauto.
Qed.

(** X23: POST /refresh issues tokens exactly when the body carries a
    refresh token that is not empty, [jwt.verify] decodes it, and the
    decoded id is the id of a user; the tokens are then signed for that
    user.  A missing or empty token is answered 400, the id of no user 401,
    and the store is never written. *)
Theorem refresh_issues_tokens_iff env req st :
  (forall tokens,
     a_body (fst (reply env (route env Refresh req st))) = Refreshed tokens
     <-> exists t userId u,
           body_refreshToken req = Some t /\ t <> ""
           /\ verify_refresh env t = Verified userId
           /\ findById (accounts st) userId = Some u
           /\ tokens = generateTokens (signer env) (acc_id u))
  /\ (default "" (body_refreshToken req) = "" ->
      fst (reply env (route env Refresh req st))
      = plain 400 (ErrorBody "Refresh token is required" None))
  /\ (forall t userId,
        body_refreshToken req = Some t -> t <> "" ->
        verify_refresh env t = Verified userId ->
        findById (accounts st) userId = None ->
        fst (reply env (route env Refresh req st))
        = plain 401 (ErrorBody "Invalid refresh token" None))
  /\ snd (reply env (route env Refresh req st)) = st.
Proof.
  unfold route, refreshHandler.
  destruct (body_refreshToken req) as [[|c r]|] eqn:B; simpl.
  1,3: repeat split; try discriminate; try congruence;
       intros (t & uid & u & E & N & _); congruence.
  destruct (verify_refresh env (String c r)) as [uid|e] eqn:V.
  - destruct (findById (accounts st) uid) as [u|] eqn:F; simpl.
    + repeat split; try discriminate; try congruence.
      * intros [= <-]. exists (String c r), uid, u. auto 10.
      * intros (t & uid' & u' & [= <-] & _ & V' & F' & ->). congruence.
    + repeat split; try discriminate; try congruence.
      intros (t & uid' & u' & [= <-] & _ & V' & F' & ->). congruence.
  - simpl. repeat split; try discriminate; try congruence.
    intros (t & uid' & u' & [= <-] & _ & V' & _). congruence.
Qed.

Lemma refresh_issues_tokens_iff_witness :
  fst (reply Scenario.auth_env
         (route Scenario.auth_env Refresh
            (mkAuthRequest "203.0.113.7" None None (Some "refresh.a1") None)
            Scenario.known_by_email))
  = mkAuthResponse 200 (Refreshed (generateTokens Scenario.signer "a1"))
  /\ fst (reply Scenario.auth_env
            (route Scenario.auth_env Refresh
               (mkAuthRequest "203.0.113.7" None None (Some "refresh.a1") None)
               Scenario.empty_auth_store))
     = plain 401 (ErrorBody "Invalid refresh token" None).
Proof.
  split.
  - reflexivity.
  - apply (refresh_issues_tokens_iff Scenario.auth_env
             (mkAuthRequest "203.0.113.7" None None (Some "refresh.a1") None)
             Scenario.empty_auth_store) with (t := "refresh.a1") (userId := "a1");
      [reflexivity|discriminate|reflexivity|reflexivity].
Defined.

(** X24: signing in twice gives the same user.  When the handler of
    POST /login has answered with a user, the table holds that user under
    the provider's id, at most one row has been added, and any later login
    through the same provider finds that user again and adds nothing. *)
Theorem login_finds_the_user_again env env' req st res st' :
  loginHandler env req st = ARespond res st' ->
  exists u,
    res = logged_in env u
    /\ findByOAuthId (accounts st')
         (oauthId (exchangeOAuthCode (Validators.toString (oauth_code req))
                     (Validators.toString (provider req)))) = Some u
    /\ (accounts st' = accounts st
        \/ (accounts st' = accounts st ++ [u] /\ acc_id u = uuidv4 (base env)))
    /\ loginHandler env' req st' = ARespond (logged_in env' u) st'.
Proof.
  unfold loginHandler.
  set (info := exchangeOAuthCode _ _).
  destruct (findByOAuthId (accounts st) (oauthId info)) as [u|] eqn:F.
  - intros [= <- <-]. exists u. rewrite F. auto.
  - destruct (findByEmail (accounts st) (info_email info)) as [x|].
    { now rewrite update_oauthId. }
    unfold create.
    destruct (existsb _ _) eqn:E1; [discriminate|].
    destruct (existsb (fun a => String.eqb (acc_oauth_id a) (oauthId info)) _) eqn:E2;
      [discriminate|].
    intros [= <- <-]. eexists. split; [reflexivity|]. simpl.
    unfold findByOAuthId in *. rewrite find_app, F. simpl.
    rewrite String.eqb_refl. auto.
Qed.

Lemma login_finds_the_user_again_witness :
  exists u,
    logged_in Scenario.auth_env
      (mkAccount (uuidv4 Sample.env) "github_123456" "user@github.com" "GitHub User"
         "https://avatars.githubusercontent.com/u/1" (now Sample.env) (now Sample.env))
    = logged_in Scenario.auth_env u
    /\ findByOAuthId
         (accounts
            (set_accounts Scenario.empty_auth_store
               [mkAccount (uuidv4 Sample.env) "github_123456" "user@github.com"
                  "GitHub User" "https://avatars.githubusercontent.com/u/1"
                  (now Sample.env) (now Sample.env)]))
         (oauthId (exchangeOAuthCode
                     (Validators.toString (oauth_code (Scenario.login_request "github")))
                     (Validators.toString (provider (Scenario.login_request "github")))))
       = Some u
    /\ (accounts
          (set_accounts Scenario.empty_auth_store
             [mkAccount (uuidv4 Sample.env) "github_123456" "user@github.com"
                "GitHub User" "https://avatars.githubusercontent.com/u/1"
                (now Sample.env) (now Sample.env)])
        = accounts Scenario.empty_auth_store
        \/ (accounts
              (set_accounts Scenario.empty_auth_store
                 [mkAccount (uuidv4 Sample.env) "github_123456" "user@github.com"
                    "GitHub User" "https://avatars.githubusercontent.com/u/1"
                    (now Sample.env) (now Sample.env)])
            = accounts Scenario.empty_auth_store ++ [u]
            /\ acc_id u = uuidv4 (base Scenario.auth_env)))
    /\ loginHandler Scenario.auth_env (Scenario.login_request "github")
         (set_accounts Scenario.empty_auth_store
            [mkAccount (uuidv4 Sample.env) "github_123456" "user@github.com"
               "GitHub User" "https://avatars.githubusercontent.com/u/1"
               (now Sample.env) (now Sample.env)])
       = ARespond (logged_in Scenario.auth_env u)
           (set_accounts Scenario.empty_auth_store
              [mkAccount (uuidv4 Sample.env) "github_123456" "user@github.com"
                 "GitHub User" "https://avatars.githubusercontent.com/u/1"
                 (now Sample.env) (now Sample.env)]).
Proof.
  apply (login_finds_the_user_again Scenario.auth_env Scenario.auth_env
           (Scenario.login_request "github") Scenario.empty_auth_store).
  reflexivity.
Defined.

(** X25: POST /login answers with a user only to one of the first five
    attempts of an address in a window, and only when the trimmed code is
    not empty and the trimmed provider is google or github; whatever the
    answer, at most one account is added, and then it is the user that the
    answer shows. *)
Theorem login_is_guarded env req st :
  let '(res, st') := reply env (route env Login req st) in
  (forall id e n a t, a_body res = LoggedIn id e n a t ->
     (default O (auth_hits st !! a_ip req) < 5)%nat
     /\ Js.trim (Validators.toString (oauth_code req)) <> ""
     /\ In (Js.trim (Validators.toString (provider req))) ["google"; "github"])
  /\ stored_reviews st' = stored_reviews st
  /\ (accounts st' = accounts st
      \/ exists u, accounts st' = accounts st ++ [u] /\ res = logged_in env u).
Proof.
  unfold route. simpl run. unfold authRateLimiter.
  destruct (5 <? S _)%nat eqn:H.
  { simpl. split; [intros ? ? ? ? ? E; discriminate E|auto]. }
  apply Nat.ltb_ge in H.
  unfold validateOAuth. cbv zeta.
  destruct (negb (String.eqb (Js.trim (Validators.toString (oauth_code req))) "")) eqn:C;
    [|simpl; split; [intros ? ? ? ? ? E; discriminate E|auto]].
  destruct (Validators.includes ["google"; "github"]
              (Js.trim (Validators.toString (provider req)))) eqn:P;
    [|simpl; split; [intros ? ? ? ? ? E; discriminate E|auto]].
  assert (G : (default O (auth_hits st !! a_ip req) < 5)%nat
              /\ Js.trim (Validators.toString (oauth_code req)) <> ""
              /\ In (Js.trim (Validators.toString (provider req))) ["google"; "github"]).
  { split; [lia|]. split.
    - intros E. rewrite E in C. discriminate.
    - unfold Validators.includes in P. apply existsb_exists in P as (x & I & E).
      apply String.eqb_eq in E. now subst x. }
  simpl app. cbv iota. unfold loginHandler. set (info := exchangeOAuthCode _ _).
  cbn [accounts].
  destruct (findByOAuthId (accounts st) (oauthId info)) as [u|].
  { simpl. split; [intros; exact G|auto]. }
  destruct (findByEmail (accounts st) (info_email info)) as [x|].
  { rewrite update_oauthId.
    simpl. split; [intros ? ? ? ? ? E; discriminate E|auto]. }
  unfold create. destruct (existsb _ _); [simpl; split; [intros ? ? ? ? ? E; discriminate E|auto]|].
  destruct (existsb _ _); [simpl; split; [intros ? ? ? ? ? E; discriminate E|auto]|].
  simpl. split; [intros; exact G|]. split; [reflexivity|]. right. eauto.
Qed.

(** X26: [User.update] fails on the first key that is no column of
    [users], and writes nothing then.  That is what happens to a user who is
    known by the address that the provider reports, but under another OAuth
    id: the handler of POST /login passes the key [oauthId], where the column
    is [oauth_id], so the answer is 500 and the table is unchanged. *)
Theorem login_by_known_email_fails env req st existing :
  let info := exchangeOAuthCode (Validators.toString (oauth_code req))
                (Validators.toString (provider req)) in
  findByOAuthId (accounts st) (oauthId info) = None ->
  findByEmail (accounts st) (info_email info) = Some existing ->
  (forall now t id updates key,
     unresolved (fst <$> updates) = Some key ->
     update now t id updates
     = (Throw (SqliteError ("no such column: " +:+ key)), t))
  /\ resolve "oauthId" = None /\ resolve "oauth_id" = Some ColOauthId
  /\ exists res st',
       reply env (loginHandler env req st) = (res, st')
       /\ a_status res = 500
       /\ a_body res
          = Plain (ErrorBody "no such column: oauthId"
                     (if development (base env) then Some "" else None))
       /\ accounts st' = accounts st.
Proof.
  cbv zeta. intros F E. split; [exact update_unknown_column|].
  split; [reflexivity|]. split; [reflexivity|].
  unfold loginHandler. rewrite F, E.
  rewrite update_oauthId.
  unfold reply, SqliteError.
  rewrite errorHandler_unnamed by discriminate.
  do 2 eexists. split; [reflexivity|]. simpl. auto.
Qed.

Lemma login_by_known_email_fails_witness :
  exists res st',
    reply Scenario.auth_env
      (loginHandler Scenario.auth_env (Scenario.login_request "github")
         Scenario.known_by_email) = (res, st')
    /\ a_status res = 500
    /\ a_body res
       = Plain (ErrorBody "no such column: oauthId"
                  (if development (base Scenario.auth_env) then Some "" else None))
    /\ accounts st' = accounts Scenario.known_by_email.
Proof.
  apply (login_by_known_email_fails Scenario.auth_env (Scenario.login_request "github")
           Scenario.known_by_email
           (mkAccount "a1" "google_777" "user@github.com" "Someone" "" 1690000000
              1690000000)); reflexivity.
Defined.

(** With the names of the columns the update goes through: the row is
    changed and read back, and a taken OAuth id is refused. *)
Example update_examples :
  update 1700000000 (accounts Scenario.known_by_email) "a1"
    [("oauth_id", "github_123456"); ("Name", "Some One")]
  = (Return (Some (mkAccount "a1" "github_123456" "user@github.com" "Some One" ""
                     1690000000 1700000000)),
     [mkAccount "a1" "github_123456" "user@github.com" "Some One" ""
        1690000000 1700000000])
  /\ update 1700000000 (accounts Scenario.known_by_email) "a1" []
     = (Return (Some (mkAccount "a1" "google_777" "user@github.com" "Someone" ""
                        1690000000 1690000000)),
        accounts Scenario.known_by_email)
  /\ fst (update 1700000000
            (accounts Scenario.known_by_email
             ++ [mkAccount "a2" "github_9" "x@y.z" "X" "" 1690000001 1690000001])
            "a1" [("oauth_id", "github_9")])
     = Throw (SqliteError "UNIQUE constraint failed: users.oauth_id")
  /\ fst (update 1700000000 (accounts Scenario.known_by_email) "a1"
            [("name", "Some One"); ("avatarUrl", "")])
     = Throw (SqliteError "no such column: avatarUrl").
Proof. repeat split; reflexivity. Qed.

End SigningIn.

(** ** The client *)

Section Client.

Import Frontend.

(** X27: after [clearTokens] the client holds no session: it does not
    count as authenticated, the interceptor leaves the headers of a request
    alone, [getCurrentUser] throws before any request is made, and every
    other key of the storage keeps its value. *)
Theorem cleared_session ls :
  isAuthenticated (clearTokens ls) = false
  /\ (forall h, with_token (clearTokens ls) h = h)
  /\ getCurrentUser_header (clearTokens ls) = Throw (Error "No token found")
  /\ clearTokens ls !! "refreshToken" = None
  /\ clearTokens ls !! "user" = None
  /\ forall k, k <> "accessToken" -> k <> "refreshToken" -> k <> "user" ->
       clearTokens ls !! k = ls !! k.
Proof.
  assert (T : clearTokens ls !! "accessToken" = None).
  { unfold clearTokens. rewrite !lookup_delete_ne by discriminate.
    apply lookup_delete_eq. }
  unfold isAuthenticated, with_token, getCurrentUser_header, getToken.
  rewrite T. repeat split.
  - unfold clearTokens. rewrite lookup_delete_ne by discriminate.
    apply lookup_delete_eq.
  - unfold clearTokens. apply lookup_delete_eq.
  - intros k N1 N2 N3. unfold clearTokens. now rewrite !lookup_delete_ne.
Qed.

Lemma toggle_valid area prev :
  In area areaOptions ->
  Forall (fun a => In a areaOptions) prev ->
  Forall (fun a => In a areaOptions) (handleFocusAreaToggle area prev).
Proof.
  intros A F. unfold handleFocusAreaToggle.
  destruct (Validators.includes prev area).
  - apply Forall_forall. intros a H. apply list_elem_of_filter in H as [_ H].
    rewrite Forall_forall in F. now apply F.
  - apply Forall_app. split; [exact F|]. now constructor.
Qed.

Lemma toggle_nodup area prev :
  NoDup prev -> NoDup (handleFocusAreaToggle area prev).
Proof.
  intros N. unfold handleFocusAreaToggle.
  destruct (Validators.includes prev area) eqn:I.
  - now apply NoDup_filter.
  - apply NoDup_app. split; [exact N|]. split; [|apply NoDup_singleton].
    intros a Ha Hs. apply list_elem_of_singleton in Hs. subst a.
    assert (Validators.includes prev area = true); [|congruence].
    unfold Validators.includes. apply existsb_exists. exists area.
    split; [now apply list_elem_of_In|apply String.eqb_refl].
Qed.

Lemma after_clicks_valid clicks :
  Forall (fun a => In a areaOptions) clicks ->
  Forall (fun a => In a areaOptions) (after_clicks clicks)
  /\ NoDup (after_clicks clicks).
Proof.
  unfold after_clicks.
  assert (G : forall start,
            Forall (fun a => In a areaOptions) start -> NoDup start ->
            Forall (fun a => In a areaOptions) clicks ->
            Forall (fun a => In a areaOptions)
              (foldl (fun prev area => handleFocusAreaToggle area prev) start clicks)
            /\ NoDup (foldl (fun prev area => handleFocusAreaToggle area prev) start clicks)).
  { induction clicks as [|a l IH]; intros start F N C; simpl; [auto|].
    inversion C as [|? ? Ha Hl]; subst.
    apply IH; [now apply toggle_valid|now apply toggle_nodup|exact Hl]. }
  intros C. apply G; [|apply NoDup_ListNoDup|exact C].
  - unfold initialFocusAreas, areaOptions. repeat constructor; simpl; tauto.
  - unfold initialFocusAreas.
    repeat constructor; simpl; intros H;
      repeat (destruct H as [H|H]; [discriminate H|]); exact H.
Qed.

(** The offered values have no white space around them. *)
Lemma option_is_trimmed s :
  In s languageOptions \/ In s skillOptions -> Js.trim s = s.
Proof.
  simpl. intros [H|H];
    repeat (destruct H as [<-|H]; [reflexivity|]); contradiction.
Qed.

(** X28: whatever the user clicks in the sidebar, the settings that are
    submitted pass the server's validation: the focus areas stay without
    repetition and among the five known ones (possibly none at all), the
    language and the skill level are among the accepted ones; so the
    request is accepted exactly when the trimmed code has 10 to 50000
    characters. *)
Theorem sidebar_settings_are_accepted code language skillLevel clicks :
  In language languageOptions -> In skillLevel skillOptions ->
  Forall (fun a => In a areaOptions) clicks ->
  NoDup (after_clicks clicks)
  /\ Validators.check_focusAreas (Some (after_clicks clicks)) = []
  /\ (Scenario.acceptable (submission code language skillLevel (after_clicks clicks))
      <-> 10 <= Z.of_nat (String.length (Js.trim code)) <= 50000).
Proof.
  intros L S C. destruct (after_clicks_valid clicks C) as [V N].
  assert (F : Forall (fun a => Validators.includes Validators.validAreas a = true)
                (after_clicks clicks)).
  { eapply Forall_impl; [exact V|]. simpl. intros a H.
    repeat (destruct H as [<-|H]; [reflexivity|]). contradiction. }
  split; [exact N|]. split; [now apply focus_nil|].
  unfold Scenario.acceptable, submission. simpl.
  rewrite (option_is_trimmed language) by auto.
  unfold Validators.isLength. cbv zeta. split.
  - intros (Len & _). apply andb_prop in Len as [A B]. lia.
  - intros Len. repeat split.
    + apply andb_true_intro. split; lia.
    + simpl in L. repeat (destruct L as [<-|L]; [reflexivity|]). contradiction.
    + intros s [= <-]. rewrite (option_is_trimmed skillLevel) by auto.
      simpl in S. repeat (destruct S as [<-|S]; [reflexivity|]). contradiction.
    + now intros areas [= <-].
Qed.

Lemma sidebar_settings_are_accepted_witness :
  NoDup (after_clicks ["all"; "bugs"; "all"])
  /\ Validators.check_focusAreas (Some (after_clicks ["all"; "bugs"; "all"])) = []
  /\ (Scenario.acceptable
        (submission Sample.snippet "python" "senior" (after_clicks ["all"; "bugs"; "all"]))
      <-> 10 <= Z.of_nat (String.length (Js.trim Sample.snippet)) <= 50000).
Proof.
  apply sidebar_settings_are_accepted.
  - simpl. tauto.
  - simpl. tauto.
  - repeat constructor; simpl; tauto.
Defined.

(** X29: the badge of a dimension and the figure of the overall score are
    coloured by the same rule, written in two ways: red below 60, yellow
    from 60 to 79, green from 80. *)
Theorem score_colours_agree score :
  badge_colour score = overall_colour score
  /\ (score < 60 -> badge_colour score = red)
  /\ (60 <= score < 80 -> badge_colour score = yellow)
  /\ (80 <= score -> badge_colour score = green).
Proof.
  unfold badge_colour, overall_colour.
  destruct (score <? 60) eqn:A, (score <? 80) eqn:B,
           (score >=? 80) eqn:C, (score >=? 60) eqn:D;
    repeat split; try reflexivity; intros; lia.
Qed.

End Client.
